(** * ChessMoveTestsGenerator: the move annotator and its fixture driver

    A shallow embedding of [chess_move_tests_generator.py].

    - Python values read from JSON are the trees of [PyValue]; a dict is an
      association list in insertion order.
    - A Python exception is the left side of [result]; the names of
      [PyError] are the exception classes the script can raise.
    - The [chess] package is used by the script through [chess.Board] and a
      few module functions.  The module functions and the value types
      ([Move], [Piece], square names) are defined below; the board itself is
      the interface [RulesEngine], and [PyChess.engine] is a model of the
      package's standard-chess board. *)

From Stdlib Require Import List ZArith Bool Ascii String Lia DecimalString.
Import ListNotations.
Local Open Scope string_scope.

Set Warnings "-register-all".

(** ** Exceptions and the error monad *)

Inductive PyError : Type :=
| KeyError | TypeError | AttributeError | ValueError | IndexError
| AssertionError | JSONDecodeError | FileNotFoundError | PermissionError
| OSError.

Definition result (A : Type) : Type := (PyError + A)%type.

Definition ok {A} (a : A) : result A := inr a.
Definition raise {A} (e : PyError) : result A := inl e.

Definition bind {A B} (r : result A) (k : A -> result B) : result B :=
  match r with
  | inl e => inl e
  | inr a => k a
  end.

Notation "x <- r ;; k" := (bind r (fun x => k))
  (at level 61, r at next level, right associativity).
Notation "' p <- r ;; k" := (bind r (fun x => let p := x in k))
  (at level 61, p pattern, r at next level, right associativity).

Fixpoint mapM {A B} (f : A -> result B) (l : list A) : result (list B) :=
  match l with
  | [] => ok []
  | a :: l' => b <- f a ;; bs <- mapM f l' ;; ok (b :: bs)
  end.

(** ** Python values *)

(** What [json.load] can build.  A float is kept as its IEEE 754 bit
    pattern: the script never computes with one. *)
Inductive PyValue : Type :=
| PyNone
| PyBool (b : bool)
| PyInt (z : Z)
| PyFloat (bits : Z)
| PyStr (s : string)
| PyList (l : list PyValue)
| PyDict (d : list (string * PyValue)).

Definition PyDictT : Type := list (string * PyValue).

Fixpoint dict_get (d : PyDictT) (k : string) : option PyValue :=
  match d with
  | [] => None
  | (k', v) :: d' => if String.eqb k' k then Some v else dict_get d' k
  end.

(** [d[k] = v]: an existing key keeps its place, a new key goes last. *)
Fixpoint dict_set (d : PyDictT) (k : string) (v : PyValue) : PyDictT :=
  match d with
  | [] => [(k, v)]
  | (k', v') :: d' =>
      if String.eqb k' k then (k', v) :: d' else (k', v') :: dict_set d' k v
  end.

(** The fields of a dict other than [k], in order. *)
Definition dict_without (k : string) (d : PyDictT) : PyDictT :=
  filter (fun kv => negb (String.eqb (fst kv) k)) d.

(** [obj[key]] for a string key. *)
Definition getitem (obj : PyValue) (key : string) : result PyValue :=
  match obj with
  | PyDict d =>
      match dict_get d key with
      | Some v => ok v
      | None => raise KeyError
      end
  | _ => raise TypeError
  end.

(** [obj[key] = v] for a string key. *)
Definition setitem (obj : PyValue) (key : string) (v : PyValue) : result PyValue :=
  match obj with
  | PyDict d => ok (PyDict (dict_set d key v))
  | _ => raise TypeError
  end.

Definition opt_str (o : option string) : PyValue :=
  match o with
  | Some s => PyStr s
  | None => PyNone
  end.

(** ** [str.upper] and [str.lower] on ASCII *)

Definition ascii_upper (c : ascii) : ascii :=
  let n := nat_of_ascii c in
  if (97 <=? n)%nat && (n <=? 122)%nat then ascii_of_nat (n - 32) else c.

Definition ascii_lower (c : ascii) : ascii :=
  let n := nat_of_ascii c in
  if (65 <=? n)%nat && (n <=? 90)%nat then ascii_of_nat (n + 32) else c.

Fixpoint str_map (f : ascii -> ascii) (s : string) : string :=
  match s with
  | EmptyString => EmptyString
  | String c s' => String (f c) (str_map f s')
  end.

Definition upper : string -> string := str_map ascii_upper.
Definition lower : string -> string := str_map ascii_lower.

(** ** Value types and module functions of the [chess] package *)

(** [chess.Color] is [bool]: [chess.WHITE = True], [chess.BLACK = False]. *)
Definition Color : Type := bool.
Definition WHITE : Color := true.
Definition BLACK : Color := false.

(** [chess.PieceType] is an [int] from 1 to 6. *)
Inductive PieceType : Type := PAWN | KNIGHT | BISHOP | ROOK | QUEEN | KING.

Definition piece_type_code (pt : PieceType) : Z :=
  match pt with
  | PAWN => 1 | KNIGHT => 2 | BISHOP => 3 | ROOK => 4 | QUEEN => 5 | KING => 6
  end.

Definition PieceType_eqb (a b : PieceType) : bool :=
  Z.eqb (piece_type_code a) (piece_type_code b).

(** [PIECE_SYMBOLS = [None, "p", "n", "b", "r", "q", "k"]]. *)
Definition piece_symbol (pt : PieceType) : string :=
  match pt with
  | PAWN => "p" | KNIGHT => "n" | BISHOP => "b"
  | ROOK => "r" | QUEEN => "q" | KING => "k"
  end.

Record Piece : Type := mkPiece { piece_type : PieceType; color : Color }.

(** [Piece.symbol]. *)
Definition symbol (p : Piece) : string :=
  let s := piece_symbol (piece_type p) in
  if color p then upper s else s.

(** [chess.Square] is an [int] from 0 (a1) to 63 (h8). *)
Definition Square : Type := Z.

Definition FILE_NAMES : list string := ["a"; "b"; "c"; "d"; "e"; "f"; "g"; "h"].
Definition RANK_NAMES : list string := ["1"; "2"; "3"; "4"; "5"; "6"; "7"; "8"].

(** [SQUARE_NAMES = [f + r for r in RANK_NAMES for f in FILE_NAMES]]. *)
Definition SQUARE_NAMES : list string :=
  Eval cbv in flat_map (fun r => map (fun f => f ++ r) FILE_NAMES) RANK_NAMES.

(** Python list indexing: a negative index counts from the end. *)
Definition py_index {A} (l : list A) (i : Z) : result A :=
  let n := Z.of_nat (List.length l) in
  let j := if (i <? 0)%Z then (i + n)%Z else i in
  if (0 <=? j)%Z && (j <? n)%Z then
    match nth_error l (Z.to_nat j) with
    | Some a => ok a
    | None => raise IndexError
    end
  else raise IndexError.

(** [chess.square_name]. *)
Definition square_name (sq : Square) : result string := py_index SQUARE_NAMES sq.

(** [chess.Move], without the [drop] field: only variant boards fill it. *)
Record Move : Type := mkMove {
  from_square : Square;
  to_square : Square;
  promotion : option PieceType
}.

(** Truth value of [move.promotion]: [None] and [0] are false. *)
Definition promotion_truthy (o : option PieceType) : bool :=
  match o with
  | Some pt => negb (Z.eqb (piece_type_code pt) 0)
  | None => false
  end.

(** ** The board, as the script uses it *)

(** The methods of [chess.Board] that the script calls.  The board object is
    mutable in Python; here [push] and [pop] return the board after the
    call.  [set_fen] is [chess.Board()] followed by [board.set_fen(fen)]. *)
Record RulesEngine : Type := mkEngine {
  Board : Type;
  set_fen : string -> result Board;
  legal_moves : Board -> list Move;
  piece_at : Board -> Square -> option Piece;
  turn : Board -> Color;
  is_kingside_castling : Board -> Move -> bool;
  is_queenside_castling : Board -> Move -> bool;
  is_en_passant : Board -> Move -> bool;
  is_capture : Board -> Move -> bool;
  push : Board -> Move -> result Board;
  pop : Board -> result Board;
  fen : Board -> string;
  uci : Board -> Move -> result string;
  san : Board -> Move -> result string;
  lan : Board -> Move -> result string
}.

(** The seven categories of the specification, in precedence order. *)
Inductive Classification : Type :=
| KingSideCastle | QueenSideCastle | EnPassant
| PromotionCapture | Promotion | Capture | Basic.

Definition classification_name (c : Classification) : string :=
  match c with
  | KingSideCastle => "KingSideCastle"
  | QueenSideCastle => "QueenSideCastle"
  | EnPassant => "EnPassant"
  | PromotionCapture => "PromotionCapture"
  | Promotion => "Promotion"
  | Capture => "Capture"
  | Basic => "Basic"
  end.

Definition all_classifications : list Classification :=
  [KingSideCastle; QueenSideCastle; EnPassant; PromotionCapture; Promotion;
   Capture; Basic].

(** [rec['move'][key]] of a move record. *)
Definition record_move_field (rec : PyValue) (key : string) : result PyValue :=
  mv <- getitem rec "move" ;; getitem mv key.

Section Annotator.

Variable E : RulesEngine.

(** [get_move_type(board, move)]. *)
Definition get_move_type (board : Board E) (move : Move) : string :=
  if is_kingside_castling E board move then "KingSideCastle"
  else if is_queenside_castling E board move then "QueenSideCastle"
  else if is_en_passant E board move then "EnPassant"
  else
    match promotion move with
    | Some _ =>
        if is_capture E board move then "PromotionCapture" else "Promotion"
    | None =>
        if is_capture E board move then "Capture" else "Basic"
    end.

(** The rules of section 4.1 of the specification, one test per category;
    the first rule whose test holds gives the category. *)
Definition precedence_rules (board : Board E) (move : Move)
  : list (bool * Classification) :=
  let promo := match promotion move with Some _ => true | None => false end in
  [ (is_kingside_castling E board move, KingSideCastle);
    (is_queenside_castling E board move, QueenSideCastle);
    (is_en_passant E board move, EnPassant);
    (promo && is_capture E board move, PromotionCapture);
    (promo, Promotion);
    (is_capture E board move, Capture);
    (true, Basic) ].

Fixpoint first_match (rules : list (bool * Classification)) : option Classification :=
  match rules with
  | [] => None
  | (true, c) :: _ => Some c
  | (false, _) :: rules' => first_match rules'
  end.

(** The promotion letter of lines 79-83. *)
Definition promotion_field (board : Board E) (move : Move) : option string :=
  if promotion_truthy (promotion move) then
    match promotion move with
    | Some pt =>
        let promo := piece_symbol pt in
        Some (if Bool.eqb (turn E board) WHITE then upper promo else lower promo)
    | None => None
    end
  else None.

(** The captured-piece letter of lines 85-88. *)
Definition capture_field (board : Board E) (move : Move) : option string :=
  let capture := piece_at E board (to_square move) in
  let capture := match capture with
                 | Some pc => Some (symbol pc)
                 | None => None
                 end in
  if is_en_passant E board move then
    Some (if Bool.eqb (turn E board) WHITE then "p" else "P")
  else capture.

(** One iteration of the loop of [add_test_data]: the record appended to
    [moves], and the board object as the iteration leaves it. *)
Definition annotate_move (board : Board E) (move : Move)
  : result (Board E * PyValue) :=
  from_sq <- square_name (from_square move) ;;
  to_sq <- square_name (to_square move) ;;
  piece <- match piece_at E board (from_square move) with
           | Some pc => ok (symbol pc)
           | None => raise AttributeError
           end ;;
  let promo := promotion_field board move in
  let capture := capture_field board move in
  let move_type := get_move_type board move in
  board1 <- push E board move ;;
  let fen_after := fen E board1 in
  board2 <- pop E board1 ;;
  uci_s <- uci E board2 move ;;
  san_s <- san E board2 move ;;
  lan_s <- lan E board2 move ;;
  ok (board2,
      PyDict [ ("move", PyDict [ ("from", PyStr from_sq);
                                 ("to", PyStr to_sq);
                                 ("piece", PyStr piece);
                                 ("capture", opt_str capture);
                                 ("promotion", opt_str promo);
                                 ("type", PyStr move_type) ]);
               ("uci", PyStr uci_s);
               ("san", PyStr san_s);
               ("lan", PyStr lan_s);
               ("fen", PyStr fen_after) ]).

(** The record of one move with every field read from the one position
    [board], and the resulting FEN from the position after the move: the
    record that sections 3 and 4 of the specification describe. *)
Definition record_of_position (board : Board E) (move : Move) : result PyValue :=
  from_sq <- square_name (from_square move) ;;
  to_sq <- square_name (to_square move) ;;
  piece <- match piece_at E board (from_square move) with
           | Some pc => ok (symbol pc)
           | None => raise AttributeError
           end ;;
  after <- push E board move ;;
  uci_s <- uci E board move ;;
  san_s <- san E board move ;;
  lan_s <- lan E board move ;;
  ok (PyDict [ ("move", PyDict [ ("from", PyStr from_sq);
                                 ("to", PyStr to_sq);
                                 ("piece", PyStr piece);
                                 ("capture", opt_str (capture_field board move));
                                 ("promotion", opt_str (promotion_field board move));
                                 ("type", PyStr (get_move_type board move)) ]);
               ("uci", PyStr uci_s);
               ("san", PyStr san_s);
               ("lan", PyStr lan_s);
               ("fen", PyStr (fen E after)) ]).

(** The serialized record of section 6 of the specification, for the move
    [move] of the position [board]: the two objects with their keys in
    order, the square names of the move, and the name of a category. *)
Definition is_move_record (board : Board E) (move : Move) (rec : PyValue) : Prop :=
  exists from_s to_s piece_s c uci_s san_s lan_s fen_s,
    square_name (from_square move) = ok from_s /\
    square_name (to_square move) = ok to_s /\
    get_move_type board move = classification_name c /\
    rec = PyDict [ ("move", PyDict [ ("from", PyStr from_s);
                                     ("to", PyStr to_s);
                                     ("piece", PyStr piece_s);
                                     ("capture", opt_str (capture_field board move));
                                     ("promotion", opt_str (promotion_field board move));
                                     ("type", PyStr (classification_name c)) ]);
                   ("uci", PyStr uci_s);
                   ("san", PyStr san_s);
                   ("lan", PyStr lan_s);
                   ("fen", PyStr fen_s) ].

(** The [for move in board.legal_moves] loop: the board object is threaded
    through the iterations, [moves] grows at its end.  [todo] holds the
    moves the generator has yet to yield; the generator runs only between
    two iterations. *)
Fixpoint moves_loop (board : Board E) (todo : list Move) (moves : list PyValue)
  : result (Board E * list PyValue) :=
  match todo with
  | [] => ok (board, moves)
  | move :: todo' =>
      '(board', rec) <- annotate_move board move ;;
      moves_loop board' todo' (moves ++ [rec])
  end.

(** [board.set_fen(test['fen'])]: a value that is not a [str] has no
    [split]. *)
Definition board_of_fen (v : PyValue) : result (Board E) :=
  match v with
  | PyStr s => set_fen E s
  | _ => raise AttributeError
  end.

(** [add_test_data(test)]: the test object after the call. *)
Definition add_test_data (test : PyValue) : result PyValue :=
  fen_v <- getitem test "fen" ;;
  board <- board_of_fen fen_v ;;
  '(_, moves) <- moves_loop board (legal_moves E board) [] ;;
  setitem test "moves" (PyList moves).

(** ** The fixture driver *)

(** [json.load] and [json.dump] belong to Python's library: the reader
    takes the text of a file, the writer takes the [minify] flag. *)
Variable json_loads : string -> result PyValue.
Variable json_dumps : bool -> PyValue -> string.

(** The files the process can see: the text behind each path. *)
Definition World : Type := string -> option string.

(** What the system does to a write is not the script's to decide.
    [open_error w path] is the error that [open(path, 'w')] raises in the
    world [w], if it raises: a missing directory, a path that may not be
    written; the files are then as they were.  Once the file is open it is
    empty; [dump_error w path text] is the error that stops [json.dump]
    while it sends [text], if one does, with the number of characters that
    got to the file: the [with] block closes the file and the error goes
    up. *)
Record System : Type := mkSystem {
  open_error : World -> string -> option PyError;
  dump_error : World -> string -> string -> option (PyError * nat) }.

Variable sys : System.

Record Args : Type := mkArgs { input : string; output : string; minify : bool }.

(** [read_tests_definitions(input)]. *)
Definition read_tests_definitions (w : World) (input : string) : result PyValue :=
  match w input with
  | Some text => json_loads text
  | None => raise FileNotFoundError
  end.

(** [write_tests_data(output, minify, tests)]: the world after the call
    and how the call ends.  [open] raises before anything is written; after
    it the file holds what [json.dump] sent, all of the text or the part
    before the error. *)
Definition write_tests_data (w : World) (output : string) (minify : bool)
    (tests : PyValue) : World * result unit :=
  match open_error sys w output with
  | Some e => (w, raise e)
  | None =>
      let text := json_dumps minify tests in
      match dump_error sys w output text with
      | Some (e, n) =>
          (fun path => if String.eqb path output then Some (substring 0 n text)
                       else w path,
           raise e)
      | None =>
          (fun path => if String.eqb path output then Some text else w path,
           ok tt)
      end
  end.

Fixpoint chars_of (s : string) : list PyValue :=
  match s with
  | EmptyString => []
  | String c s' => PyStr (String c EmptyString) :: chars_of s'
  end.

(** [for test in tests: add_test_data(test)]: a list yields its elements,
    which the calls update in place; a dict yields its keys and a [str]
    its characters, on which the call raises; nothing else iterates. *)
Definition process_tests (tests : PyValue) : result PyValue :=
  match tests with
  | PyList l => l' <- mapM add_test_data l ;; ok (PyList l')
  | PyDict d =>
      _ <- mapM add_test_data (map (fun kv => PyStr (fst kv)) d) ;; ok tests
  | PyStr s => _ <- mapM add_test_data (chars_of s) ;; ok tests
  | _ => raise TypeError
  end.

(** [main()], from the parsed arguments: the world it leaves and how it
    ends. *)
Definition main (w : World) (args : Args) : World * result unit :=
  match read_tests_definitions w (input args) with
  | inl e => (w, raise e)
  | inr tests =>
      match process_tests tests with
      | inl e => (w, raise e)
      | inr tests' => write_tests_data w (output args) (minify args) tests'
      end
  end.

End Annotator.

(** ** A model of the [chess] package's standard board *)

(** Modelled from the spec: the Rules Engine of sections 2 and 6 of the
    specification, which the script takes from the [chess] package
    (python-chess); the package is not part of the script.  The model
    follows the package's [Board] for standard chess ([chess960 = False]),
    method by method and in the package's move order.  The package keeps
    one 64-bit mask per piece type and colour; the model keeps the same
    information as one optional piece per square, and a mask is a
    membership test on squares.  Strings are ASCII. *)
Module PyChess.

Local Open Scope Z_scope.

(** *** Square sets *)

Definition SquareSet : Type := Square -> bool.

Definition SQUARES : list Square := Eval cbv in map Z.of_nat (seq 0 64).
Definition SQUARES_REVERSED : list Square := Eval cbv in rev SQUARES.

Definition BB_EMPTY : SquareSet := fun _ => false.
Definition BB_ALL : SquareSet := fun s => (0 <=? s) && (s <? 64).
Definition BB_SQUARES (sq : Square) : SquareSet := fun s => s =? sq.

Definition bb_and (a b : SquareSet) : SquareSet := fun s => a s && b s.
Definition bb_or (a b : SquareSet) : SquareSet := fun s => a s || b s.
Definition bb_not (a : SquareSet) : SquareSet := fun s => negb (a s).
Definition bb_list (l : list Square) : SquareSet :=
  fun s => existsb (Z.eqb s) l.

Definition scan_reversed (bb : SquareSet) : list Square := filter bb SQUARES_REVERSED.
Definition scan_forward (bb : SquareSet) : list Square := filter bb SQUARES.
Definition bb_bool (bb : SquareSet) : bool := existsb bb SQUARES.

(** [msb] and [lsb] of the empty mask are [-1]. *)
Definition msb (bb : SquareSet) : Square := hd (-1) (scan_reversed bb).
Definition lsb (bb : SquareSet) : Square := hd (-1) (scan_forward bb).

Definition square_file (sq : Square) : Z := Z.land sq 7.
Definition square_rank (sq : Square) : Z := Z.shiftr sq 3.
Definition square_mirror (sq : Square) : Square := Z.lxor sq 56.

Definition square_distance (a b : Square) : Z :=
  Z.max (Z.abs (square_file a - square_file b))
        (Z.abs (square_rank a - square_rank b)).

Definition BB_FILES (f : Z) : SquareSet := fun s => BB_ALL s && (square_file s =? f).
Definition BB_RANKS (r : Z) : SquareSet := fun s => BB_ALL s && (square_rank s =? r).

Definition A1 : Square := 0.
Definition C1 : Square := 2.
Definition D1 : Square := 3.
Definition E1 : Square := 4.
Definition F1 : Square := 5.
Definition G1 : Square := 6.
Definition H1 : Square := 7.
Definition A8 : Square := 56.
Definition C8 : Square := 58.
Definition D8 : Square := 59.
Definition E8 : Square := 60.
Definition F8 : Square := 61.
Definition G8 : Square := 62.
Definition H8 : Square := 63.

(** *** Attack sets *)

(** One direction of [_sliding_attacks]: step by [delta] until the board
    ends, the step wraps around an edge, or an occupied square is reached
    (which is still attacked).  Eight steps cover any line. *)
Fixpoint slide (fuel : nat) (sq delta : Z) (occupied : SquareSet) : list Square :=
  match fuel with
  | O => []
  | S fuel' =>
      let sq' := sq + delta in
      if negb ((0 <=? sq') && (sq' <? 64)) || (2 <? square_distance sq' sq)
      then []
      else sq' :: (if occupied sq' then [] else slide fuel' sq' delta occupied)
  end.

Definition sliding_squares (sq : Square) (occupied : SquareSet) (deltas : list Z)
  : list Square :=
  flat_map (fun delta => slide 8 sq delta occupied) deltas.

Definition _sliding_attacks (sq : Square) (occupied : SquareSet) (deltas : list Z)
  : SquareSet :=
  bb_list (sliding_squares sq occupied deltas).

Definition _step_attacks (sq : Square) (deltas : list Z) : SquareSet :=
  _sliding_attacks sq BB_ALL deltas.

Definition KNIGHT_DELTAS : list Z := [17; 15; 10; 6; -17; -15; -10; -6].
Definition KING_DELTAS : list Z := [9; 8; 7; 1; -9; -8; -7; -1].
Definition DIAG_DELTAS : list Z := [-9; -7; 7; 9].
Definition FILE_DELTAS : list Z := [-8; 8].
Definition RANK_DELTAS : list Z := [-1; 1].

Definition BB_KNIGHT_ATTACKS (sq : Square) : SquareSet := _step_attacks sq KNIGHT_DELTAS.
Definition BB_KING_ATTACKS (sq : Square) : SquareSet := _step_attacks sq KING_DELTAS.

(** [BB_PAWN_ATTACKS[color][sq]]: index [False] steps down the board. *)
Definition BB_PAWN_ATTACKS (c : Color) (sq : Square) : SquareSet :=
  _step_attacks sq (if c then [7; 9] else [-7; -9]).

Definition _edges (sq : Square) : SquareSet :=
  bb_or (bb_and (bb_or (BB_RANKS 0) (BB_RANKS 7)) (bb_not (BB_RANKS (square_rank sq))))
        (bb_and (bb_or (BB_FILES 0) (BB_FILES 7)) (bb_not (BB_FILES (square_file sq)))).

(** The masks and tables of [_attack_table]: the table entry of a square
    at a subset of its mask is [_sliding_attacks] at that subset. *)
Definition attack_mask (deltas : list Z) (sq : Square) : SquareSet :=
  bb_and (_sliding_attacks sq BB_EMPTY deltas) (bb_not (_edges sq)).

Definition attack_table (deltas : list Z) (sq : Square) (subset : SquareSet) : SquareSet :=
  _sliding_attacks sq subset deltas.

Definition BB_DIAG_MASKS := attack_mask DIAG_DELTAS.
Definition BB_FILE_MASKS := attack_mask FILE_DELTAS.
Definition BB_RANK_MASKS := attack_mask RANK_DELTAS.
Definition BB_DIAG_ATTACKS := attack_table DIAG_DELTAS.
Definition BB_FILE_ATTACKS := attack_table FILE_DELTAS.
Definition BB_RANK_ATTACKS := attack_table RANK_DELTAS.

(** [BB_RAYS[a][b]]. *)
Definition ray (a b : Square) : SquareSet :=
  if BB_DIAG_ATTACKS a BB_EMPTY b then
    bb_or (bb_and (BB_DIAG_ATTACKS a BB_EMPTY) (BB_DIAG_ATTACKS b BB_EMPTY))
          (bb_or (BB_SQUARES a) (BB_SQUARES b))
  else if BB_RANK_ATTACKS a BB_EMPTY b then
    bb_or (BB_RANK_ATTACKS a BB_EMPTY) (BB_SQUARES a)
  else if BB_FILE_ATTACKS a BB_EMPTY b then
    bb_or (BB_FILE_ATTACKS a BB_EMPTY) (BB_SQUARES a)
  else BB_EMPTY.

(** [between(a, b)]: the ray squares from the lower of the two up to the
    higher, without the lowest of them. *)
Definition between (a b : Square) : SquareSet :=
  let lo := Z.min a b in
  let hi := Z.max a b in
  bb_list (tl (scan_forward (fun s => ray a b s && (lo <=? s) && (s <? hi)))).

Definition bb_xor (a b : SquareSet) : SquareSet := fun s => xorb (a s) (b s).
Definition bb_eq (a b : SquareSet) : bool :=
  forallb (fun s => Bool.eqb (a s) (b s)) SQUARES.

(** A mask is a computed value: the squares of the board that pass the
    test. *)
Definition bb_value (bb : SquareSet) : SquareSet := bb_list (scan_forward bb).

(** *** The board *)

(** The fields that [_BoardState] saves and restores. *)
Record BoardState : Type := mkState {
  pieces : Square -> option Piece;
  promoted : SquareSet;
  turn : Color;
  castling_rights : SquareSet;
  ep_square : option Square;
  halfmove_clock : Z;
  fullmove_number : Z
}.

(** [chess.Board]: the current position, [move_stack] and [_stack], the
    newest entry first. *)
Record Board : Type := mkBoard {
  state : BoardState;
  move_stack : list Move;
  _stack : list BoardState
}.

Definition piece_at (b : Board) (sq : Square) : option Piece := pieces (state b) sq.

Definition piece_type_at (b : Board) (sq : Square) : option PieceType :=
  option_map piece_type (piece_at b sq).

Definition occupied (b : Board) : SquareSet :=
  fun s => BB_ALL s && match piece_at b s with Some _ => true | None => false end.

Definition occupied_co (b : Board) (c : Color) : SquareSet :=
  fun s => BB_ALL s &&
           match piece_at b s with
           | Some p => Bool.eqb (color p) c
           | None => false
           end.

Definition type_mask (pt : PieceType) (b : Board) : SquareSet :=
  fun s => BB_ALL s &&
           match piece_at b s with
           | Some p => PieceType_eqb (piece_type p) pt
           | None => false
           end.

Definition pawns := type_mask PAWN.
Definition knights := type_mask KNIGHT.
Definition bishops := type_mask BISHOP.
Definition rooks := type_mask ROOK.
Definition queens := type_mask QUEEN.
Definition kings := type_mask KING.

Definition pieces_mask (b : Board) (pt : PieceType) (c : Color) : SquareSet :=
  bb_and (type_mask pt b) (occupied_co b c).

Definition b_turn (b : Board) : Color := turn (state b).

(** [Board.king]. *)
Definition king (b : Board) (c : Color) : option Square :=
  match scan_reversed (bb_and (bb_and (occupied_co b c) (kings b))
                              (bb_not (promoted (state b)))) with
  | sq :: _ => Some sq
  | [] => None
  end.

(** [Board.attacks_mask]. *)
Definition attacks_mask (b : Board) (sq : Square) : SquareSet :=
  match piece_at b sq with
  | None => BB_EMPTY
  | Some p =>
      match piece_type p with
      | PAWN => BB_PAWN_ATTACKS (color p) sq
      | KNIGHT => BB_KNIGHT_ATTACKS sq
      | KING => BB_KING_ATTACKS sq
      | BISHOP => BB_DIAG_ATTACKS sq (bb_and (BB_DIAG_MASKS sq) (occupied b))
      | ROOK =>
          bb_or (BB_RANK_ATTACKS sq (bb_and (BB_RANK_MASKS sq) (occupied b)))
                (BB_FILE_ATTACKS sq (bb_and (BB_FILE_MASKS sq) (occupied b)))
      | QUEEN =>
          bb_or (BB_DIAG_ATTACKS sq (bb_and (BB_DIAG_MASKS sq) (occupied b)))
                (bb_or (BB_RANK_ATTACKS sq (bb_and (BB_RANK_MASKS sq) (occupied b)))
                       (BB_FILE_ATTACKS sq (bb_and (BB_FILE_MASKS sq) (occupied b))))
      end
  end.

(** [Board._attackers_mask]. *)
Definition _attackers_mask (b : Board) (c : Color) (sq : Square) (occ : SquareSet)
  : SquareSet :=
  let rank_pieces := bb_and (BB_RANK_MASKS sq) occ in
  let file_pieces := bb_and (BB_FILE_MASKS sq) occ in
  let diag_pieces := bb_and (BB_DIAG_MASKS sq) occ in
  let queens_and_rooks := bb_or (queens b) (rooks b) in
  let queens_and_bishops := bb_or (queens b) (bishops b) in
  let attackers :=
    bb_or (bb_and (BB_KING_ATTACKS sq) (kings b))
   (bb_or (bb_and (BB_KNIGHT_ATTACKS sq) (knights b))
   (bb_or (bb_and (BB_RANK_ATTACKS sq rank_pieces) queens_and_rooks)
   (bb_or (bb_and (BB_FILE_ATTACKS sq file_pieces) queens_and_rooks)
   (bb_or (bb_and (BB_DIAG_ATTACKS sq diag_pieces) queens_and_bishops)
          (bb_and (BB_PAWN_ATTACKS (negb c) sq) (pawns b)))))) in
  bb_value (bb_and attackers (occupied_co b c)).

Definition attackers_mask (b : Board) (c : Color) (sq : Square) : SquareSet :=
  _attackers_mask b c sq (occupied b).

Definition is_attacked_by (b : Board) (c : Color) (sq : Square) : bool :=
  bb_bool (attackers_mask b c sq).

Definition _attacked_for_king (b : Board) (path occ : SquareSet) : bool :=
  existsb (fun sq => bb_bool (_attackers_mask b (negb (b_turn b)) sq occ))
          (scan_reversed path).

(** [Board.is_castling]. *)
Definition is_castling (b : Board) (m : Move) : bool :=
  if kings b (from_square m) then
    let diff := square_file (from_square m) - square_file (to_square m) in
    (1 <? Z.abs diff) ||
    bb_and (rooks b) (occupied_co b (b_turn b)) (to_square m)
  else false.

Definition is_kingside_castling (b : Board) (m : Move) : bool :=
  is_castling b m && (square_file (from_square m) <? square_file (to_square m)).

Definition is_queenside_castling (b : Board) (m : Move) : bool :=
  is_castling b m && (square_file (to_square m) <? square_file (from_square m)).

Definition opt_square_eqb (o : option Square) (sq : Square) : bool :=
  match o with
  | Some s => s =? sq
  | None => false
  end.

(** [Board.is_en_passant]. *)
Definition is_en_passant (b : Board) (m : Move) : bool :=
  opt_square_eqb (ep_square (state b)) (to_square m) &&
  pawns b (from_square m) &&
  (let d := Z.abs (to_square m - from_square m) in (d =? 7) || (d =? 9)) &&
  negb (occupied b (to_square m)).

(** [Board.is_capture]. *)
Definition is_capture (b : Board) (m : Move) : bool :=
  let touched := bb_xor (BB_SQUARES (from_square m)) (BB_SQUARES (to_square m)) in
  bb_bool (bb_and touched (occupied_co b (negb (b_turn b)))) || is_en_passant b m.

(** [Board.is_zeroing]. *)
Definition is_zeroing (b : Board) (m : Move) : bool :=
  let touched := bb_xor (BB_SQUARES (from_square m)) (BB_SQUARES (to_square m)) in
  bb_bool (bb_and touched (pawns b)) ||
  bb_bool (bb_and touched (occupied_co b (negb (b_turn b)))).

(** [Board.clean_castling_rights] with [chess960 = False]. *)
Definition clean_castling_rights (b : Board) : SquareSet :=
  match _stack b with
  | _ :: _ => castling_rights (state b)
  | [] =>
      let castling := bb_and (castling_rights (state b)) (rooks b) in
      let white_castling :=
        bb_and (bb_and (bb_and castling (BB_RANKS 0)) (occupied_co b WHITE))
               (bb_or (BB_SQUARES A1) (BB_SQUARES H1)) in
      let black_castling :=
        bb_and (bb_and (bb_and castling (BB_RANKS 7)) (occupied_co b BLACK))
               (bb_or (BB_SQUARES A8) (BB_SQUARES H8)) in
      let white_castling :=
        if bb_and (bb_and (occupied_co b WHITE) (kings b))
                  (bb_not (promoted (state b))) E1
        then white_castling else BB_EMPTY in
      let black_castling :=
        if bb_and (bb_and (occupied_co b BLACK) (kings b))
                  (bb_not (promoted (state b))) E8
        then black_castling else BB_EMPTY in
      bb_value (bb_or white_castling black_castling)
  end.

(** [Board._from_chess960] with [chess960 = False]. *)
Definition _from_chess960 (b : Board) (from to : Square) (promo : option PieceType)
  : Move :=
  match promo with
  | None =>
      if (from =? E1) && kings b E1 then
        if to =? H1 then mkMove E1 G1 None
        else if to =? A1 then mkMove E1 C1 None
        else mkMove from to promo
      else if (from =? E8) && kings b E8 then
        if to =? H8 then mkMove E8 G8 None
        else if to =? A8 then mkMove E8 C8 None
        else mkMove from to promo
      else mkMove from to promo
  | Some _ => mkMove from to promo
  end.

(** [Board._to_chess960]. *)
Definition _to_chess960 (b : Board) (m : Move) : Move :=
  if (from_square m =? E1) && kings b E1 then
    if (to_square m =? G1) && negb (rooks b G1) then mkMove E1 H1 None
    else if (to_square m =? C1) && negb (rooks b C1) then mkMove E1 A1 None
    else m
  else if (from_square m =? E8) && kings b E8 then
    if (to_square m =? G8) && negb (rooks b G8) then mkMove E8 H8 None
    else if (to_square m =? C8) && negb (rooks b C8) then mkMove E8 A8 None
    else m
  else m.

(** *** Move generation *)

Definition ep_truthy (o : option Square) : bool :=
  match o with
  | Some sq => negb (sq =? 0)
  | None => false
  end.

(** The moves of a pawn step from [from] to [to]: the four promotions on a
    back rank, in the package's order. *)
Definition pawn_moves (from to : Square) : list Move :=
  if (square_rank to =? 0) || (square_rank to =? 7) then
    [ mkMove from to (Some QUEEN); mkMove from to (Some ROOK);
      mkMove from to (Some BISHOP); mkMove from to (Some KNIGHT) ]
  else [ mkMove from to None ].

(** [Board.generate_pseudo_legal_ep]. *)
Definition generate_pseudo_legal_ep (b : Board) (from_mask to_mask : SquareSet)
  : list Move :=
  match ep_square (state b) with
  | None => []
  | Some ep =>
      if negb (ep_truthy (Some ep)) || negb (to_mask ep) then []
      else if occupied b ep then []
      else
        let capturers :=
          bb_and (bb_and (bb_and (bb_and (pawns b) (occupied_co b (b_turn b))) from_mask)
                         (BB_PAWN_ATTACKS (negb (b_turn b)) ep))
                 (BB_RANKS (if b_turn b then 4 else 3)) in
        map (fun capturer => mkMove capturer ep None) (scan_reversed capturers)
  end.

(** [Board.generate_castling_moves]. *)
Definition generate_castling_moves (b : Board) (from_mask to_mask : SquareSet)
  : list Move :=
  let backrank_no := if b_turn b then 0 else 7 in
  let backrank := BB_RANKS backrank_no in
  let king_mask :=
    bb_and (bb_and (bb_and (bb_and (occupied_co b (b_turn b)) (kings b))
                           (bb_not (promoted (state b)))) backrank) from_mask in
  match scan_forward king_mask with
  | [] => []
  | king_sq :: _ =>
      let king_bb := BB_SQUARES king_sq in
      let sq_c := 2 + 8 * backrank_no in
      let sq_d := 3 + 8 * backrank_no in
      let sq_f := 5 + 8 * backrank_no in
      let sq_g := 6 + 8 * backrank_no in
      flat_map
        (fun candidate =>
           let rook := BB_SQUARES candidate in
           let a_side := candidate <? king_sq in
           let king_to := if a_side then sq_c else sq_g in
           let rook_to := if a_side then sq_d else sq_f in
           let king_path := between king_sq king_to in
           let rook_path := between candidate rook_to in
           let occ := occupied b in
           if bb_bool (bb_and (bb_xor (bb_xor occ king_bb) rook)
                              (bb_or (bb_or king_path rook_path)
                                     (bb_or (BB_SQUARES king_to) (BB_SQUARES rook_to))))
              || _attacked_for_king b (bb_or king_path king_bb) (bb_xor occ king_bb)
              || _attacked_for_king b (BB_SQUARES king_to)
                   (bb_xor (bb_xor (bb_xor occ king_bb) rook) (BB_SQUARES rook_to))
           then []
           else [ _from_chess960 b king_sq candidate None ])
        (scan_reversed (bb_and (bb_and (clean_castling_rights b) backrank) to_mask))
  end.

(** [Board.generate_pseudo_legal_moves]. *)
Definition generate_pseudo_legal_moves (b : Board) (from_mask to_mask : SquareSet)
  : list Move :=
  let our_pieces := occupied_co b (b_turn b) in
  let non_pawns := bb_and (bb_and our_pieces (bb_not (pawns b))) from_mask in
  let piece_moves :=
    flat_map
      (fun from =>
         map (fun to => mkMove from to None)
             (scan_reversed (bb_and (bb_and (attacks_mask b from) (bb_not our_pieces))
                                    to_mask)))
      (scan_reversed non_pawns) in
  let castling :=
    if bb_bool (bb_and from_mask (kings b))
    then generate_castling_moves b from_mask to_mask
    else [] in
  let our_pawns := bb_and (bb_and (pawns b) our_pieces) from_mask in
  if negb (bb_bool our_pawns) then piece_moves ++ castling
  else
    let captures :=
      flat_map
        (fun from =>
           flat_map (pawn_moves from)
             (scan_reversed
                (bb_and (bb_and (BB_PAWN_ATTACKS (b_turn b) from)
                                (occupied_co b (negb (b_turn b))))
                        to_mask)))
        (scan_reversed our_pawns) in
    let step := if b_turn b then 8 else -8 in
    let single_all : SquareSet :=
      fun to => our_pawns (to - step) && negb (occupied b to) in
    let double_all : SquareSet :=
      fun to => single_all (to - step) && negb (occupied b to) &&
                (if b_turn b then bb_or (BB_RANKS 2) (BB_RANKS 3) to
                 else bb_or (BB_RANKS 5) (BB_RANKS 4) to) in
    let single_moves := bb_and single_all to_mask in
    let double_moves := bb_and double_all to_mask in
    let singles :=
      flat_map (fun to => pawn_moves (to - step) to) (scan_reversed single_moves) in
    let doubles :=
      map (fun to => mkMove (to - 2 * step) to None) (scan_reversed double_moves) in
    let eps :=
      if ep_truthy (ep_square (state b))
      then generate_pseudo_legal_ep b from_mask to_mask
      else [] in
    piece_moves ++ castling ++ captures ++ singles ++ doubles ++ eps.

(** [Board._slider_blockers]. *)
Definition _slider_blockers (b : Board) (king_sq : Square) : SquareSet :=
  let rooks_and_queens := bb_or (rooks b) (queens b) in
  let bishops_and_queens := bb_or (bishops b) (queens b) in
  let snipers :=
    bb_or (bb_and (BB_RANK_ATTACKS king_sq BB_EMPTY) rooks_and_queens)
   (bb_or (bb_and (BB_FILE_ATTACKS king_sq BB_EMPTY) rooks_and_queens)
          (bb_and (BB_DIAG_ATTACKS king_sq BB_EMPTY) bishops_and_queens)) in
  let blockers :=
    flat_map
      (fun sniper =>
         match scan_reversed (bb_and (between king_sq sniper) (occupied b)) with
         | [sq] => [sq]
         | _ => []
         end)
      (scan_reversed (bb_and snipers (occupied_co b (negb (b_turn b))))) in
  bb_value (bb_and (bb_list blockers) (occupied_co b (b_turn b))).

(** [Board.pin_mask]. *)
Definition pin_mask (b : Board) (c : Color) (sq : Square) : SquareSet :=
  match king b c with
  | None => BB_ALL
  | Some king_sq =>
      let square_mask := BB_SQUARES sq in
      let try_line (attacks : Square -> SquareSet -> SquareSet) (sliders : SquareSet)
          : option SquareSet :=
        let rays := attacks king_sq BB_EMPTY in
        if rays sq then
          let snipers := bb_and (bb_and rays sliders) (occupied_co b (negb c)) in
          Some (match
                   find (fun sniper =>
                           bb_eq (bb_and (between sniper king_sq)
                                         (bb_or (occupied b) square_mask))
                                 (bb_and square_mask BB_ALL))
                        (scan_reversed snipers)
                 with
                 | Some sniper => ray king_sq sniper
                 | None => BB_ALL
                 end)
        else None in
      match try_line BB_FILE_ATTACKS (bb_or (rooks b) (queens b)) with
      | Some r => r
      | None =>
          match try_line BB_RANK_ATTACKS (bb_or (rooks b) (queens b)) with
          | Some r => r
          | None =>
              match try_line BB_DIAG_ATTACKS (bb_or (bishops b) (queens b)) with
              | Some r => r
              | None => BB_ALL
              end
          end
      end
  end.

(** [Board._ep_skewered]; the caller has checked that [ep_square] is set. *)
Definition _ep_skewered (b : Board) (king_sq capturer : Square) : bool :=
  match ep_square (state b) with
  | None => false
  | Some ep =>
      let last_double := ep + (if b_turn b then -8 else 8) in
      let occupancy :=
        bb_or (bb_and (bb_and (occupied b) (bb_not (BB_SQUARES last_double)))
                      (bb_not (BB_SQUARES capturer)))
              (BB_SQUARES ep) in
      let horizontal_attackers :=
        bb_and (occupied_co b (negb (b_turn b))) (bb_or (rooks b) (queens b)) in
      if bb_bool (bb_and (BB_RANK_ATTACKS king_sq (bb_and (BB_RANK_MASKS king_sq) occupancy))
                         horizontal_attackers)
      then true
      else
        let diagonal_attackers :=
          bb_and (occupied_co b (negb (b_turn b))) (bb_or (bishops b) (queens b)) in
        bb_bool (bb_and (BB_DIAG_ATTACKS king_sq (bb_and (BB_DIAG_MASKS king_sq) occupancy))
                        diagonal_attackers)
  end.

(** [Board._is_safe]. *)
Definition _is_safe (b : Board) (king_sq : Square) (blockers : SquareSet) (m : Move)
  : bool :=
  if from_square m =? king_sq then
    if is_castling b m then true
    else negb (is_attacked_by b (negb (b_turn b)) (to_square m))
  else if is_en_passant b m then
    pin_mask b (b_turn b) (from_square m) (to_square m) &&
    negb (_ep_skewered b king_sq (from_square m))
  else
    negb (blockers (from_square m)) ||
    ray (from_square m) (to_square m) king_sq.

(** [Board._generate_evasions]. *)
Definition _generate_evasions (b : Board) (king_sq : Square) (checkers : SquareSet)
    (from_mask to_mask : SquareSet) : list Move :=
  let sliders := bb_and checkers (bb_or (bb_or (bishops b) (rooks b)) (queens b)) in
  let attacked :=
    bb_value (fun s => existsb (fun checker => ray king_sq checker s && negb (s =? checker))
                               (scan_reversed sliders)) in
  let king_moves :=
    if from_mask king_sq then
      map (fun to => mkMove king_sq to None)
          (scan_reversed
             (bb_and (bb_and (bb_and (BB_KING_ATTACKS king_sq)
                                     (bb_not (occupied_co b (b_turn b))))
                             (bb_not attacked))
                     to_mask))
    else [] in
  match scan_reversed checkers with
  | [checker] =>
      let target := bb_or (between king_sq checker) checkers in
      let blocks :=
        generate_pseudo_legal_moves b (bb_and (bb_not (kings b)) from_mask)
                                    (bb_and target to_mask) in
      let eps :=
        match ep_square (state b) with
        | Some ep =>
            if ep_truthy (Some ep) && negb (target ep) then
              let last_double := ep + (if b_turn b then -8 else 8) in
              if last_double =? checker
              then generate_pseudo_legal_ep b from_mask to_mask
              else []
            else []
        | None => []
        end in
      king_moves ++ blocks ++ eps
  | _ => king_moves
  end.

(** [Board.generate_legal_moves]; a standard board has no variant end. *)
Definition generate_legal_moves (b : Board) (from_mask to_mask : SquareSet)
  : list Move :=
  match scan_reversed (bb_and (kings b) (occupied_co b (b_turn b))) with
  | king_sq :: _ =>
      let blockers := _slider_blockers b king_sq in
      let checkers := attackers_mask b (negb (b_turn b)) king_sq in
      if bb_bool checkers then
        filter (_is_safe b king_sq blockers)
               (_generate_evasions b king_sq checkers from_mask to_mask)
      else
        filter (_is_safe b king_sq blockers)
               (generate_pseudo_legal_moves b from_mask to_mask)
  | [] => generate_pseudo_legal_moves b from_mask to_mask
  end.

(** Modelled from the spec: [legal_moves(Position)] of section 6, which
    the script calls as [board.legal_moves]: the moves in the order in which
    the package's generator yields them. *)
Definition legal_moves (b : Board) : list Move := generate_legal_moves b BB_ALL BB_ALL.

(** *** Making and unmaking moves *)

Definition with_pieces (st : BoardState) (ps : Square -> option Piece)
    (pr : SquareSet) : BoardState :=
  mkState ps pr (turn st) (castling_rights st) (ep_square st)
          (halfmove_clock st) (fullmove_number st).

(** [Board._remove_piece_at]: the type of the piece taken off, if any. *)
Definition _remove_piece_at (st : BoardState) (sq : Square)
  : option PieceType * BoardState :=
  match pieces st sq with
  | None => (None, st)
  | Some p =>
      (Some (piece_type p),
       with_pieces st (fun s => if s =? sq then None else pieces st s)
                   (bb_and (promoted st) (bb_not (BB_SQUARES sq))))
  end.

(** [Board._set_piece_at]. *)
Definition _set_piece_at (st : BoardState) (sq : Square) (pt : PieceType)
    (c : Color) (prom : bool) : BoardState :=
  let st := snd (_remove_piece_at st sq) in
  with_pieces st (fun s => if s =? sq then Some (mkPiece pt c) else pieces st s)
              (if prom then bb_or (promoted st) (BB_SQUARES sq) else promoted st).

(** Truth value of a move: the null move [0000] is false. *)
Definition move_truthy (m : Move) : bool :=
  negb (from_square m =? 0) || negb (to_square m =? 0) ||
  promotion_truthy (promotion m).

(** The part of [Board.push] after the moving piece [pt] has been taken
    off its square: [st] is the state without it, [promoted_flag] tells
    whether it was a promoted piece, [ep] is the en-passant square [push]
    found. *)
Definition push_moved (st : BoardState) (ep : option Square) (move : Move)
    (pt : PieceType) (promoted_flag : bool) : BoardState :=
  let from := from_square move in
  let to := to_square move in
  let captured := option_map piece_type (pieces st to) in
  (* Update castling rights. *)
  let cr := bb_and (castling_rights st)
                   (bb_and (bb_not (BB_SQUARES to)) (bb_not (BB_SQUARES from))) in
  let cr :=
    if PieceType_eqb pt KING && negb promoted_flag then
      bb_and cr (bb_not (BB_RANKS (if turn st then 0 else 7)))
    else if match captured with Some KING => true | _ => false end
            && negb (promoted st to) then
      if turn st && (square_rank to =? 7) then bb_and cr (bb_not (BB_RANKS 7))
      else if negb (turn st) && (square_rank to =? 0)
           then bb_and cr (bb_not (BB_RANKS 0))
           else cr
    else cr in
  let st := mkState (pieces st) (promoted st) (turn st) (bb_value cr)
                    (ep_square st) (halfmove_clock st) (fullmove_number st) in
  (* Handle special pawn moves. *)
  let diff := to - from in
  let '(st, captured) :=
    if PieceType_eqb pt PAWN then
      if (diff =? 16) && (square_rank from =? 1) then
        (mkState (pieces st) (promoted st) (turn st) (castling_rights st)
                 (Some (from + 8)) (halfmove_clock st) (fullmove_number st),
         captured)
      else if (diff =? -16) && (square_rank from =? 6) then
        (mkState (pieces st) (promoted st) (turn st) (castling_rights st)
                 (Some (from - 8)) (halfmove_clock st) (fullmove_number st),
         captured)
      else
        match ep, captured with
        | Some ep_sq, None =>
            if (to =? ep_sq) && ((Z.abs diff =? 7) || (Z.abs diff =? 9)) then
              let down := if turn st then -8 else 8 in
              let '(taken, st') := _remove_piece_at st (ep_sq + down) in
              (st', taken)
            else (st, captured)
        | _, _ => (st, captured)
        end
    else (st, captured) in
  (* Promotion. *)
  let '(promoted_flag, pt) :=
    if promotion_truthy (promotion move) then
      match promotion move with
      | Some p => (true, p)
      | None => (promoted_flag, pt)
      end
    else (promoted_flag, pt) in
  (* Castling. *)
  let castling :=
    PieceType_eqb pt KING &&
    match pieces st to with
    | Some p => BB_ALL to && Bool.eqb (color p) (turn st)
    | None => false
    end in
  let st :=
    if castling then
      let a_side := square_file to <? square_file from in
      let st := snd (_remove_piece_at st from) in
      let st := snd (_remove_piece_at st to) in
      if a_side then
        let st := _set_piece_at st (if turn st then C1 else C8) KING (turn st) false in
        _set_piece_at st (if turn st then D1 else D8) ROOK (turn st) false
      else
        let st := _set_piece_at st (if turn st then G1 else G8) KING (turn st) false in
        _set_piece_at st (if turn st then F1 else F8) ROOK (turn st) false
    else _set_piece_at st to pt (turn st) promoted_flag in
  (* Swap turn. *)
  mkState (pieces st) (promoted st) (negb (turn st)) (castling_rights st)
          (ep_square st) (halfmove_clock st) (fullmove_number st).

(** The part of [Board.push] after the null-move test: [b] is the board
    as [push] found it, [st] the state with the counters already
    advanced.  [push] asserts that the origin square holds a piece. *)
Definition push_pieces (b : Board) (st : BoardState) (ep : option Square) (move : Move)
  : result BoardState :=
  let st := if is_zeroing b move
            then mkState (pieces st) (promoted st) (turn st) (castling_rights st)
                         (ep_square st) 0 (fullmove_number st)
            else st in
  let promoted_flag := promoted st (from_square move) in
  match _remove_piece_at st (from_square move) with
  | (None, _) => raise AssertionError
  | (Some pt, st) => ok (push_moved st ep move pt promoted_flag)
  end.

(** Modelled from the spec: [apply(Position, Move)] of section 6, which
    the script calls as [Board.push]: the state before the move is saved on
    [_stack], the move goes on [move_stack]. *)
Definition push (b : Board) (m : Move) : result Board :=
  let move := _to_chess960 b m in
  let board_state := state b in
  let st := state b in
  let cr := clean_castling_rights b in
  let entry := _from_chess960 b (from_square move) (to_square move) (promotion move) in
  let ep := ep_square st in
  let st := mkState (pieces st) (promoted st) (turn st) cr None
                    (halfmove_clock st + 1)
                    (if turn st then fullmove_number st else fullmove_number st + 1) in
  st' <- (if negb (move_truthy move) then
            ok (mkState (pieces st) (promoted st) (negb (turn st)) (castling_rights st)
                        (ep_square st) (halfmove_clock st) (fullmove_number st))
          else push_pieces b st ep move) ;;
  ok (mkBoard st' (entry :: move_stack b) (board_state :: _stack b)).

(** Modelled from the spec: the discard step of section 4.3, which the
    script calls as [Board.pop]: the saved state is restored; the value is
    the board after the call. *)
Definition pop (b : Board) : result Board :=
  match move_stack b with
  | [] => raise IndexError
  | _ :: moves =>
      match _stack b with
      | [] => raise IndexError
      | saved :: rest => ok (mkBoard saved moves rest)
      end
  end.

(** *** Check, mate and legal en passant *)

Definition checkers_mask (b : Board) : SquareSet :=
  match king b (b_turn b) with
  | None => BB_EMPTY
  | Some king_sq => attackers_mask b (negb (b_turn b)) king_sq
  end.

Definition is_check (b : Board) : bool := bb_bool (checkers_mask b).

Definition is_checkmate (b : Board) : bool :=
  if negb (is_check b) then false
  else match legal_moves b with
       | [] => true
       | _ :: _ => false
       end.

Definition Move_eqb (m1 m2 : Move) : bool :=
  (from_square m1 =? from_square m2) && (to_square m1 =? to_square m2) &&
  match promotion m1, promotion m2 with
  | Some p1, Some p2 => PieceType_eqb p1 p2
  | None, None => true
  | _, _ => false
  end.

(** [Board.is_into_check]. *)
Definition is_into_check (b : Board) (m : Move) : bool :=
  match king b (b_turn b) with
  | None => false
  | Some king_sq =>
      let checkers := attackers_mask b (negb (b_turn b)) king_sq in
      if bb_bool checkers &&
         negb (existsb (Move_eqb m)
                 (_generate_evasions b king_sq checkers
                    (BB_SQUARES (from_square m)) (BB_SQUARES (to_square m))))
      then true
      else negb (_is_safe b king_sq (_slider_blockers b king_sq) m)
  end.

Definition generate_legal_ep (b : Board) (from_mask to_mask : SquareSet) : list Move :=
  filter (fun m => negb (is_into_check b m))
         (generate_pseudo_legal_ep b from_mask to_mask).

Definition has_legal_en_passant (b : Board) : bool :=
  match ep_square (state b) with
  | None => false
  | Some _ =>
      match generate_legal_ep b BB_ALL BB_ALL with
      | [] => false
      | _ :: _ => true
      end
  end.

(** *** Strings *)

Local Open Scope string_scope.

Definition str_of_char (c : ascii) : string := String c EmptyString.

(** [str(n)] for an [int]. *)
Definition str_of_int (n : Z) : string := NilZero.string_of_int (Z.to_int n).

(** ASCII white space, as [str.split()] sees it. *)
Definition is_space (c : ascii) : bool :=
  let n := nat_of_ascii c in
  ((9 <=? n)%nat && (n <=? 13)%nat) || ((28 <=? n)%nat && (n <=? 32)%nat).

Fixpoint split_ws_aux (s cur : string) : list string :=
  match s with
  | EmptyString => if String.eqb cur "" then [] else [cur]
  | String c s' =>
      if is_space c then
        if String.eqb cur "" then split_ws_aux s' ""
        else cur :: split_ws_aux s' ""
      else split_ws_aux s' (cur ++ str_of_char c)
  end.

(** [s.split()]. *)
Definition split_ws (s : string) : list string := split_ws_aux s "".

Fixpoint split_char_aux (sep : ascii) (s cur : string) : list string :=
  match s with
  | EmptyString => [cur]
  | String c s' =>
      if Ascii.eqb c sep then cur :: split_char_aux sep s' ""
      else split_char_aux sep s' (cur ++ str_of_char c)
  end.

(** [s.split(sep)] for a separator of one character. *)
Definition split_char (sep : ascii) (s : string) : list string :=
  split_char_aux sep s "".

Definition is_digit (c : ascii) : bool :=
  let n := nat_of_ascii c in (48 <=? n)%nat && (n <=? 57)%nat.

Definition digit_value (c : ascii) : Z := Z.of_nat (nat_of_ascii c - 48).

Definition is_upper (c : ascii) : bool :=
  let n := nat_of_ascii c in (65 <=? n)%nat && (n <=? 90)%nat.

(** The digits of [int(s)] after the sign: digits, with single
    underscores between them. *)
Fixpoint parse_digits (s : string) (acc : Z) (prev_digit : bool) : option Z :=
  match s with
  | EmptyString => if prev_digit then Some acc else None
  | String c s' =>
      if is_digit c then parse_digits s' (10 * acc + digit_value c)%Z true
      else if Ascii.eqb c "_" && prev_digit then parse_digits s' acc false
      else None
  end.

(** [int(s)] for a string without white space. *)
Definition parse_int (s : string) : option Z :=
  match s with
  | String "-" s' => option_map Z.opp (parse_digits s' 0 false)
  | String "+" s' => parse_digits s' 0 false
  | _ => parse_digits s 0 false
  end.

(** [PIECE_SYMBOLS.index(c.lower())], if there. *)
Definition piece_type_of_char (c : ascii) : option PieceType :=
  let l := ascii_lower c in
  if Ascii.eqb l "p" then Some PAWN
  else if Ascii.eqb l "n" then Some KNIGHT
  else if Ascii.eqb l "b" then Some BISHOP
  else if Ascii.eqb l "r" then Some ROOK
  else if Ascii.eqb l "q" then Some QUEEN
  else if Ascii.eqb l "k" then Some KING
  else None.

Definition is_digit_1_8 (c : ascii) : bool :=
  let n := nat_of_ascii c in (49 <=? n)%nat && (n <=? 56)%nat.

(** *** Reading a FEN *)

(** The row check of [_set_board_fen]: the fields the row fills, if it is
    well formed. *)
Fixpoint row_sum (row : string) (field_sum : Z) (prev_digit prev_piece : bool)
  : option Z :=
  match row with
  | EmptyString => Some field_sum
  | String c row' =>
      if is_digit_1_8 c then
        if prev_digit then None
        else row_sum row' (field_sum + digit_value c)%Z true false
      else if Ascii.eqb c "~" then
        if prev_piece then row_sum row' field_sum false false else None
      else
        match piece_type_of_char c with
        | Some _ => row_sum row' (field_sum + 1)%Z false true
        | None => None
        end
  end.

Definition row_ok (row : string) : bool :=
  match row_sum row 0 false false with
  | Some n => (n =? 8)%Z
  | None => false
  end.

(** The second loop of [_set_board_fen]: put the pieces on the board. *)
Fixpoint place_pieces (fen : string) (square_index : Z) (st : BoardState) : BoardState :=
  match fen with
  | EmptyString => st
  | String c fen' =>
      if is_digit_1_8 c then place_pieces fen' (square_index + digit_value c)%Z st
      else
        match piece_type_of_char c with
        | Some pt =>
            place_pieces fen' (square_index + 1)%Z
              (_set_piece_at st (square_mirror square_index) pt (is_upper c) false)
        | None =>
            if Ascii.eqb c "~" then
              place_pieces fen' square_index
                (with_pieces st (pieces st)
                   (bb_or (promoted st) (BB_SQUARES (square_mirror (square_index - 1)))))
            else place_pieces fen' square_index st
        end
  end.

Definition empty_state : BoardState :=
  mkState (fun _ => None) BB_EMPTY WHITE BB_EMPTY None 0 1.

(** [Board._set_board_fen], on a part that [split] produced. *)
Definition _set_board_fen (fen : string) : result BoardState :=
  let rows := split_char "/" fen in
  if negb (Nat.eqb (List.length rows) 8) then raise ValueError
  else if negb (forallb row_ok rows) then raise ValueError
  else ok (place_pieces fen 0 empty_state).

Fixpoint take_while_in (allowed : string) (n : nat) (s : string) : string :=
  match n, s with
  | S n', String c s' =>
      if existsb (Ascii.eqb c) (list_ascii_of_string allowed)
      then take_while_in allowed n' s' else s
  | _, _ => s
  end.

(** [FEN_CASTLING_REGEX]: a dash, or at most two of [KQABCDEFGH] and then
    at most two of [kqabcdefgh]. *)
Definition castling_regex_match (s : string) : bool :=
  String.eqb s "-" ||
  String.eqb (take_while_in "kqabcdefgh" 2 (take_while_in "KQABCDEFGH" 2 s)) "".

Definition file_index (c : ascii) : Z := Z.of_nat (nat_of_ascii c - 97).

(** One flag of [_set_castling_fen]. *)
Definition castling_flag (b : Board) (cr : SquareSet) (flag : ascii) : SquareSet :=
  let c := is_upper flag in
  let flag := ascii_lower flag in
  let backrank := BB_RANKS (if c then 0 else 7) in
  let rks := bb_and (bb_and (occupied_co b c) (rooks b)) backrank in
  let kg := king b c in
  if Ascii.eqb flag "q" then
    match kg with
    | Some k =>
        if (lsb rks <? k)%Z then bb_or cr (bb_list (firstn 1 (scan_forward rks)))
        else bb_or cr (bb_and (BB_FILES 0) backrank)
    | None => bb_or cr (bb_and (BB_FILES 0) backrank)
    end
  else if Ascii.eqb flag "k" then
    let rook := msb rks in
    match kg with
    | Some k =>
        if (k <? rook)%Z then bb_or cr (BB_SQUARES rook)
        else bb_or cr (bb_and (BB_FILES 7) backrank)
    | None => bb_or cr (bb_and (BB_FILES 7) backrank)
    end
  else bb_or cr (bb_and (BB_FILES (file_index flag)) backrank).

(** [Board._set_castling_fen]. *)
Definition _set_castling_fen (b : Board) (castling_fen : string) : result SquareSet :=
  if String.eqb castling_fen "" || String.eqb castling_fen "-" then ok BB_EMPTY
  else if negb (castling_regex_match castling_fen) then raise ValueError
  else ok (bb_value (fold_left (castling_flag b) (list_ascii_of_string castling_fen)
                               BB_EMPTY)).

Fixpoint index_of (names : list string) (s : string) (i : Z) : option Z :=
  match names with
  | [] => None
  | n :: names' => if String.eqb n s then Some i else index_of names' s (i + 1)%Z
  end.

(** Modelled from the spec: [parse(fen)] of section 6, which the script
    calls as [chess.Board()] and then [Board.set_fen]: the parts of the FEN
    are checked in order, then applied; the stacks are cleared. *)
Definition set_fen (fen : string) : result Board :=
  match split_ws fen with
  | [] => raise ValueError
  | board_part :: parts =>
      '(turn_v, parts) <-
        match parts with
        | [] => ok (WHITE, [])
        | t :: parts' =>
            if String.eqb t "w" then ok (WHITE, parts')
            else if String.eqb t "b" then ok (BLACK, parts')
            else raise ValueError
        end ;;
      '(castling_part, parts) <-
        match parts with
        | [] => ok ("-", [])
        | c :: parts' =>
            if castling_regex_match c then ok (c, parts') else raise ValueError
        end ;;
      '(ep, parts) <-
        match parts with
        | [] => ok (None, [])
        | e :: parts' =>
            if String.eqb e "-" then ok (None, parts')
            else match index_of SQUARE_NAMES e 0 with
                 | Some sq => ok (Some sq, parts')
                 | None => raise ValueError
                 end
        end ;;
      '(halfmove, parts) <-
        match parts with
        | [] => ok (0%Z, [])
        | h :: parts' =>
            match parse_int h with
            | Some n => if (n <? 0)%Z then raise ValueError else ok (n, parts')
            | None => raise ValueError
            end
        end ;;
      '(fullmove, parts) <-
        match parts with
        | [] => ok (1%Z, [])
        | f :: parts' =>
            match parse_int f with
            | Some n => if (n <? 0)%Z then raise ValueError
                        else ok (Z.max n 1, parts')
            | None => raise ValueError
            end
        end ;;
      match parts with
      | _ :: _ => raise ValueError
      | [] =>
          st <- _set_board_fen board_part ;;
          let st := mkState (pieces st) (promoted st) turn_v (castling_rights st)
                            (ep_square st) (halfmove_clock st) (fullmove_number st) in
          cr <- _set_castling_fen (mkBoard st [] []) castling_part ;;
          ok (mkBoard (mkState (pieces st) (promoted st) turn_v cr ep halfmove fullmove)
                      [] [])
      end
  end.

(** *** Writing a FEN *)

Definition flush_empty (empty : Z) : string :=
  if (empty =? 0)%Z then "" else str_of_int empty.

(** The loop of [Board.board_fen] over [SQUARES_180]. *)
Fixpoint board_fen_loop (b : Board) (squares : list Square) (empty : Z) : string :=
  match squares with
  | [] => ""
  | sq :: squares' =>
      let '(out, empty) :=
        match piece_at b sq with
        | None => ("", (empty + 1)%Z)
        | Some p => (flush_empty empty ++ symbol p, 0%Z)
        end in
      if BB_FILES 7 sq then
        out ++ flush_empty empty ++ (if (sq =? H1)%Z then "" else "/")
            ++ board_fen_loop b squares' 0
      else out ++ board_fen_loop b squares' empty
  end.

Definition SQUARES_180 : list Square := Eval cbv in map square_mirror SQUARES.

Definition board_fen (b : Board) : string := board_fen_loop b SQUARES_180 0.

(** [Board.castling_xfen]. *)
Definition castling_xfen (b : Board) : string :=
  let for_color (c : Color) : string :=
    match king b c with
    | None => ""
    | Some king_sq =>
        let king_file := square_file king_sq in
        let backrank := BB_RANKS (if c then 0 else 7) in
        String.concat ""
          (map (fun rook_square =>
                  let rook_file := square_file rook_square in
                  let a_side := (rook_file <? king_file)%Z in
                  let other_rooks :=
                    bb_and (bb_and (bb_and (occupied_co b c) (rooks b)) backrank)
                           (bb_not (BB_SQUARES rook_square)) in
                  let ch :=
                    if existsb (fun other =>
                                  Bool.eqb (square_file other <? rook_file)%Z a_side)
                               (scan_reversed other_rooks)
                    then nth (Z.to_nat rook_file) FILE_NAMES ""
                    else if a_side then "q" else "k" in
                  if c then upper ch else ch)
               (scan_reversed (bb_and (clean_castling_rights b) backrank)))
    end in
  let built := for_color WHITE ++ for_color BLACK in
  if String.eqb built "" then "-" else built.

Definition name_of (sq : Square) : string :=
  match square_name sq with
  | inr n => n
  | inl _ => ""
  end.

(** Modelled from the spec: [to_fen(Position)] of section 6, which the
    script calls as [Board.fen()]: the en-passant square is written only
    when a legal en-passant capture exists. *)
Definition fen (b : Board) : string :=
  let ep := if has_legal_en_passant b then ep_square (state b) else None in
  String.concat " "
    [ board_fen b;
      if b_turn b then "w" else "b";
      castling_xfen b;
      match ep with Some sq => name_of sq | None => "-" end;
      str_of_int (halfmove_clock (state b));
      str_of_int (fullmove_number (state b)) ].

(** *** Notations *)

(** [Move.uci]. *)
Definition move_uci (m : Move) : result string :=
  if promotion_truthy (promotion m) then
    f <- square_name (from_square m) ;;
    t <- square_name (to_square m) ;;
    ok (f ++ t ++ match promotion m with Some p => piece_symbol p | None => "" end)
  else if move_truthy m then
    f <- square_name (from_square m) ;;
    t <- square_name (to_square m) ;;
    ok (f ++ t)
  else ok "0000".

(** Modelled from the spec: [to_uci(Position, Move)] of sections 4.3 and
    6, which the script calls as [Board.uci]: the move goes through the
    package's castling conversion and back before it is written. *)
Definition uci (b : Board) (m : Move) : result string :=
  let move := _to_chess960 b m in
  let move := _from_chess960 b (from_square move) (to_square move) (promotion move) in
  move_uci move.

(** [Board._algebraic_without_suffix]. *)
Definition _algebraic_without_suffix (b : Board) (m : Move) (long : bool)
  : result string :=
  if negb (move_truthy m) then ok "--"
  else if is_castling b m then
    if (square_file (to_square m) <? square_file (from_square m))%Z
    then ok "O-O-O" else ok "O-O"
  else
    match piece_type_at b (from_square m) with
    | None => raise AssertionError
    | Some pt =>
        let capture := is_capture b m in
        let is_pawn := PieceType_eqb pt PAWN in
        let san := if is_pawn then "" else upper (piece_symbol pt) in
        san <-
          (if long then
             f <- square_name (from_square m) ;; ok (san ++ f)
           else if negb is_pawn then
             let from_mask :=
               bb_and (pieces_mask b pt (b_turn b))
                      (bb_not (BB_SQUARES (from_square m))) in
             let to_mask := BB_SQUARES (to_square m) in
             let others :=
               bb_list (map from_square (generate_legal_moves b from_mask to_mask)) in
             if bb_bool others then
               let column1 :=
                 bb_bool (bb_and others (BB_RANKS (square_rank (from_square m)))) in
               let row :=
                 bb_bool (bb_and others (BB_FILES (square_file (from_square m)))) in
               let column := column1 || negb row in
               file_s <- (if column
                          then py_index FILE_NAMES (square_file (from_square m))
                          else ok "") ;;
               rank_s <- (if row
                          then py_index RANK_NAMES (square_rank (from_square m))
                          else ok "") ;;
               ok (san ++ file_s ++ rank_s)
             else ok san
           else if capture then
             file_s <- py_index FILE_NAMES (square_file (from_square m)) ;;
             ok (san ++ file_s)
           else ok san) ;;
        let san := if capture then san ++ "x"
                   else if long then san ++ "-" else san in
        t <- square_name (to_square m) ;;
        let san := san ++ t in
        ok (if promotion_truthy (promotion m)
            then san ++ "=" ++ match promotion m with
                               | Some p => upper (piece_symbol p)
                               | None => ""
                               end
            else san)
    end.

(** Modelled from the spec: [to_san] and [to_lan] of sections 4.3 and 6,
    which the script calls as [Board.san] and [Board.lan], both
    [Board._algebraic]: the notation, with the suffix read from the
    position after the move; the method pushes the move and pops it. *)
Definition _algebraic (b : Board) (m : Move) (long : bool) : result string :=
  san <- _algebraic_without_suffix b m long ;;
  after <- push b m ;;
  let check := is_check after in
  let checkmate := check && is_checkmate after in
  _ <- pop after ;;
  ok (if checkmate && move_truthy m then san ++ "#"
      else if check && move_truthy m then san ++ "+"
      else san).

Definition san (b : Board) (m : Move) : result string := _algebraic b m false.
Definition lan (b : Board) (m : Move) : result string := _algebraic b m true.

(** Modelled from the spec: the Rules Engine of section 6, as the board
    of the [chess] package provides it to the script. *)
Definition engine : RulesEngine :=
  mkEngine Board set_fen legal_moves piece_at b_turn
           is_kingside_castling is_queenside_castling is_en_passant is_capture
           push pop fen uci san lan.

(** What every move of the generator has: both squares on the board,
    two different squares unless the move is a king's move to a square
    with castling rights, a piece on the origin square, a promotion only
    for a pawn, and for a king either a step to a neighbouring square or
    the castling move the package builds for a rook square. *)
Definition generated_shape (b : Board) (m : Move) : Prop :=
  BB_ALL (from_square m) = true /\ BB_ALL (to_square m) = true /\
  (from_square m <> to_square m \/
   (kings b (from_square m) = true /\
    clean_castling_rights b (to_square m) = true)) /\
  exists p, piece_at b (from_square m) = Some p /\
    (piece_type p = PAWN \/
     (promotion m = None /\
      (piece_type p = KING ->
       BB_KING_ATTACKS (from_square m) (to_square m) = true \/
       exists candidate, m = _from_chess960 b (from_square m) candidate None))).

End PyChess.

(** ** Example inputs *)

Definition starting_fen : string :=
  "rnbqkbnr/pppppppp/8/8/8/8/PPPPPPPP/RNBQKBNR w KQkq - 0 1".

(** White pawn on e5, black pawn on d5 after its double step. *)
Definition en_passant_fen : string := "4k3/8/8/3pP3/8/8/8/4K3 w - d6 0 1".

(** White pawn on a7, about to promote. *)
Definition promotion_fen : string := "4k3/P7/8/8/8/8/8/4K3 w - - 0 1".

Definition kings_fen : string := "4k3/8/8/8/8/8/8/4K3 w - - 0 1".

(** The board of a FEN that the package accepts. *)
Definition board_of (fen_s : string) : PyChess.Board :=
  match PyChess.set_fen fen_s with
  | inr b => b
  | inl _ => PyChess.mkBoard PyChess.empty_state [] []
  end.

(** The number of sequences of [depth] legal moves from a position, the
    count that move generators are compared on. *)
Fixpoint perft (depth : nat) (b : PyChess.Board) : Z :=
  match depth with
  | O => 1%Z
  | S depth' =>
      fold_left (fun acc m =>
                   match PyChess.push b m with
                   | inr b' => (acc + perft depth' b')%Z
                   | inl _ => acc
                   end)
                (PyChess.legal_moves b) 0%Z
  end.

(** Three positions with published counts: castling and pins, en passant
    with a pinned pawn, promotions. *)
Definition kiwipete_fen : string :=
  "r3k2r/p1ppqpb1/bn2pnp1/3PN3/1p2P3/2N2Q1p/PPPBBPPP/R3K2R w KQkq - 0 1".
Definition endgame_fen : string := "8/2p5/3p4/KP5r/1R3p1k/8/4P1P1/8 w - - 0 1".
Definition promotions_fen : string :=
  "rnbq1k1r/pp1Pbppp/2p5/8/2B5/8/PPP1NnPP/RNBQK2R w KQ - 1 8".

(** A test case with other fields and an old [moves] field. *)
Definition example_test : PyValue :=
  PyDict [ ("name", PyStr "kings"); ("moves", PyStr "old");
           ("fen", PyStr kings_fen); ("depth", PyInt 1) ].

(** A reader that knows two texts, and a writer that lists the [uci]
    strings of the records. *)
Definition example_loads (text : string) : result PyValue :=
  if String.eqb text "[{}]" then ok (PyList [PyDict []])
  else if String.eqb text "[kings]" then ok (PyList [example_test])
  else raise JSONDecodeError.

Definition uci_of_value (rec : PyValue) : string :=
  match getitem rec "uci" with
  | inr (PyStr u) => u
  | _ => "?"
  end.

Definition moves_of_value (test : PyValue) : string :=
  match getitem test "moves" with
  | inr (PyList recs) => String.concat " " (map uci_of_value recs)
  | _ => "?"
  end.

Definition example_dumps (minify : bool) (v : PyValue) : string :=
  match v with
  | PyList tests =>
      String.concat (if minify then "," else ", ") (map moves_of_value tests)
  | _ => "?"
  end.

Definition example_world : World :=
  fun path => if String.eqb path "in.json" then Some "[kings]" else None.

Definition bad_world : World :=
  fun path => if String.eqb path "in.json" then Some "[{}]" else None.

Definition example_args : Args := mkArgs "in.json" "out.json" false.

(** A system that lets every write through, one without the directory
    [nodir], and one whose disk is full after three characters. *)
Definition good_system : System :=
  mkSystem (fun _ _ => None) (fun _ _ _ => None).

Definition no_directory_system : System :=
  mkSystem (fun _ path => if String.prefix "nodir/" path
                          then Some FileNotFoundError else None)
           (fun _ _ _ => None).

Definition full_disk_system : System :=
  mkSystem (fun _ _ => None) (fun _ _ _ => Some (OSError, 3%nat)).

Definition nodir_args : Args := mkArgs "in.json" "nodir/out.json" false.

Definition is_basic (rec : PyValue) : bool :=
  match record_move_field rec "type" with
  | inr (PyStr s) => String.eqb s "Basic"
  | _ => false
  end.

(** White king and rook on their squares: castling is legal. *)
Definition castle_fen : string := "4k3/8/8/8/8/8/8/4K2R w K - 0 1".

(** White pawn on a7 that can take the knight on b8 and promote. *)
Definition promotion_capture_fen : string := "1n2k3/P7/8/8/8/8/8/4K3 w - - 0 1".

(** A test case without [fen]. *)
Definition no_fen_test : PyValue := PyDict [("name", PyStr "no fen")].

(** The list with [example_test] after the run. *)
Definition processed_example : PyValue :=
  match process_tests PyChess.engine (PyList [example_test]) with
  | inr v => v
  | inl _ => PyNone
  end.

(** A reader and a writer that know a few texts; the writer's text for the
    processed list is the text the reader turns into that list. *)
Definition demo_loads (text : string) : result PyValue :=
  if String.eqb text "null" then ok PyNone
  else if String.eqb text "{}" then ok (PyDict [])
  else if String.eqb text "[kings]" then ok (PyList [example_test])
  else if String.eqb text "[kings, no fen]" then ok (PyList [example_test; no_fen_test])
  else if String.eqb text "[kings processed]" then ok processed_example
  else raise JSONDecodeError.

Definition demo_dumps (minify : bool) (v : PyValue) : string :=
  match v with
  | PyNone => "null"
  | PyDict [] => "{}"
  | PyList [PyDict d] =>
      match dict_get d "moves" with
      | Some (PyList _) => "[kings processed]"
      | _ => "[kings]"
      end
  | _ => "?"
  end.

Definition demo_world (text : string) : World :=
  fun path => if String.eqb path "in.json" then Some text else None.

Definition empty_world : World := fun _ => None.

(** What every move of the generator has on a board without saved states:
    a piece of the side to move on the origin square, and a destination
    square without a piece of that side unless the move is a castling
    move. *)
Definition generated_target (b : PyChess.Board) (m : Move) : Prop :=
  PyChess.occupied_co b (PyChess.b_turn b) (from_square m) = true /\
  (PyChess.occupied_co b (PyChess.b_turn b) (to_square m) = false \/
   PyChess.is_kingside_castling b m = true \/
   PyChess.is_queenside_castling b m = true).

(** * Properties *)

(** ** The error monad and dicts *)

Lemma bind_ok {A B} (r : result A) (k : A -> result B) (b : B) :
  bind r k = ok b -> exists a, r = ok a /\ k a = ok b.
Proof.
  destruct r as [e | a]; simpl; intros H.
  - discriminate H.
  - exists a. split; [reflexivity | exact H].
Qed.

Lemma mapM_ok_Forall2 {A B} (f : A -> result B) (l : list A) (l' : list B) :
  mapM f l = ok l' -> Forall2 (fun a b => f a = ok b) l l'.
Proof.
  revert l'. induction l as [| a l IH]; simpl; intros l' H.
  - inversion H. constructor.
  - apply bind_ok in H. destruct H as [b [Hb H]].
    apply bind_ok in H. destruct H as [bs [Hbs H]].
    inversion H. subst. constructor; [exact Hb | apply IH; exact Hbs].
Qed.

Lemma mapM_error_in {A B} (f : A -> result B) (l : list A) (a : A) (e : PyError) :
  In a l -> f a = raise e -> exists e', mapM f l = raise e'.
Proof.
  induction l as [| x l IH]; simpl; intros Hin Hf.
  - contradiction.
  - destruct (f x) as [ex | y] eqn:Hx; simpl.
    + exists ex. reflexivity.
    + destruct Hin as [-> | Hin].
      * rewrite Hf in Hx. discriminate Hx.
      * destruct (IH Hin Hf) as [e' He']. rewrite He'. exists e'. reflexivity.
Qed.

Lemma append_empty_r (s : string) : s ++ "" = s.
Proof. induction s as [| c s IH]; simpl; [reflexivity | rewrite IH; reflexivity]. Qed.

Lemma length_append (s t : string) :
  String.length (s ++ t) = (String.length s + String.length t)%nat.
Proof. induction s as [| c s IH]; simpl; [reflexivity | rewrite IH; reflexivity]. Qed.

Lemma dict_get_set_other (d : PyDictT) (k k' : string) (v : PyValue) :
  k' <> k -> dict_get (dict_set d k v) k' = dict_get d k'.
Proof.
  intros Hne. induction d as [| [k0 v0] d IH]; simpl.
  - destruct (String.eqb_spec k k'); [congruence | reflexivity].
  - destruct (String.eqb_spec k0 k) as [-> | Hk]; simpl.
    + destruct (String.eqb_spec k k'); [congruence | reflexivity].
    + destruct (String.eqb_spec k0 k'); [reflexivity | exact IH].
Qed.

Lemma dict_get_set_same (d : PyDictT) (k : string) (v : PyValue) :
  dict_get (dict_set d k v) k = Some v.
Proof.
  induction d as [| [k0 v0] d IH]; simpl.
  - rewrite String.eqb_refl. reflexivity.
  - destruct (String.eqb_spec k0 k) as [-> | Hk]; simpl.
    + rewrite String.eqb_refl. reflexivity.
    + destruct (String.eqb_spec k0 k); [contradiction | exact IH].
Qed.

Lemma dict_without_set (d : PyDictT) (k : string) (v : PyValue) :
  dict_without k (dict_set d k v) = dict_without k d.
Proof.
  unfold dict_without.
  induction d as [| [k0 v0] d IH]; simpl.
  - rewrite String.eqb_refl. reflexivity.
  - destruct (String.eqb_spec k0 k) as [-> | Hk]; simpl.
    + rewrite String.eqb_refl. reflexivity.
    + destruct (String.eqb_spec k0 k); [contradiction | simpl; rewrite IH; reflexivity].
Qed.

(** ** The classifier *)

Lemma classification_name_inj (c1 c2 : Classification) :
  classification_name c1 = classification_name c2 -> c1 = c2.
Proof. destruct c1, c2; simpl; intros H; (reflexivity || discriminate H). Qed.

(** The classifier returns the name of the first category whose test
    holds. *)
Lemma get_move_type_name (E : RulesEngine) (board : Board E) (move : Move) :
  exists c : Classification,
    first_match (precedence_rules E board move) = Some c /\
    get_move_type E board move = classification_name c.
Proof.
  unfold get_move_type, precedence_rules.
  destruct (is_kingside_castling E board move); [exists KingSideCastle; auto |].
  destruct (is_queenside_castling E board move); [exists QueenSideCastle; auto |].
  destruct (is_en_passant E board move); [exists EnPassant; auto |].
  destruct (promotion move) as [pt |]; destruct (is_capture E board move); simpl.
  - exists PromotionCapture. auto.
  - exists Promotion. auto.
  - exists Capture. auto.
  - exists Basic. auto.
Qed.

(** C1: the classifier returns the name of exactly one of the seven
    categories, and that category is the first one, in the order kingside
    castle, queenside castle, en passant, promotion with capture, promotion,
    capture, basic, whose test holds for the position and the move. *)
Theorem get_move_type_first_match (E : RulesEngine) (board : Board E) (move : Move) :
  exists c : Classification,
    first_match (precedence_rules E board move) = Some c /\
    In c all_classifications /\
    get_move_type E board move = classification_name c /\
    forall c', get_move_type E board move = classification_name c' -> c' = c.
Proof.
  destruct (get_move_type_name E board move) as [c [Hfirst Hname]].
  exists c. split; [exact Hfirst |]. split.
  - destruct c; simpl; tauto.
  - split; [exact Hname |].
    intros c' Hc'. apply classification_name_inj.
    rewrite <- Hc'. exact Hname.
Qed.

(** ** The fields of a move record *)

Section AnnotatorFacts.

Variable E : RulesEngine.

(** What a successful iteration has computed. *)
Lemma annotate_move_ok (board board2 : Board E) (move : Move) (rec : PyValue) :
  annotate_move E board move = ok (board2, rec) ->
  exists from_sq to_sq pc board1 uci_s san_s lan_s,
    square_name (from_square move) = ok from_sq /\
    square_name (to_square move) = ok to_sq /\
    piece_at E board (from_square move) = Some pc /\
    push E board move = ok board1 /\
    pop E board1 = ok board2 /\
    uci E board2 move = ok uci_s /\
    san E board2 move = ok san_s /\
    lan E board2 move = ok lan_s /\
    rec = PyDict [ ("move", PyDict [ ("from", PyStr from_sq);
                                     ("to", PyStr to_sq);
                                     ("piece", PyStr (symbol pc));
                                     ("capture", opt_str (capture_field E board move));
                                     ("promotion", opt_str (promotion_field E board move));
                                     ("type", PyStr (get_move_type E board move)) ]);
                   ("uci", PyStr uci_s);
                   ("san", PyStr san_s);
                   ("lan", PyStr lan_s);
                   ("fen", PyStr (fen E board1)) ].
Proof.
  unfold annotate_move. intros H.
  apply bind_ok in H. destruct H as [from_sq [Hfrom H]].
  apply bind_ok in H. destruct H as [to_sq [Hto H]].
  apply bind_ok in H. destruct H as [piece [Hpiece H]].
  apply bind_ok in H. destruct H as [board1 [Hpush H]].
  apply bind_ok in H. destruct H as [b2 [Hpop H]].
  apply bind_ok in H. destruct H as [uci_s [Huci H]].
  apply bind_ok in H. destruct H as [san_s [Hsan H]].
  apply bind_ok in H. destruct H as [lan_s [Hlan H]].
  destruct (piece_at E board (from_square move)) as [pc |] eqn:Hpc;
    [| discriminate Hpiece].
  inversion Hpiece. subst piece.
  inversion H. subst b2.
  exists from_sq, to_sq, pc, board1, uci_s, san_s, lan_s.
  repeat (split; [assumption || reflexivity |]). reflexivity.
Qed.

Lemma promotion_truthy_some (pt : PieceType) : promotion_truthy (Some pt) = true.
Proof. destruct pt; reflexivity. Qed.

Lemma lower_piece_symbol (pt : PieceType) : lower (piece_symbol pt) = piece_symbol pt.
Proof. destruct pt; reflexivity. Qed.

(** C2: in the record of a move, the captured-piece letter is, for an
    en-passant move, the letter of a pawn of the side not to move,
    ["p"] when white moves and ["P"] when black moves, whatever the board
    holds; otherwise the letter of the piece on the destination square of
    the position before the move, and null when that square is empty. *)
Theorem capture_letter_of_record (board board2 : Board E) (move : Move)
    (rec : PyValue) :
  annotate_move E board move = ok (board2, rec) ->
  (is_en_passant E board move = true ->
     record_move_field rec "capture"
       = ok (PyStr (symbol (mkPiece PAWN (negb (turn E board))))) /\
     (turn E board = WHITE -> record_move_field rec "capture" = ok (PyStr "p")) /\
     (turn E board = BLACK -> record_move_field rec "capture" = ok (PyStr "P"))) /\
  (is_en_passant E board move = false ->
     forall pc, piece_at E board (to_square move) = Some pc ->
                record_move_field rec "capture" = ok (PyStr (symbol pc))) /\
  (is_en_passant E board move = false ->
     piece_at E board (to_square move) = None ->
     record_move_field rec "capture" = ok PyNone).
Proof.
  intros H. apply annotate_move_ok in H.
  destruct H as (from_sq & to_sq & pc0 & board1 & uci_s & san_s & lan_s &
                 _ & _ & _ & _ & _ & _ & _ & _ & ->).
  unfold record_move_field, capture_field; simpl.
  split; [| split].
  - intros Hep. rewrite Hep.
    destruct (turn E board); simpl;
      (split; [reflexivity | split; intros Ht]);
      (reflexivity || discriminate Ht).
  - intros Hep pc Hpc. rewrite Hep, Hpc. reflexivity.
  - intros Hep Hpc. rewrite Hep, Hpc. reflexivity.
Qed.

(** C5: in the record of a move, the promotion letter is present exactly
    when the move carries a promotion piece; it is then the letter of that
    piece in the case of the side to move in the position before the move,
    upper case for white and lower case for black. *)
Theorem promotion_letter_of_record (board board2 : Board E) (move : Move)
    (rec : PyValue) :
  annotate_move E board move = ok (board2, rec) ->
  (forall pt, promotion move = Some pt ->
     record_move_field rec "promotion"
       = ok (PyStr (symbol (mkPiece pt (turn E board)))) /\
     (turn E board = WHITE ->
        record_move_field rec "promotion" = ok (PyStr (upper (piece_symbol pt)))) /\
     (turn E board = BLACK ->
        record_move_field rec "promotion" = ok (PyStr (lower (piece_symbol pt))))) /\
  (promotion move = None -> record_move_field rec "promotion" = ok PyNone).
Proof.
  intros H. apply annotate_move_ok in H.
  destruct H as (from_sq & to_sq & pc0 & board1 & uci_s & san_s & lan_s &
                 _ & _ & _ & _ & _ & _ & _ & _ & ->).
  unfold record_move_field, promotion_field; simpl.
  split.
  - intros pt Hpt. rewrite Hpt, promotion_truthy_some.
    unfold symbol; simpl.
    destruct (turn E board); simpl; rewrite ?lower_piece_symbol;
      (split; [reflexivity | split; intros Ht]);
      (reflexivity || discriminate Ht).
  - intros Hnone. rewrite Hnone. reflexivity.
Qed.

End AnnotatorFacts.

(** ** The fixture driver *)

Section DriverFacts.

Variable E : RulesEngine.
Variable json_loads : string -> result PyValue.
Variable json_dumps : bool -> PyValue -> string.
Variable sys : System.

(** A successful call has set the one key [moves] of a dict. *)
Lemma add_test_data_ok (test test' : PyValue) :
  add_test_data E test = ok test' ->
  exists d fen_v board final moves,
    test = PyDict d /\
    dict_get d "fen" = Some fen_v /\
    board_of_fen E fen_v = ok board /\
    moves_loop E board (legal_moves E board) [] = ok (final, moves) /\
    test' = PyDict (dict_set d "moves" (PyList moves)).
Proof.
  unfold add_test_data. intros H.
  apply bind_ok in H. destruct H as [fen_v [Hfen H]].
  apply bind_ok in H. destruct H as [board [Hboard H]].
  apply bind_ok in H. destruct H as [[final moves] [Hloop H]].
  destruct test as [| | | | | | d]; try discriminate Hfen.
  simpl in Hfen. destruct (dict_get d "fen") as [v |] eqn:Hget; [| discriminate Hfen].
  inversion Hfen. subst v. simpl in H. inversion H.
  exists d, fen_v, board, final, moves. repeat split; assumption.
Qed.

(** C10: when the tests are processed, each output object holds every
    field of its input object other than [moves], with the same value and
    in the same order, whether or not the input object had a field
    [moves]. *)
Theorem other_fields_pass_through (l : list PyValue) (tests' : PyValue) :
  process_tests E (PyList l) = ok tests' ->
  exists l', tests' = PyList l' /\
    Forall2 (fun t t' =>
               exists d d', t = PyDict d /\ t' = PyDict d' /\
                 dict_without "moves" d' = dict_without "moves" d /\
                 forall k, k <> "moves" -> getitem t' k = getitem t k)
            l l'.
Proof.
  simpl. intros H. apply bind_ok in H. destruct H as [l' [Hmap H]].
  inversion H. exists l'. split; [reflexivity |].
  apply mapM_ok_Forall2 in Hmap. clear H H1.
  induction Hmap as [| t t' l0 l0' Ht _ IH]; [constructor |].
  constructor; [| exact IH].
  apply add_test_data_ok in Ht.
  destruct Ht as (d & fen_v & board & final & moves & -> & _ & _ & _ & ->).
  exists d, (dict_set d "moves" (PyList moves)).
  repeat split.
  - apply dict_without_set.
  - intros k Hk. simpl. rewrite dict_get_set_other by exact Hk. reflexivity.
Qed.

(** C9: when the input text is not JSON, or a test case of the list has
    no [fen] field, or the board rejects the [fen] of a test case, the run
    ends with an error and leaves every file as it was; a JSON error is
    the error reported. *)
Theorem fatal_errors_write_nothing (w : World) (args : Args) (text : string) :
  w (input args) = Some text ->
  (exists e, json_loads text = raise e) \/
  (exists l d, json_loads text = ok (PyList l) /\ In (PyDict d) l /\
               dict_get d "fen" = None) \/
  (exists l d s e, json_loads text = ok (PyList l) /\ In (PyDict d) l /\
                   dict_get d "fen" = Some (PyStr s) /\ set_fen E s = raise e) ->
  exists e, main E json_loads json_dumps sys w args = (w, raise e) /\
            forall e0, json_loads text = raise e0 -> e = e0.
Proof.
  intros Hw Hcases. unfold main, read_tests_definitions. rewrite Hw.
  destruct Hcases as [[e He] | [(l & d & Hl & Hin & Hfen) | (l & d & s & e & Hl & Hin & Hfen & Hset)]].
  - rewrite He. exists e. split; [reflexivity |].
    intros e0 He0. inversion He0. reflexivity.
  - rewrite Hl. simpl.
    destruct (mapM_error_in (add_test_data E) l (PyDict d) KeyError Hin) as [e' He'].
    { unfold add_test_data. simpl. rewrite Hfen. reflexivity. }
    rewrite He'. exists e'. split; [reflexivity |].
    intros e0 He0. discriminate He0.
  - rewrite Hl. simpl.
    destruct (mapM_error_in (add_test_data E) l (PyDict d) e Hin) as [e' He'].
    { unfold add_test_data. simpl. rewrite Hfen. simpl. rewrite Hset. reflexivity. }
    rewrite He'. exists e'. split; [reflexivity |].
    intros e0 He0. discriminate He0.
Qed.

End DriverFacts.

(** ** The board model: squares and masks *)

Section PyChessMasks.

Import PyChess.
Local Open Scope Z_scope.

Lemma BB_ALL_range (s : Square) : BB_ALL s = true <-> 0 <= s < 64.
Proof. unfold BB_ALL. rewrite andb_true_iff, Z.leb_le, Z.ltb_lt. tauto. Qed.

Lemma SQUARES_range (s : Square) : In s SQUARES -> 0 <= s < 64.
Proof.
  assert (H : forallb BB_ALL SQUARES = true) by reflexivity.
  rewrite forallb_forall in H. intros Hin. apply BB_ALL_range, H, Hin.
Qed.

Lemma scan_reversed_In (bb : SquareSet) (s : Square) :
  In s (scan_reversed bb) -> bb s = true /\ BB_ALL s = true.
Proof.
  unfold scan_reversed. rewrite filter_In. intros [Hin Hbb]. split; [exact Hbb |].
  apply BB_ALL_range, SQUARES_range.
  unfold SQUARES_REVERSED in Hin. change SQUARES with (rev (rev SQUARES)).
  rewrite <- in_rev. exact Hin.
Qed.

Lemma scan_forward_In (bb : SquareSet) (s : Square) :
  In s (scan_forward bb) -> bb s = true /\ BB_ALL s = true.
Proof.
  unfold scan_forward. rewrite filter_In. intros [Hin Hbb]. split; [exact Hbb |].
  apply BB_ALL_range, SQUARES_range, Hin.
Qed.

Lemma bb_and_true (a c : SquareSet) (s : Square) :
  bb_and a c s = true <-> a s = true /\ c s = true.
Proof. unfold bb_and. apply andb_true_iff. Qed.

Lemma PieceType_eqb_eq (x y : PieceType) : PieceType_eqb x y = true <-> x = y.
Proof. destruct x, y; unfold PieceType_eqb; simpl; split; congruence. Qed.

Lemma type_mask_true (pt : PieceType) (b : Board) (s : Square) :
  type_mask pt b s = true ->
  BB_ALL s = true /\ exists p, piece_at b s = Some p /\ piece_type p = pt.
Proof.
  unfold type_mask. rewrite andb_true_iff. intros [Hall H]. split; [exact Hall |].
  destruct (piece_at b s) as [p |]; [| discriminate H].
  exists p. split; [reflexivity | apply PieceType_eqb_eq, H].
Qed.

Lemma occupied_co_true (b : Board) (c : Color) (s : Square) :
  occupied_co b c s = true ->
  BB_ALL s = true /\ exists p, piece_at b s = Some p /\ color p = c.
Proof.
  unfold occupied_co. rewrite andb_true_iff. intros [Hall H]. split; [exact Hall |].
  destruct (piece_at b s) as [p |]; [| discriminate H].
  exists p. split; [reflexivity | apply Bool.eqb_prop, H].
Qed.

Lemma py_index_ok {A} (l : list A) (i : Z) :
  0 <= i < Z.of_nat (List.length l) -> exists a, py_index l i = ok a.
Proof.
  intros Hi. unfold py_index.
  destruct (Z.ltb_spec i 0) as [Hneg | _]; [lia |].
  destruct (Z.leb_spec 0 i) as [_ | Hneg]; [| lia].
  destruct (Z.ltb_spec i (Z.of_nat (List.length l))) as [_ | Hbig]; [| lia].
  simpl. destruct (nth_error l (Z.to_nat i)) as [a |] eqn:Hnth.
  - exists a. reflexivity.
  - apply nth_error_None in Hnth. lia.
Qed.

Lemma square_name_ok (sq : Square) :
  BB_ALL sq = true -> exists n, square_name sq = ok n /\ String.length n = 2%nat.
Proof.
  intros Hsq. apply BB_ALL_range in Hsq.
  destruct (py_index_ok SQUARE_NAMES sq) as [n Hn]; [exact Hsq |].
  exists n. split; [exact Hn |].
  unfold py_index in Hn.
  destruct (Z.ltb_spec sq 0) as [Hneg | _]; [lia |].
  destruct ((0 <=? sq) && (sq <? Z.of_nat (List.length SQUARE_NAMES))); [| discriminate Hn].
  destruct (nth_error SQUARE_NAMES (Z.to_nat sq)) as [a |] eqn:Hnth; [| discriminate Hn].
  inversion Hn. subst a. apply nth_error_In in Hnth.
  assert (H : forallb (fun x => Nat.eqb (String.length x) 2) SQUARE_NAMES = true)
    by reflexivity.
  rewrite forallb_forall in H. apply Nat.eqb_eq, H, Hnth.
Qed.

Lemma square_file_range (sq : Square) : 0 <= square_file sq < 8.
Proof.
  unfold square_file. change 7 with (Z.ones 3). rewrite Z.land_ones by lia.
  apply Z.mod_pos_bound. reflexivity.
Qed.

Lemma square_rank_range (sq : Square) : 0 <= sq < 64 -> 0 <= square_rank sq < 8.
Proof.
  intros H. unfold square_rank. rewrite Z.shiftr_div_pow2 by lia.
  change (2 ^ 3) with 8. split.
  - apply Z.div_pos; lia.
  - apply Z.div_lt_upper_bound; lia.
Qed.

End PyChessMasks.

(** ** The board model: what the move generator yields *)

Section PyChessMoves.

Import PyChess.
Local Open Scope Z_scope.

Lemma from_chess960_from (b : Board) (f t : Square) (pr : option PieceType) :
  from_square (_from_chess960 b f t pr) = f.
Proof.
  unfold _from_chess960. destruct pr as [p |]; [reflexivity |].
  destruct ((f =? E1) && kings b E1) eqn:He1.
  - apply andb_true_iff in He1. destruct He1 as [He1 _]. apply Z.eqb_eq in He1.
    destruct (t =? H1); [| destruct (t =? A1)]; simpl; congruence.
  - destruct ((f =? E8) && kings b E8) eqn:He8; [| reflexivity].
    apply andb_true_iff in He8. destruct He8 as [He8 _]. apply Z.eqb_eq in He8.
    destruct (t =? H8); [| destruct (t =? A8)]; simpl; congruence.
Qed.

Lemma from_chess960_promotion (b : Board) (f t : Square) :
  promotion (_from_chess960 b f t None) = None.
Proof.
  unfold _from_chess960.
  destruct ((f =? E1) && kings b E1);
    [ destruct (t =? H1); [| destruct (t =? A1)]; reflexivity |].
  destruct ((f =? E8) && kings b E8);
    [ destruct (t =? H8); [| destruct (t =? A8)]; reflexivity | reflexivity ].
Qed.

Lemma from_chess960_to (b : Board) (f t : Square) (pr : option PieceType) :
  BB_ALL t = true -> BB_ALL (to_square (_from_chess960 b f t pr)) = true.
Proof.
  intros Ht. unfold _from_chess960. destruct pr as [p |]; [exact Ht |].
  destruct ((f =? E1) && kings b E1);
    [ destruct (t =? H1); [| destruct (t =? A1)]; (reflexivity || exact Ht) |].
  destruct ((f =? E8) && kings b E8);
    [ destruct (t =? H8); [| destruct (t =? A8)]; (reflexivity || exact Ht)
    | exact Ht ].
Qed.

Lemma from_chess960_cases (b : Board) (f t : Square) :
  _from_chess960 b f t None = mkMove f t None \/
  _from_chess960 b f t None = mkMove E1 G1 None \/
  _from_chess960 b f t None = mkMove E1 C1 None \/
  _from_chess960 b f t None = mkMove E8 G8 None \/
  _from_chess960 b f t None = mkMove E8 C8 None.
Proof.
  unfold _from_chess960.
  destruct ((f =? E1) && kings b E1);
    [ destruct (t =? H1); [| destruct (t =? A1)]; tauto |].
  destruct ((f =? E8) && kings b E8);
    [ destruct (t =? H8); [| destruct (t =? A8)]; tauto | tauto ].
Qed.

Lemma castling_shape (b : Board) (fm tm : SquareSet) (m : Move) :
  In m (generate_castling_moves b fm tm) -> generated_shape b m.
Proof.
  unfold generate_castling_moves.
  destruct (scan_forward _) as [| king_sq rest] eqn:Hscan; [intros [] |].
  assert (Hking : In king_sq (scan_forward
            (bb_and (bb_and (bb_and (bb_and (occupied_co b (b_turn b)) (kings b))
               (bb_not (promoted (state b)))) (BB_RANKS (if b_turn b then 0 else 7))) fm)))
    by (rewrite Hscan; left; reflexivity).
  apply scan_forward_In in Hking. destruct Hking as [Hmask Hrange].
  do 3 (apply bb_and_true in Hmask; destruct Hmask as [Hmask _]).
  apply bb_and_true in Hmask. destruct Hmask as [Hmask Hkings].
  apply occupied_co_true in Hmask. destruct Hmask as [_ [p [Hp _]]].
  intros Hin. apply in_flat_map in Hin. destruct Hin as [cand [Hcand Hin]].
  apply scan_reversed_In in Hcand. destruct Hcand as [Hclean Hcand].
  do 2 (apply bb_and_true in Hclean; destruct Hclean as [Hclean _]).
  match type of Hin with In _ (if ?c then _ else _) => destruct c end;
    [destruct Hin |].
  destruct Hin as [<- | []].
  unfold generated_shape. rewrite from_chess960_from.
  split; [exact Hrange |]. split; [apply from_chess960_to, Hcand |].
  split.
  - pose proof (from_chess960_from b king_sq cand None) as Hf.
    destruct (from_chess960_cases b king_sq cand) as [Hc | [Hc | [Hc | [Hc | Hc]]]];
      rewrite Hc in Hf |- *; simpl in Hf |- *;
      try (left; rewrite <- Hf; discriminate).
    right. split; assumption.
  - exists p. split; [exact Hp |]. right.
    split; [apply from_chess960_promotion |].
    intros _. right. exists cand. reflexivity.
Qed.

Lemma pawn_moves_In (f t : Square) (m : Move) :
  In m (pawn_moves f t) -> from_square m = f /\ to_square m = t.
Proof.
  unfold pawn_moves. destruct ((square_rank t =? 0) || (square_rank t =? 7)); simpl;
    intuition (subst; auto).
Qed.

Lemma pawn_shape (b : Board) (m : Move) :
  pawns b (from_square m) = true -> BB_ALL (to_square m) = true ->
  from_square m <> to_square m ->
  generated_shape b m.
Proof.
  intros Hp Hto Hne. apply type_mask_true in Hp. destruct Hp as [Hfrom [p [Hp Hpt]]].
  split; [exact Hfrom |]. split; [exact Hto |]. split; [left; exact Hne |].
  exists p. split; [exact Hp | left; exact Hpt].
Qed.

Lemma occupied_true (b : Board) (s : Square) :
  occupied b s = true <-> BB_ALL s = true /\ exists p, piece_at b s = Some p.
Proof.
  unfold occupied. rewrite andb_true_iff.
  destruct (piece_at b s) as [p |]; split; intros [Ha Hb]; split; try assumption.
  - exists p. reflexivity.
  - reflexivity.
  - discriminate Hb.
  - destruct Hb as [p Hp]. discriminate Hp.
Qed.

Lemma ep_shape (b : Board) (fm tm : SquareSet) (m : Move) :
  (forall s, tm s = true -> BB_ALL s = true) ->
  In m (generate_pseudo_legal_ep b fm tm) -> generated_shape b m.
Proof.
  intros Htm. unfold generate_pseudo_legal_ep.
  destruct (ep_square (state b)) as [ep |]; [| intros []].
  destruct (negb (ep_truthy (Some ep)) || negb (tm ep)) eqn:Hc; [intros [] |].
  destruct (occupied b ep) eqn:Hocc; [intros [] |].
  apply orb_false_iff in Hc. destruct Hc as [_ Hc]. apply negb_false_iff in Hc.
  intros Hin. apply in_map_iff in Hin. destruct Hin as [capturer [<- Hin]].
  apply scan_reversed_In in Hin. destruct Hin as [Hmask _].
  do 4 (apply bb_and_true in Hmask; destruct Hmask as [Hmask _]).
  apply pawn_shape; simpl; [exact Hmask | apply Htm, Hc |].
  intros ->. apply type_mask_true in Hmask. destruct Hmask as [Hall [p [Hp _]]].
  assert (Ho : occupied b ep = true) by (apply occupied_true; eauto).
  congruence.
Qed.

Lemma own_not_own (b : Board) (c : Color) (s t : Square) :
  occupied_co b c s = true -> bb_not (occupied_co b c) t = true -> s <> t.
Proof.
  unfold bb_not. intros Hs Ht ->. rewrite Hs in Ht. discriminate Ht.
Qed.

Lemma piece_move_shape (b : Board) (fm tm : SquareSet) (from to : Square) :
  In from (scan_reversed
             (bb_and (bb_and (occupied_co b (b_turn b)) (bb_not (pawns b))) fm)) ->
  In to (scan_reversed
           (bb_and (bb_and (attacks_mask b from)
                           (bb_not (occupied_co b (b_turn b)))) tm)) ->
  generated_shape b (mkMove from to None).
Proof.
  intros Hfrom Hto.
  apply scan_reversed_In in Hfrom. destruct Hfrom as [Hfrom Hfrange].
  apply scan_reversed_In in Hto. destruct Hto as [Hto Htrange].
  do 2 (apply bb_and_true in Hfrom; destruct Hfrom as [Hfrom _]).
  apply bb_and_true in Hto; destruct Hto as [Hto _].
  apply bb_and_true in Hto; destruct Hto as [Hto Hnot].
  pose proof (own_not_own _ _ _ _ Hfrom Hnot) as Hne.
  apply occupied_co_true in Hfrom. destruct Hfrom as [_ [p [Hp _]]].
  split; [exact Hfrange |]. split; [exact Htrange |]. split; [left; exact Hne |].
  exists p. split; [exact Hp |]. right. split; [reflexivity |].
  simpl. intros Hking. left.
  unfold attacks_mask in Hto. rewrite Hp, Hking in Hto. exact Hto.
Qed.

Lemma pseudo_legal_shape (b : Board) (fm tm : SquareSet) (m : Move) :
  (forall s, tm s = true -> BB_ALL s = true) ->
  In m (generate_pseudo_legal_moves b fm tm) -> generated_shape b m.
Proof.
  intros Htm. unfold generate_pseudo_legal_moves. cbv zeta.
  assert (Hpieces : forall l,
    In m (flat_map
            (fun from => map (fun to => mkMove from to None)
               (scan_reversed
                  (bb_and (bb_and (attacks_mask b from)
                                  (bb_not (occupied_co b (b_turn b)))) tm)))
            (scan_reversed
               (bb_and (bb_and (occupied_co b (b_turn b)) (bb_not (pawns b))) fm))
          ++ (if bb_bool (bb_and fm (kings b))
              then generate_castling_moves b fm tm else []) ++ l) ->
    generated_shape b m \/ In m l).
  { intros l Hin. apply in_app_or in Hin. destruct Hin as [Hin | Hin].
    - left. apply in_flat_map in Hin. destruct Hin as [from [Hfrom Hin]].
      apply in_map_iff in Hin. destruct Hin as [to [<- Hto]].
      eapply piece_move_shape; eassumption.
    - apply in_app_or in Hin. destruct Hin as [Hin | Hin]; [left | right; exact Hin].
      destruct (bb_bool (bb_and fm (kings b))); [| destruct Hin].
      eapply castling_shape, Hin. }
  destruct (negb (bb_bool _)).
  - intros Hin. rewrite <- (app_nil_r (_ ++ _)), <- app_assoc in Hin.
    apply Hpieces in Hin. destruct Hin as [Hin | []]. exact Hin.
  - intros Hin. apply Hpieces in Hin. destruct Hin as [Hin | Hin]; [exact Hin |].
    apply in_app_or in Hin. destruct Hin as [Hin | Hin].
    { (* pawn captures *)
      apply in_flat_map in Hin. destruct Hin as [from [Hfrom Hin]].
      apply in_flat_map in Hin. destruct Hin as [to [Hto Hin]].
      apply pawn_moves_In in Hin. destruct Hin as [Hf Ht].
      apply scan_reversed_In in Hfrom. destruct Hfrom as [Hfrom _].
      apply scan_reversed_In in Hto. destruct Hto as [Hopp Hto].
      apply bb_and_true in Hfrom; destruct Hfrom as [Hfrom _].
      apply bb_and_true in Hfrom; destruct Hfrom as [Hfrom Hown].
      apply bb_and_true in Hopp; destruct Hopp as [Hopp _].
      apply bb_and_true in Hopp; destruct Hopp as [_ Hopp].
      apply pawn_shape; [rewrite Hf; exact Hfrom | rewrite Ht; exact Hto |].
      rewrite Hf, Ht. intros ->.
      apply occupied_co_true in Hown. destruct Hown as [_ [p1 [Hp1 Hc1]]].
      apply occupied_co_true in Hopp. destruct Hopp as [_ [p2 [Hp2 Hc2]]].
      rewrite Hp1 in Hp2. inversion Hp2. subst p2. rewrite Hc1 in Hc2.
      destruct (b_turn b); discriminate Hc2. }
    apply in_app_or in Hin. destruct Hin as [Hin | Hin].
    { (* single steps *)
      apply in_flat_map in Hin. destruct Hin as [to [Hto Hin]].
      apply pawn_moves_In in Hin. destruct Hin as [Hf Ht].
      apply scan_reversed_In in Hto. destruct Hto as [Hmask Hto].
      apply bb_and_true in Hmask. destruct Hmask as [Hmask _].
      apply andb_true_iff in Hmask. destruct Hmask as [Hmask _].
      repeat (apply bb_and_true in Hmask; destruct Hmask as [Hmask _]).
      apply pawn_shape; [rewrite Hf; exact Hmask | rewrite Ht; exact Hto |].
      rewrite Hf, Ht. destruct (b_turn b); lia. }
    apply in_app_or in Hin. destruct Hin as [Hin | Hin].
    { (* double steps *)
      apply in_map_iff in Hin. destruct Hin as [to [<- Hto]].
      apply scan_reversed_In in Hto. destruct Hto as [Hmask Hto].
      apply bb_and_true in Hmask. destruct Hmask as [Hmask _].
      apply andb_true_iff in Hmask. destruct Hmask as [Hmask _].
      apply andb_true_iff in Hmask. destruct Hmask as [Hmask _].
      apply andb_true_iff in Hmask. destruct Hmask as [Hmask _].
      repeat (apply bb_and_true in Hmask; destruct Hmask as [Hmask _]).
      apply pawn_shape; cbn [from_square to_square];
        [| exact Hto | destruct (b_turn b); lia].
      replace (to - 2 * (if b_turn b then 8 else -8))
        with (to - (if b_turn b then 8 else -8) - (if b_turn b then 8 else -8))
        by (destruct (b_turn b); lia).
      exact Hmask. }
    destruct (ep_truthy (ep_square (state b))); [| destruct Hin].
    eapply ep_shape; eassumption.
Qed.

Lemma evasions_shape (b : Board) (king_sq : Square) (checkers fm tm : SquareSet)
    (m : Move) :
  (forall s, tm s = true -> BB_ALL s = true) ->
  occupied_co b (b_turn b) king_sq = true ->
  In m (_generate_evasions b king_sq checkers fm tm) -> generated_shape b m.
Proof.
  intros Htm Hown. unfold _generate_evasions. cbv zeta.
  destruct (occupied_co_true _ _ _ Hown) as [Hrange [p [Hp _]]].
  assert (Hking : forall l,
    In m ((if fm king_sq then
             map (fun to => mkMove king_sq to None) l
           else [])) ->
    (forall to, In to l -> BB_KING_ATTACKS king_sq to = true /\ BB_ALL to = true /\
                           king_sq <> to) ->
    generated_shape b m).
  { intros l Hin Hl. destruct (fm king_sq); [| destruct Hin].
    apply in_map_iff in Hin. destruct Hin as [to [<- Hto]].
    destruct (Hl to Hto) as [Hatt [Hto' Hne]].
    split; [exact Hrange |]. split; [exact Hto' |]. split; [left; exact Hne |].
    exists p. split; [exact Hp |]. right. split; [reflexivity |].
    intros _. left. exact Hatt. }
  assert (Hl : forall to,
    In to (scan_reversed
             (bb_and (bb_and (bb_and (BB_KING_ATTACKS king_sq)
                                     (bb_not (occupied_co b (b_turn b))))
                (bb_not (bb_value (fun s => existsb
                   (fun checker => ray king_sq checker s && negb (s =? checker))
                   (scan_reversed (bb_and checkers
                      (bb_or (bb_or (bishops b) (rooks b)) (queens b))))))))
                tm)) ->
    BB_KING_ATTACKS king_sq to = true /\ BB_ALL to = true /\ king_sq <> to).
  { intros to Hto. apply scan_reversed_In in Hto. destruct Hto as [Hmask Hto].
    do 2 (apply bb_and_true in Hmask; destruct Hmask as [Hmask _]).
    apply bb_and_true in Hmask; destruct Hmask as [Hmask Hnot].
    split; [assumption |]. split; [assumption |].
    eapply own_not_own; eassumption. }
  destruct (scan_reversed checkers) as [| checker [| c2 rest]].
  - intros Hin. eapply Hking; eassumption.
  - intros Hin. apply in_app_or in Hin. destruct Hin as [Hin | Hin];
      [eapply Hking; eassumption |].
    apply in_app_or in Hin. destruct Hin as [Hin | Hin].
    + eapply pseudo_legal_shape; [| exact Hin].
      intros s Hs. apply bb_and_true in Hs. destruct Hs as [_ Hs]. apply Htm, Hs.
    + destruct (ep_square (state b)) as [ep |]; [| destruct Hin].
      destruct (ep_truthy (Some ep) && negb _); [| destruct Hin].
      destruct (_ =? checker); [| destruct Hin].
      eapply ep_shape; eassumption.
  - intros Hin. eapply Hking; eassumption.
Qed.

(** Every move of [generate_legal_moves] has the shape. *)
Lemma legal_shape (b : Board) (fm tm : SquareSet) (m : Move) :
  (forall s, tm s = true -> BB_ALL s = true) ->
  In m (generate_legal_moves b fm tm) -> generated_shape b m.
Proof.
  intros Htm. unfold generate_legal_moves.
  destruct (scan_reversed (bb_and (kings b) (occupied_co b (b_turn b))))
    as [| king_sq rest] eqn:Hscan.
  - apply pseudo_legal_shape, Htm.
  - assert (Hk : In king_sq (scan_reversed (bb_and (kings b) (occupied_co b (b_turn b)))))
      by (rewrite Hscan; left; reflexivity).
    apply scan_reversed_In in Hk. destruct Hk as [Hmask Hrange].
    apply bb_and_true in Hmask. destruct Hmask as [_ Hmask].
    cbv zeta. destruct (bb_bool _); intros Hin; apply filter_In in Hin;
      destruct Hin as [Hin _].
    + eapply evasions_shape; eassumption.
    + eapply pseudo_legal_shape; eassumption.
Qed.

Lemma legal_moves_shape (b : Board) (m : Move) :
  In m (legal_moves b) -> generated_shape b m.
Proof. apply legal_shape. intros s Hs. exact Hs. Qed.

End PyChessMoves.

(** ** The board model: making a move and taking it back *)

Section PyChessPush.

Import PyChess.
Local Open Scope Z_scope.

(** [pop] after [push] gives back the board as it was: position, move
    stack and saved states. *)
Lemma pop_push (b b1 : Board) (m : Move) :
  push b m = ok b1 -> pop b1 = ok b.
Proof.
  unfold push. cbv zeta. intros H.
  apply bind_ok in H. destruct H as [st' [_ H]].
  inversion H. destruct b as [st ms stk]. reflexivity.
Qed.

Lemma to_chess960_from (b : Board) (m : Move) :
  from_square (_to_chess960 b m) = from_square m.
Proof.
  unfold _to_chess960.
  destruct ((from_square m =? E1) && kings b E1) eqn:He1.
  - apply andb_true_iff in He1. destruct He1 as [He1 _]. apply Z.eqb_eq in He1.
    destruct ((to_square m =? G1) && negb (rooks b G1));
      [| destruct ((to_square m =? C1) && negb (rooks b C1))];
      simpl; congruence.
  - destruct ((from_square m =? E8) && kings b E8) eqn:He8; [| reflexivity].
    apply andb_true_iff in He8. destruct He8 as [He8 _]. apply Z.eqb_eq in He8.
    destruct ((to_square m =? G8) && negb (rooks b G8));
      [| destruct ((to_square m =? C8) && negb (rooks b C8))];
      simpl; congruence.
Qed.

(** [push] succeeds on a move whose origin square holds a piece. *)
Lemma push_total (b : Board) (m : Move) (p : Piece) :
  piece_at b (from_square m) = Some p -> exists b1, push b m = ok b1.
Proof.
  intros Hp. unfold push. cbv zeta.
  destruct (negb (move_truthy (_to_chess960 b m))); simpl.
  - eexists. reflexivity.
  - unfold push_pieces. cbv zeta. rewrite to_chess960_from.
    unfold _remove_piece_at.
    unfold piece_at in Hp.
    destruct (is_zeroing b (_to_chess960 b m)); simpl; rewrite Hp; simpl;
      eexists; reflexivity.
Qed.

End PyChessPush.

(** ** The board model: the notations *)

Section PyChessNotation.

Import PyChess.
Local Open Scope Z_scope.

Lemma bb_list_true (l : list Square) (s : Square) : bb_list l s = true <-> In s l.
Proof.
  unfold bb_list. rewrite existsb_exists. split.
  - intros [x [Hin Heq]]. apply Z.eqb_eq in Heq. subst x. exact Hin.
  - intros Hin. exists s. split; [exact Hin | apply Z.eqb_refl].
Qed.

Lemma bb_value_true (bb : SquareSet) (s : Square) : bb_value bb s = true -> bb s = true.
Proof.
  unfold bb_value. rewrite bb_list_true. intros Hin.
  apply scan_forward_In in Hin. tauto.
Qed.

(** On a board without saved states, castling rights sit on rooks. *)
Lemma clean_rights_rook (b : Board) (s : Square) :
  _stack b = [] -> clean_castling_rights b s = true -> rooks b s = true.
Proof.
  intros Hstack. unfold clean_castling_rights. rewrite Hstack. cbv zeta.
  intros H. apply bb_value_true in H. unfold bb_or in H.
  apply orb_true_iff in H. destruct H as [H | H];
    match type of H with (if ?c then _ else _) _ = true => destruct c end;
    try discriminate H;
    do 3 (apply bb_and_true in H; destruct H as [H _]);
    apply bb_and_true in H; tauto.
Qed.

Lemma generated_distinct (b : Board) (m : Move) :
  _stack b = [] -> generated_shape b m -> from_square m <> to_square m.
Proof.
  intros Hstack (_ & _ & [Hne | [Hk Hc]] & _); [exact Hne |].
  apply clean_rights_rook in Hc; [| exact Hstack].
  intros Heq. rewrite <- Heq in Hc.
  apply type_mask_true in Hk. destruct Hk as [_ [p1 [Hp1 Ht1]]].
  apply type_mask_true in Hc. destruct Hc as [_ [p2 [Hp2 Ht2]]].
  rewrite Hp1 in Hp2. inversion Hp2. subst p2. rewrite Ht1 in Ht2. discriminate Ht2.
Qed.

Lemma distinct_truthy (m : Move) :
  from_square m <> to_square m -> move_truthy m = true.
Proof.
  intros Hne. unfold move_truthy.
  destruct (Z.eqb_spec (from_square m) 0) as [Hf | Hf];
    destruct (Z.eqb_spec (to_square m) 0) as [Ht | Ht]; simpl; try reflexivity.
  congruence.
Qed.

(** A generated move from a king's square carries no promotion and is a
    neighbouring step or a castling move. *)
Lemma generated_king (b : Board) (m : Move) :
  generated_shape b m -> kings b (from_square m) = true ->
  promotion m = None /\
  (BB_KING_ATTACKS (from_square m) (to_square m) = true \/
   exists candidate, m = _from_chess960 b (from_square m) candidate None).
Proof.
  intros (_ & _ & _ & p & Hp & Hcases) Hk.
  apply type_mask_true in Hk. destruct Hk as [_ [p' [Hp' Hking]]].
  rewrite Hp in Hp'. inversion Hp'. subst p'.
  destruct Hcases as [Hpawn | [Hpromo Hstep]].
  - rewrite Hking in Hpawn. discriminate Hpawn.
  - split; [exact Hpromo | apply Hstep, Hking].
Qed.

Lemma castle_target (b : Board) (f cand bad : Square) :
  (f = E1 /\ (bad = H1 \/ bad = A1)) \/ (f = E8 /\ (bad = H8 \/ bad = A8)) ->
  kings b f = true ->
  to_square (_from_chess960 b f cand None) <> bad.
Proof.
  intros Hcase Hk. unfold _from_chess960.
  destruct Hcase as [[-> Hbad] | [-> Hbad]].
  - rewrite Hk. simpl.
    destruct (Z.eqb_spec cand H1); [destruct Hbad; subst; discriminate |].
    destruct (Z.eqb_spec cand A1); [destruct Hbad; subst; discriminate |].
    simpl. destruct Hbad; subst; congruence.
  - replace ((E8 =? E1) && kings b E1) with false by reflexivity.
    rewrite Hk. simpl.
    destruct (Z.eqb_spec cand H8); [destruct Hbad; subst; discriminate |].
    destruct (Z.eqb_spec cand A8); [destruct Hbad; subst; discriminate |].
    simpl. destruct Hbad; subst; congruence.
Qed.

(** [Board.uci] leaves a generated move as it is before it writes it. *)
Lemma uci_generated (b : Board) (m : Move) :
  generated_shape b m -> uci b m = move_uci m.
Proof.
  intros Hshape. unfold uci. cbv zeta. f_equal.
  destruct m as [f t pr]. unfold _to_chess960. simpl.
  assert (Hking : forall sq, f = sq -> kings b sq = true ->
            pr = None /\
            (BB_KING_ATTACKS sq t = true \/
             exists cand, mkMove f t pr = _from_chess960 b sq cand None)).
  { intros sq <- Hk. apply (generated_king b (mkMove f t pr) Hshape Hk). }
  assert (Hto : forall sq bad,
            (sq = E1 /\ (bad = H1 \/ bad = A1)) \/ (sq = E8 /\ (bad = H8 \/ bad = A8)) ->
            f = sq -> kings b sq = true -> t <> bad).
  { intros sq bad Hcase Hf Hk. destruct (Hking sq Hf Hk) as [_ [Hatt | [cand Hc]]].
    - intros ->. destruct Hcase as [[-> [-> | ->]] | [-> [-> | ->]]];
        vm_compute in Hatt; discriminate Hatt.
    - replace t with (to_square (mkMove f t pr)) by reflexivity. rewrite Hc.
      apply castle_target; assumption. }
  destruct ((f =? E1) && kings b E1) eqn:He1.
  - apply andb_true_iff in He1. destruct He1 as [Hf Hk]. apply Z.eqb_eq in Hf.
    destruct (Hking E1 Hf Hk) as [-> _].
    pose proof (Hto E1 H1 (or_introl (conj eq_refl (or_introl eq_refl))) Hf Hk) as Hh.
    pose proof (Hto E1 A1 (or_introl (conj eq_refl (or_intror eq_refl))) Hf Hk) as Ha.
    subst f.
    destruct ((t =? G1) && negb (rooks b G1)) eqn:Hg.
    { apply andb_true_iff in Hg. destruct Hg as [Hg _]. apply Z.eqb_eq in Hg.
      subst t. unfold _from_chess960. simpl. rewrite Hk. reflexivity. }
    destruct ((t =? C1) && negb (rooks b C1)) eqn:Hc.
    { apply andb_true_iff in Hc. destruct Hc as [Hc _]. apply Z.eqb_eq in Hc.
      subst t. unfold _from_chess960. simpl. rewrite Hk. reflexivity. }
    unfold _from_chess960. simpl. rewrite Hk. simpl.
    destruct (Z.eqb_spec t H1); [contradiction |].
    destruct (Z.eqb_spec t A1); [contradiction | reflexivity].
  - destruct ((f =? E8) && kings b E8) eqn:He8.
    + apply andb_true_iff in He8. destruct He8 as [Hf Hk]. apply Z.eqb_eq in Hf.
      destruct (Hking E8 Hf Hk) as [-> _].
      pose proof (Hto E8 H8 (or_intror (conj eq_refl (or_introl eq_refl))) Hf Hk) as Hh.
      pose proof (Hto E8 A8 (or_intror (conj eq_refl (or_intror eq_refl))) Hf Hk) as Ha.
      subst f.
      destruct ((t =? G8) && negb (rooks b G8)) eqn:Hg.
      { apply andb_true_iff in Hg. destruct Hg as [Hg _]. apply Z.eqb_eq in Hg.
        subst t. unfold _from_chess960. simpl. rewrite Hk. reflexivity. }
      destruct ((t =? C8) && negb (rooks b C8)) eqn:Hc.
      { apply andb_true_iff in Hc. destruct Hc as [Hc _]. apply Z.eqb_eq in Hc.
        subst t. unfold _from_chess960. simpl. rewrite Hk. reflexivity. }
      unfold _from_chess960.
      replace ((E8 =? E1) && kings b E1) with false by reflexivity.
      cbn [from_square to_square promotion]. rewrite Hk. simpl.
      destruct (Z.eqb_spec t H8); [contradiction |].
      destruct (Z.eqb_spec t A8); [contradiction | reflexivity].
    + unfold _from_chess960. cbn [from_square to_square promotion].
      rewrite He1, He8. destruct pr; reflexivity.
Qed.

End PyChessNotation.

(** ** The board model: every generated move can be annotated *)

Section PyChessTotal.

Import PyChess.
Local Open Scope Z_scope.

Lemma bind_total {A B} (r : result A) (k : A -> result B) :
  (exists a, r = ok a) -> (forall a, exists b, k a = ok b) ->
  exists b, bind r k = ok b.
Proof.
  intros [a ->] Hk. destruct (Hk a) as [b Hb]. exists b. exact Hb.
Qed.

Lemma ok_total {A} (a : A) : exists a', ok a = ok a'.
Proof. exists a. reflexivity. Qed.

Lemma file_name_total (sq : Square) :
  exists n, py_index FILE_NAMES (square_file sq) = ok n.
Proof. apply py_index_ok. simpl. apply square_file_range. Qed.

Lemma rank_name_total (sq : Square) :
  BB_ALL sq = true -> exists n, py_index RANK_NAMES (square_rank sq) = ok n.
Proof.
  intros H. apply py_index_ok. simpl. apply square_rank_range, BB_ALL_range, H.
Qed.

Lemma square_name_total (sq : Square) :
  BB_ALL sq = true -> exists n, square_name sq = ok n.
Proof. intros H. destruct (square_name_ok sq H) as [n [Hn _]]. exists n. exact Hn. Qed.

Lemma algebraic_without_suffix_total (b : Board) (m : Move) (long : bool) :
  generated_shape b m -> exists s, _algebraic_without_suffix b m long = ok s.
Proof.
  intros (Hf & Ht & _ & p & Hp & _).
  unfold _algebraic_without_suffix.
  destruct (negb (move_truthy m)); [apply ok_total |].
  destruct (is_castling b m); [destruct (_ <? _); apply ok_total |].
  unfold piece_type_at. rewrite Hp. cbn [option_map]. cbv zeta.
  apply bind_total.
  - destruct long.
    + apply bind_total; [apply square_name_total, Hf | intros; apply ok_total].
    + destruct (negb (PieceType_eqb (piece_type p) PAWN)).
      * destruct (bb_bool _); [| apply ok_total].
        apply bind_total.
        { destruct (_ || _); [apply file_name_total | apply ok_total]. }
        intros file_s. apply bind_total; [| intros; apply ok_total].
        destruct (bb_bool _); [apply rank_name_total, Hf | apply ok_total].
      * destruct (is_capture b m); [| apply ok_total].
        apply bind_total; [apply file_name_total | intros; apply ok_total].
  - intros san. apply bind_total; [apply square_name_total, Ht |].
    intros t. apply ok_total.
Qed.

Lemma algebraic_total (b : Board) (m : Move) (long : bool) :
  generated_shape b m -> exists s, _algebraic b m long = ok s.
Proof.
  intros Hshape.
  destruct (algebraic_without_suffix_total b m long Hshape) as [s Hs].
  destruct Hshape as (_ & _ & _ & p & Hp & _).
  destruct (push_total b m p Hp) as [b1 Hb1].
  unfold _algebraic. rewrite Hs. cbn [bind ok]. rewrite Hb1. cbn [bind ok].
  rewrite (pop_push b b1 m Hb1). cbn [bind ok]. eexists. reflexivity.
Qed.

(** [Move.uci] of a generated move on a board without saved states: the
    two square names and the letter of the promotion piece. *)
Lemma move_uci_generated (b : Board) (m : Move) :
  _stack b = [] -> generated_shape b m ->
  exists f t, square_name (from_square m) = ok f /\
              square_name (to_square m) = ok t /\
              String.length f = 2%nat /\ String.length t = 2%nat /\
              move_uci m = ok (f ++ t ++ match promotion m with
                                         | Some pt => piece_symbol pt
                                         | None => ""
                                         end)%string.
Proof.
  intros Hstack Hshape.
  pose proof (generated_distinct b m Hstack Hshape) as Hne.
  destruct Hshape as (Hf & Ht & _).
  destruct (square_name_ok _ Hf) as [f [Hfn Hfl]].
  destruct (square_name_ok _ Ht) as [t [Htn Htl]].
  exists f, t. repeat (split; [assumption |]).
  unfold move_uci. destruct (promotion m) as [pt |].
  - rewrite promotion_truthy_some, Hfn, Htn. reflexivity.
  - cbn [promotion_truthy]. rewrite (distinct_truthy m Hne), Hfn, Htn.
    cbn [bind ok]. rewrite append_empty_r. reflexivity.
Qed.

End PyChessTotal.

(** ** The loop over the legal moves *)

Section LoopFacts.

Variable E : RulesEngine.

(** The board gives back, on [pop], the board that [push] found. *)
Hypothesis restore :
  forall (b b1 : Board E) (m : Move), push E b m = ok b1 -> pop E b1 = ok b.

Lemma annotate_is_record (board board2 : Board E) (move : Move) (rec : PyValue) :
  annotate_move E board move = ok (board2, rec) ->
  board2 = board /\ record_of_position E board move = ok rec.
Proof.
  intros H. apply annotate_move_ok in H.
  destruct H as (from_sq & to_sq & pc & board1 & uci_s & san_s & lan_s &
                 Hfrom & Hto & Hpc & Hpush & Hpop & Huci & Hsan & Hlan & ->).
  rewrite (restore _ _ _ Hpush) in Hpop. inversion Hpop. subst board2.
  split; [reflexivity |].
  unfold record_of_position.
  rewrite Hfrom. cbn [bind ok]. rewrite Hto. cbn [bind ok].
  rewrite Hpc. cbn [bind ok]. rewrite Hpush. cbn [bind ok].
  rewrite Huci. cbn [bind ok]. rewrite Hsan. cbn [bind ok].
  rewrite Hlan. reflexivity.
Qed.

Lemma record_is_annotate (board : Board E) (move : Move) (rec : PyValue) :
  record_of_position E board move = ok rec ->
  annotate_move E board move = ok (board, rec).
Proof.
  unfold record_of_position. intros H.
  apply bind_ok in H. destruct H as [from_sq [Hfrom H]].
  apply bind_ok in H. destruct H as [to_sq [Hto H]].
  apply bind_ok in H. destruct H as [piece [Hpiece H]].
  apply bind_ok in H. destruct H as [after [Hpush H]].
  apply bind_ok in H. destruct H as [uci_s [Huci H]].
  apply bind_ok in H. destruct H as [san_s [Hsan H]].
  apply bind_ok in H. destruct H as [lan_s [Hlan H]].
  inversion H. unfold annotate_move.
  rewrite Hfrom. cbn [bind ok]. rewrite Hto. cbn [bind ok].
  rewrite Hpiece. cbn [bind ok]. rewrite Hpush. cbn [bind ok].
  rewrite (restore _ _ _ Hpush). cbn [bind ok].
  rewrite Huci. cbn [bind ok]. rewrite Hsan. cbn [bind ok].
  rewrite Hlan. reflexivity.
Qed.

(** The loop leaves the board as it found it, and its records are the
    records of the moves in that one position, in the order of the moves. *)
Lemma moves_loop_records (board board' : Board E) (todo : list Move)
    (moves moves' : list PyValue) :
  moves_loop E board todo moves = ok (board', moves') ->
  board' = board /\
  exists recs, mapM (record_of_position E board) todo = ok recs /\
               moves' = (moves ++ recs)%list.
Proof.
  revert moves. induction todo as [| move todo IH]; intros moves H.
  - simpl in H. inversion H. split; [reflexivity |].
    exists []. split; [reflexivity | rewrite app_nil_r; reflexivity].
  - simpl in H. apply bind_ok in H. destruct H as [[b1 rec] [Hann H]].
    apply annotate_is_record in Hann. destruct Hann as [-> Hrec].
    apply IH in H. destruct H as [-> [recs [Hrecs ->]]].
    split; [reflexivity |].
    exists (rec :: recs). split.
    + simpl. rewrite Hrec. cbn [bind ok]. rewrite Hrecs. reflexivity.
    + rewrite <- app_assoc. reflexivity.
Qed.

Lemma moves_loop_total (board : Board E) (todo : list Move)
    (moves recs : list PyValue) :
  mapM (record_of_position E board) todo = ok recs ->
  moves_loop E board todo moves = ok (board, (moves ++ recs)%list).
Proof.
  revert moves recs. induction todo as [| move todo IH]; intros moves recs H.
  - simpl in H. inversion H. simpl. rewrite app_nil_r. reflexivity.
  - simpl in H. apply bind_ok in H. destruct H as [rec [Hrec H]].
    apply bind_ok in H. destruct H as [recs' [Hrecs H]]. inversion H.
    simpl. rewrite (record_is_annotate _ _ _ Hrec). cbn [bind ok].
    rewrite (IH _ _ Hrecs). rewrite <- app_assoc. reflexivity.
Qed.

Lemma mapM_total {A B} (f : A -> result B) (l : list A) :
  (forall a, In a l -> exists b, f a = ok b) -> exists bs, mapM f l = ok bs.
Proof.
  induction l as [| a l IH]; intros H.
  - exists []. reflexivity.
  - destruct (H a (or_introl eq_refl)) as [b Hb].
    destruct IH as [bs Hbs]; [intros x Hx; apply H; right; exact Hx |].
    exists (b :: bs). simpl. rewrite Hb. cbn [bind ok]. rewrite Hbs. reflexivity.
Qed.

End LoopFacts.

(** ** The script on the package's board *)

Section OnPyChess.

Local Open Scope Z_scope.

Lemma move_uci_total (m : Move) :
  PyChess.BB_ALL (from_square m) = true -> PyChess.BB_ALL (to_square m) = true ->
  exists s, PyChess.move_uci m = ok s.
Proof.
  intros Hf Ht. unfold PyChess.move_uci.
  destruct (promotion_truthy (promotion m)); [| destruct (PyChess.move_truthy m)].
  - apply bind_total; [apply square_name_total, Hf | intros f].
    apply bind_total; [apply square_name_total, Ht | intros t; apply ok_total].
  - apply bind_total; [apply square_name_total, Hf | intros f].
    apply bind_total; [apply square_name_total, Ht | intros t; apply ok_total].
  - apply ok_total.
Qed.

(** Every move of the generator has a record. *)
Lemma pychess_record_total (b : PyChess.Board) (m : Move) :
  PyChess.generated_shape b m ->
  exists rec, record_of_position PyChess.engine b m = ok rec.
Proof.
  intros Hshape.
  destruct (algebraic_total b m false Hshape) as [san_s Hsan].
  destruct (algebraic_total b m true Hshape) as [lan_s Hlan].
  pose proof (uci_generated b m Hshape) as Huci.
  destruct Hshape as (Hf & Ht & _ & p & Hp & _).
  destruct (move_uci_total m Hf Ht) as [uci_s Hu]. rewrite Hu in Huci.
  destruct (square_name_total _ Hf) as [fn Hfn].
  destruct (square_name_total _ Ht) as [tn Htn].
  destruct (push_total b m p Hp) as [b1 Hb1].
  unfold record_of_position.
  cbn [piece_at push uci san lan fen PyChess.engine].
  rewrite Hfn. cbn [bind ok]. rewrite Htn. cbn [bind ok].
  rewrite Hp. cbn [bind ok]. rewrite Hb1. cbn [bind ok].
  rewrite Huci. cbn [bind ok].
  unfold PyChess.san, PyChess.lan. rewrite Hsan. cbn [bind ok]. rewrite Hlan.
  eexists. reflexivity.
Qed.

Lemma pychess_restore (b b1 : Board PyChess.engine) (m : Move) :
  push PyChess.engine b m = ok b1 -> pop PyChess.engine b1 = ok b.
Proof. apply pop_push. Qed.

(** Every legal move can be annotated, and the iteration leaves the board
    as it found it. *)
Lemma pychess_iteration (b : PyChess.Board) (m : Move) :
  In m (PyChess.legal_moves b) ->
  exists rec, annotate_move PyChess.engine b m = ok (b, rec).
Proof.
  intros Hin. apply legal_moves_shape in Hin.
  destruct (pychess_record_total b m Hin) as [rec Hrec].
  exists rec. apply (record_is_annotate PyChess.engine pychess_restore). exact Hrec.
Defined.

(** C4: on the package's board, [pop] after [push] gives back the position
    exactly as it was before the move, so each iteration of the loop leaves
    the board as it found it, and the records of the loop are the records
    of the legal moves, each with all its fields read from the position
    before the moves. *)
Theorem position_restored_after_each_move (b : PyChess.Board) :
  (forall m, In m (PyChess.legal_moves b) ->
     exists b1 rec,
       PyChess.push b m = ok b1 /\ PyChess.pop b1 = ok b /\
       annotate_move PyChess.engine b m = ok (b, rec) /\
       record_of_position PyChess.engine b m = ok rec) /\
  exists recs,
    moves_loop PyChess.engine b (PyChess.legal_moves b) [] = ok (b, recs) /\
    mapM (record_of_position PyChess.engine b) (PyChess.legal_moves b) = ok recs.
Proof.
  split.
  - intros m Hin. apply legal_moves_shape in Hin.
    destruct (pychess_record_total b m Hin) as [rec Hrec].
    destruct Hin as (_ & _ & _ & p & Hp & _).
    destruct (push_total b m p Hp) as [b1 Hb1].
    exists b1, rec. split; [exact Hb1 |]. split; [exact (pop_push b b1 m Hb1) |].
    split; [| exact Hrec].
    apply (record_is_annotate PyChess.engine pychess_restore). exact Hrec.
  - destruct (mapM_total (record_of_position PyChess.engine b) (PyChess.legal_moves b))
      as [recs Hrecs].
    { intros m Hin. apply pychess_record_total, legal_moves_shape, Hin. }
    exists recs. split; [| exact Hrecs].
    apply (moves_loop_total PyChess.engine pychess_restore b _ [] recs Hrecs).
Qed.

End OnPyChess.

(** ** The [moves] field *)

Section MovesField.

Variable E : RulesEngine.

Lemma moves_loop_iter (board : Board E) (todo : list Move) (moves : list PyValue) :
  (forall m, In m todo -> exists rec, annotate_move E board m = ok (board, rec)) ->
  exists recs,
    moves_loop E board todo moves = ok (board, (moves ++ recs)%list) /\
    Forall2 (fun m rec => annotate_move E board m = ok (board, rec)) todo recs.
Proof.
  revert moves. induction todo as [| m todo IH]; intros moves H.
  - exists []. split; [simpl; rewrite app_nil_r; reflexivity | constructor].
  - destruct (H m (or_introl eq_refl)) as [rec Hrec].
    destruct (IH (moves ++ [rec])%list) as [recs [Hloop Hall]].
    { intros m' Hm'. apply H. right. exact Hm'. }
    exists (rec :: recs). split.
    + simpl. rewrite Hrec. cbn [bind ok]. rewrite Hloop, <- app_assoc. reflexivity.
    + constructor; assumption.
Qed.

Lemma annotate_move_shape (board board2 : Board E) (m : Move) (rec : PyValue) :
  annotate_move E board m = ok (board2, rec) -> is_move_record E board m rec.
Proof.
  intros H. apply annotate_move_ok in H.
  destruct H as (from_sq & to_sq & pc & board1 & uci_s & san_s & lan_s &
                 Hfrom & Hto & _ & _ & _ & _ & _ & _ & ->).
  destruct (get_move_type_name E board m) as [c [_ Hc]].
  exists from_sq, to_sq, (symbol pc), c, uci_s, san_s, lan_s, (fen E board1).
  rewrite <- Hc. split; [exact Hfrom |]. split; [exact Hto |].
  split; reflexivity.
Qed.

(** C6: for a test case whose [fen] the board accepts, when each legal
    move can be annotated, [add_test_data] returns the test case with a
    field [moves] that holds one record for each legal move, in the order
    in which the board yields the moves, each of the shape
    [{move: {from, to, piece, capture, promotion, type}, uci, san, lan, fen}]
    with the name of a category as [type]. *)
Theorem moves_field_in_engine_order (test : PyValue) (fen_s : string)
    (board : Board E) :
  getitem test "fen" = ok (PyStr fen_s) ->
  set_fen E fen_s = ok board ->
  (forall m, In m (legal_moves E board) ->
     exists rec, annotate_move E board m = ok (board, rec)) ->
  exists test' recs,
    add_test_data E test = ok test' /\
    getitem test' "moves" = ok (PyList recs) /\
    Forall2 (is_move_record E board) (legal_moves E board) recs.
Proof.
  intros Hfen Hset Hiter.
  destruct (moves_loop_iter board (legal_moves E board) [] Hiter)
    as [recs [Hloop Hall]].
  destruct test as [| | | | | | d]; try discriminate Hfen.
  exists (PyDict (dict_set d "moves" (PyList recs))), recs.
  split; [| split].
  - unfold add_test_data. rewrite Hfen. cbn [bind ok board_of_fen].
    rewrite Hset. cbn [bind ok]. rewrite Hloop. reflexivity.
  - simpl. rewrite dict_get_set_same. reflexivity.
  - clear Hloop Hiter.
    induction Hall as [| m rec ms rs Hm _ IH]; constructor; [| exact IH].
    eapply annotate_move_shape, Hm.
Qed.

End MovesField.

(** ** Two runs on the same input *)

Section Determinism.

Variable E : RulesEngine.
Variable json_loads : string -> result PyValue.
Variable json_dumps : bool -> PyValue -> string.

(** The board gives back, on [pop], the board that [push] found. *)
Hypothesis restore :
  forall (b b1 : Board E) (m : Move), push E b m = ok b1 -> pop E b1 = ok b.

(** A processed test case is the test case with, as [moves], the records
    of the legal moves of the position of its [fen], every record read from
    that one position. *)
Lemma add_test_data_records (test test' : PyValue) :
  add_test_data E test = ok test' ->
  exists d fen_s b recs,
    test = PyDict d /\ dict_get d "fen" = Some (PyStr fen_s) /\
    set_fen E fen_s = ok b /\
    mapM (record_of_position E b) (legal_moves E b) = ok recs /\
    test' = PyDict (dict_set d "moves" (PyList recs)).
Proof.
  intros H. apply add_test_data_ok in H.
  destruct H as (d & fen_v & board & final & moves & -> & Hfen & Hboard & Hloop & ->).
  destruct fen_v as [| | | | fen_s | |]; try discriminate Hboard.
  apply (moves_loop_records E restore) in Hloop.
  destruct Hloop as [_ [recs [Hrecs ->]]].
  exists d, fen_s, board, recs. repeat split; assumption.
Qed.

(** How a write ends: well, with the whole text in the file, or with an
    error that the system raised. *)
Lemma write_tests_data_outcome (sys : System) (w : World) (out : string)
    (mini : bool) (tests : PyValue) :
  let r := write_tests_data json_dumps sys w out mini tests in
  (snd r = ok tt /\ fst r out = Some (json_dumps mini tests)) \/
  (exists e, snd r = raise e /\
     (open_error sys w out = Some e \/
      exists text n, dump_error sys w out text = Some (e, n))).
Proof.
  unfold write_tests_data. cbv zeta.
  destruct (open_error sys w out) as [e |].
  - right. exists e. split; [reflexivity | left; reflexivity].
  - destruct (dump_error sys w out (json_dumps mini tests)) as [[e n] |] eqn:Hd.
    + right. exists e. split; [reflexivity |]. right. eexists _, n. exact Hd.
    + left. cbn [fst snd]. rewrite String.eqb_refl. split; reflexivity.
Qed.

(** C8: two runs that read the same text from their input files, with the
    same [minify], compute the same, whatever else their worlds hold and
    whatever their output paths are.  When one ends well, the other ends
    well or with an error that its system raised at the write.  When both
    end well, both output files hold the same text: the writer's text for
    the value in which each test case of the input carries, as [moves], the
    records of the legal moves of the position of its [fen] in the board's
    order, every record ([type], [uci], [san], [lan], [fen] and the other
    fields) read from that position.  When one ends with an error that is
    not its system's, the other ends with that error and writes nothing. *)
Theorem main_deterministic (sys1 sys2 : System) (w1 w2 : World)
    (args1 args2 : Args) (text : string) :
  w1 (input args1) = Some text ->
  w2 (input args2) = Some text ->
  minify args1 = minify args2 ->
  let run1 := main E json_loads json_dumps sys1 w1 args1 in
  let run2 := main E json_loads json_dumps sys2 w2 args2 in
  (snd run1 = ok tt ->
   snd run2 = ok tt \/
   exists e, snd run2 = raise e /\
     (open_error sys2 w2 (output args2) = Some e \/
      exists out n, dump_error sys2 w2 (output args2) out = Some (e, n))) /\
  (snd run1 = ok tt -> snd run2 = ok tt ->
   exists tests tests',
     json_loads text = ok tests /\
     fst run1 (output args1) = Some (json_dumps (minify args1) tests') /\
     fst run2 (output args2) = Some (json_dumps (minify args1) tests') /\
     forall l, tests = PyList l ->
       exists l', tests' = PyList l' /\
         Forall2 (fun t t' =>
                    exists d fen_s b recs,
                      t = PyDict d /\ dict_get d "fen" = Some (PyStr fen_s) /\
                      set_fen E fen_s = ok b /\
                      mapM (record_of_position E b) (legal_moves E b) = ok recs /\
                      t' = PyDict (dict_set d "moves" (PyList recs)))
                 l l') /\
  (forall e, snd run1 = raise e ->
     open_error sys1 w1 (output args1) = None ->
     (forall out, dump_error sys1 w1 (output args1) out = None) ->
     run2 = (w2, raise e)).
Proof.
  intros Hw1 Hw2 Hmin. cbv zeta. unfold main, read_tests_definitions.
  rewrite Hw1, Hw2, <- Hmin.
  destruct (json_loads text) as [e0 | tests].
  { split; [intros H; discriminate H |]. split; [intros H; discriminate H |].
    intros e He _ _. cbn [snd] in He. rewrite He. reflexivity. }
  destruct (process_tests E tests) as [e0 | tests'] eqn:Hp.
  { split; [intros H; discriminate H |]. split; [intros H; discriminate H |].
    intros e He _ _. cbn [snd] in He. rewrite He. reflexivity. }
  pose proof (write_tests_data_outcome sys1 w1 (output args1) (minify args1) tests')
    as Hout1.
  pose proof (write_tests_data_outcome sys2 w2 (output args2) (minify args1) tests')
    as Hout2.
  cbv zeta in Hout1, Hout2.
  split; [| split].
  - intros _. destruct Hout2 as [[Hok _] | Hfault]; [left; exact Hok | right; exact Hfault].
  - intros Hok1 Hok2.
    destruct Hout1 as [[_ Hfile1] | [e [He _]]]; [| rewrite Hok1 in He; discriminate He].
    destruct Hout2 as [[_ Hfile2] | [e [He _]]]; [| rewrite Hok2 in He; discriminate He].
    exists tests, tests'. split; [reflexivity |]. split; [exact Hfile1 |].
    split; [exact Hfile2 |].
    intros l ->. simpl in Hp. apply bind_ok in Hp. destruct Hp as [l' [Hmap Hl']].
    unfold ok in Hl'. injection Hl' as <-. exists l'. split; [reflexivity |].
    apply mapM_ok_Forall2 in Hmap. clear - Hmap restore.
    induction Hmap as [| t t' l0 l0' Ht _ IH]; constructor; [| exact IH].
    apply add_test_data_records, Ht.
  - intros e He Hopen Hdump. exfalso.
    unfold write_tests_data in He. rewrite Hopen, Hdump in He. discriminate He.
Qed.

End Determinism.

(** ** The records of the package's board *)

Section PyChessRecords.

Lemma set_fen_stack (fen_s : string) (b : PyChess.Board) :
  PyChess.set_fen fen_s = ok b -> PyChess._stack b = [] /\ PyChess.move_stack b = [].
Proof.
  unfold PyChess.set_fen. intros H.
  destruct (PyChess.split_ws fen_s) as [| board_part parts]; [discriminate H |].
  apply bind_ok in H. destruct H as [[turn_v parts1] [_ H]].
  apply bind_ok in H. destruct H as [[castling_part parts2] [_ H]].
  apply bind_ok in H. destruct H as [[ep parts3] [_ H]].
  apply bind_ok in H. destruct H as [[halfmove parts4] [_ H]].
  apply bind_ok in H. destruct H as [[fullmove parts5] [_ H]].
  cbv beta iota zeta in H.
  destruct parts5; [| discriminate H].
  apply bind_ok in H. destruct H as [st [_ H]].
  apply bind_ok in H. destruct H as [cr [_ H]].
  inversion H. split; reflexivity.
Qed.

Lemma piece_symbol_length (pt : PieceType) : String.length (piece_symbol pt) = 1%nat.
Proof. destruct pt; reflexivity. Qed.

(** C7: for a position read from a FEN and a legal move of it, the [uci]
    string of the move's record is the name of the origin square, the name
    of the destination square and, when the move carries a promotion piece,
    the lower-case letter of that piece: four characters without a
    promotion, five with one. *)
Theorem uci_of_record (fen_s : string) (b : PyChess.Board) (m : Move) :
  PyChess.set_fen fen_s = ok b ->
  In m (PyChess.legal_moves b) ->
  exists rec f t u,
    annotate_move PyChess.engine b m = ok (b, rec) /\
    getitem rec "uci" = ok (PyStr u) /\
    square_name (from_square m) = ok f /\
    square_name (to_square m) = ok t /\
    u = f ++ t ++ match promotion m with
                  | Some pt => lower (piece_symbol pt)
                  | None => ""
                  end /\
    String.length u = match promotion m with Some _ => 5%nat | None => 4%nat end.
Proof.
  intros Hset Hin.
  apply set_fen_stack in Hset. destruct Hset as [Hstack _].
  apply legal_moves_shape in Hin.
  destruct (pychess_record_total b m Hin) as [rec Hrec].
  apply (record_is_annotate PyChess.engine pychess_restore) in Hrec.
  destruct (move_uci_generated b m Hstack Hin) as (f & t & Hf & Ht & Hfl & Htl & Hu).
  rewrite <- (uci_generated b m Hin) in Hu.
  pose proof Hrec as Hfields. apply annotate_move_ok in Hfields.
  destruct Hfields as (from_sq & to_sq & pc & board1 & uci_s & san_s & lan_s &
                       _ & _ & _ & _ & _ & Huci & _ & _ & ->).
  cbn [uci PyChess.engine] in Huci. rewrite Hu in Huci. inversion Huci.
  subst uci_s. eexists _, f, t, _. split; [exact Hrec |]. split; [reflexivity |].
  split; [exact Hf |]. split; [exact Ht |]. split.
  - destruct (promotion m) as [pt |]; [rewrite lower_piece_symbol |]; reflexivity.
  - rewrite !length_append, Hfl, Htl.
    destruct (promotion m) as [pt |]; [rewrite piece_symbol_length |]; reflexivity.
Qed.

(** The moves of a test case depend on its [fen] field alone. *)
Lemma add_test_data_of_fen (E : RulesEngine) (d : PyDictT) (v : PyValue)
    (recs : list PyValue) (d0 : PyDictT) :
  dict_get d "fen" = Some v ->
  add_test_data E (PyDict [("fen", v)]) = ok (PyDict d0) ->
  dict_get d0 "moves" = Some (PyList recs) ->
  add_test_data E (PyDict d) = ok (PyDict (dict_set d "moves" (PyList recs))).
Proof.
  intros Hfen Hrun Hmoves. unfold add_test_data in *.
  unfold getitem at 1 in Hrun. unfold dict_get in Hrun.
  rewrite String.eqb_refl in Hrun.
  cbn [getitem]. rewrite Hfen. cbn [bind ok] in *.
  destruct (board_of_fen E v) as [e | board]; [discriminate Hrun |].
  cbn [bind ok] in *.
  destruct (moves_loop E board (legal_moves E board) [])
    as [e | [final moves]]; [discriminate Hrun |].
  cbn [bind ok setitem] in *. inversion Hrun. subst d0.
  simpl in Hmoves. inversion Hmoves. reflexivity.
Qed.

(** C3: for a test case whose [fen] is the starting position,
    [add_test_data] returns the test case with a [moves] field of exactly
    twenty records, and every one of them has the type [Basic]. *)
Theorem starting_position_twenty_basic (test : PyValue) :
  getitem test "fen" = ok (PyStr starting_fen) ->
  exists test' recs,
    add_test_data PyChess.engine test = ok test' /\
    getitem test' "moves" = ok (PyList recs) /\
    List.length recs = 20%nat /\
    Forall (fun rec => record_move_field rec "type" = ok (PyStr "Basic")) recs.
Proof.
  intros Hfen.
  destruct test as [| | | | | | d]; try discriminate Hfen.
  simpl in Hfen. destruct (dict_get d "fen") as [v |] eqn:Hget; [| discriminate Hfen].
  inversion Hfen. subst v.
  assert (Hrun : exists recs,
            add_test_data PyChess.engine (PyDict [("fen", PyStr starting_fen)])
              = ok (PyDict [("fen", PyStr starting_fen); ("moves", PyList recs)]) /\
            List.length recs = 20%nat /\ forallb is_basic recs = true).
  { eexists. split; [vm_compute; reflexivity |].
    split; vm_compute; reflexivity. }
  destruct Hrun as [recs [Hrun [Hlen Hbasic]]].
  exists (PyDict (dict_set d "moves" (PyList recs))), recs.
  split; [| split; [| split]].
  - eapply add_test_data_of_fen; [exact Hget | exact Hrun | reflexivity].
  - simpl. rewrite dict_get_set_same. reflexivity.
  - exact Hlen.
  - apply Forall_forall. intros rec Hrec.
    rewrite forallb_forall in Hbasic. specialize (Hbasic rec Hrec).
    unfold is_basic in Hbasic.
    destruct (record_move_field rec "type") as [e | [| | | | s | |]];
      try discriminate Hbasic.
    apply String.eqb_eq in Hbasic. subst s. reflexivity.
Qed.

(** On the package's board the destination square of an en-passant move
    is empty: the captured pawn's letter cannot come from it. *)
Lemma en_passant_destination_empty (b : PyChess.Board) (m : Move) :
  PyChess.is_en_passant b m = true ->
  PyChess.BB_ALL (to_square m) = true ->
  PyChess.piece_at b (to_square m) = None.
Proof.
  unfold PyChess.is_en_passant. intros H Hall.
  apply andb_true_iff in H. destruct H as [_ H].
  apply negb_true_iff in H. unfold PyChess.occupied in H. rewrite Hall in H.
  destruct (PyChess.piece_at b (to_square m)); [discriminate H | reflexivity].
Qed.

(** On the package's board, every test case with a [fen] that the board
    accepts gets its [moves]: the records of the legal moves, in order. *)
Lemma add_test_data_on_pychess (test : PyValue) (fen_s : string) (b : PyChess.Board) :
  getitem test "fen" = ok (PyStr fen_s) ->
  PyChess.set_fen fen_s = ok b ->
  exists test' recs,
    add_test_data PyChess.engine test = ok test' /\
    getitem test' "moves" = ok (PyList recs) /\
    mapM (record_of_position PyChess.engine b) (PyChess.legal_moves b) = ok recs.
Proof.
  intros Hfen Hset.
  destruct (mapM_total (record_of_position PyChess.engine b) (PyChess.legal_moves b))
    as [recs Hrecs].
  { intros m Hin. apply pychess_record_total, legal_moves_shape, Hin. }
  pose proof (moves_loop_total PyChess.engine pychess_restore b _ [] recs Hrecs) as Hloop.
  destruct test as [| | | | | | d]; try discriminate Hfen.
  exists (PyDict (dict_set d "moves" (PyList recs))), recs.
  split; [| split; [| exact Hrecs]].
  - unfold add_test_data. rewrite Hfen. cbn [bind ok board_of_fen set_fen PyChess.engine].
    rewrite Hset. cbn [bind ok legal_moves PyChess.engine]. rewrite Hloop. reflexivity.
  - simpl. rewrite dict_get_set_same. reflexivity.
Qed.

End PyChessRecords.

(** ** The move generator on positions with published counts *)

Example perft_start_2 : perft 2 (board_of starting_fen) = 400%Z.
Proof. vm_compute. reflexivity. Qed.

Example perft_kiwipete_1 : perft 1 (board_of kiwipete_fen) = 48%Z.
Proof. vm_compute. reflexivity. Qed.

Example perft_endgame_2 : perft 2 (board_of endgame_fen) = 191%Z.
Proof. vm_compute. reflexivity. Qed.

Example perft_promotions_1 : perft 1 (board_of promotions_fen) = 44%Z.
Proof. vm_compute. reflexivity. Qed.

(** ** The properties at concrete inputs *)

Section Witnesses.

Local Open Scope Z_scope.

Lemma board_of_set_fen_en_passant :
  PyChess.set_fen en_passant_fen = ok (board_of en_passant_fen).
Proof. vm_compute. reflexivity. Defined.

Lemma board_of_set_fen_promotion :
  PyChess.set_fen promotion_fen = ok (board_of promotion_fen).
Proof. vm_compute. reflexivity. Defined.

Lemma board_of_set_fen_kings :
  PyChess.set_fen kings_fen = ok (board_of kings_fen).
Proof. vm_compute. reflexivity. Defined.

(** The capture e5xd6 en passant: the captured letter is the black pawn's. *)
Lemma capture_letter_witness :
  exists rec,
    annotate_move PyChess.engine (board_of en_passant_fen) (mkMove 36 43 None)
      = ok (board_of en_passant_fen, rec) /\
    record_move_field rec "capture" = ok (PyStr "p").
Proof.
  assert (H : exists rec,
            annotate_move PyChess.engine (board_of en_passant_fen) (mkMove 36 43 None)
              = ok (board_of en_passant_fen, rec))
    by (eexists; vm_compute; reflexivity).
  destruct H as [rec H]. exists rec. split; [exact H |].
  destruct (capture_letter_of_record PyChess.engine _ _ _ _ H) as [Hep _].
  destruct Hep as [_ [Hwhite _]]; [vm_compute; reflexivity |].
  apply Hwhite. vm_compute. reflexivity.
Defined.

(** The promotion a7-a8=Q of a white pawn: the letter is upper case. *)
Lemma promotion_letter_witness :
  exists rec,
    annotate_move PyChess.engine (board_of promotion_fen) (mkMove 48 56 (Some QUEEN))
      = ok (board_of promotion_fen, rec) /\
    record_move_field rec "promotion" = ok (PyStr "Q").
Proof.
  assert (H : exists rec,
            annotate_move PyChess.engine (board_of promotion_fen)
                          (mkMove 48 56 (Some QUEEN))
              = ok (board_of promotion_fen, rec))
    by (eexists; vm_compute; reflexivity).
  destruct H as [rec H]. exists rec. split; [exact H |].
  destruct (promotion_letter_of_record PyChess.engine _ _ _ _ H) as [Hsome _].
  destruct (Hsome QUEEN eq_refl) as [_ [Hwhite _]].
  apply Hwhite. vm_compute. reflexivity.
Defined.

Lemma promotion_move_legal :
  In (mkMove 48 56 (Some QUEEN)) (PyChess.legal_moves (board_of promotion_fen)).
Proof. vm_compute. auto 20. Defined.

Lemma uci_of_record_witness :
  exists rec f t u,
    annotate_move PyChess.engine (board_of promotion_fen) (mkMove 48 56 (Some QUEEN))
      = ok (board_of promotion_fen, rec) /\
    getitem rec "uci" = ok (PyStr u) /\
    square_name 48 = ok f /\
    square_name 56 = ok t /\
    u = f ++ t ++ lower (piece_symbol QUEEN) /\
    String.length u = 5%nat.
Proof.
  exact (uci_of_record promotion_fen (board_of promotion_fen)
           (mkMove 48 56 (Some QUEEN))
           board_of_set_fen_promotion promotion_move_legal).
Defined.

Lemma starting_position_witness :
  exists test' recs,
    add_test_data PyChess.engine (PyDict [("fen", PyStr starting_fen)]) = ok test' /\
    getitem test' "moves" = ok (PyList recs) /\
    List.length recs = 20%nat /\
    Forall (fun rec => record_move_field rec "type" = ok (PyStr "Basic")) recs.
Proof.
  exact (starting_position_twenty_basic (PyDict [("fen", PyStr starting_fen)]) eq_refl).
Defined.

Lemma moves_field_witness :
  exists test' recs,
    add_test_data PyChess.engine example_test = ok test' /\
    getitem test' "moves" = ok (PyList recs) /\
    Forall2 (is_move_record PyChess.engine (board_of kings_fen))
            (PyChess.legal_moves (board_of kings_fen)) recs.
Proof.
  exact (moves_field_in_engine_order PyChess.engine example_test kings_fen
           (board_of kings_fen) eq_refl board_of_set_fen_kings
           (pychess_iteration (board_of kings_fen))).
Defined.

Lemma other_fields_witness :
  exists tests' l',
    process_tests PyChess.engine (PyList [example_test]) = ok tests' /\
    tests' = PyList l' /\
    Forall2 (fun t t' =>
               exists d d', t = PyDict d /\ t' = PyDict d' /\
                 dict_without "moves" d' = dict_without "moves" d /\
                 forall k, k <> "moves" -> getitem t' k = getitem t k)
            [example_test] l'.
Proof.
  assert (H : exists tests',
            process_tests PyChess.engine (PyList [example_test]) = ok tests')
    by (eexists; vm_compute; reflexivity).
  destruct H as [tests' H].
  destruct (other_fields_pass_through PyChess.engine _ _ H) as [l' [Hl Hall]].
  exists tests', l'. split; [exact H |]. split; [exact Hl | exact Hall].
Defined.

(** A second run, in the world the first run left and to another path,
    writes what the first wrote. *)
Lemma main_deterministic_witness :
  let run1 := main PyChess.engine example_loads example_dumps good_system
                   example_world example_args in
  let run2 := main PyChess.engine example_loads example_dumps good_system
                   (fst run1) (mkArgs "in.json" "again.json" false) in
  snd run1 = ok tt /\ snd run2 = ok tt /\
  exists tests',
    fst run1 "out.json" = Some (example_dumps false tests') /\
    fst run2 "again.json" = Some (example_dumps false tests').
Proof.
  cbv zeta.
  assert (Hok1 : snd (main PyChess.engine example_loads example_dumps good_system
                           example_world example_args) = ok tt)
    by (vm_compute; reflexivity).
  assert (Hok2 : snd (main PyChess.engine example_loads example_dumps good_system
                           (fst (main PyChess.engine example_loads example_dumps
                                      good_system example_world example_args))
                           (mkArgs "in.json" "again.json" false)) = ok tt)
    by (vm_compute; reflexivity).
  split; [exact Hok1 |]. split; [exact Hok2 |].
  destruct (main_deterministic PyChess.engine example_loads example_dumps
              pychess_restore good_system good_system example_world
              (fst (main PyChess.engine example_loads example_dumps good_system
                         example_world example_args))
              example_args (mkArgs "in.json" "again.json" false) "[kings]"
              eq_refl eq_refl eq_refl) as [_ [Hsame _]].
  destruct (Hsame Hok1 Hok2) as [tests [tests' [_ [Hf1 [Hf2 _]]]]].
  exists tests'. split; [exact Hf1 | exact Hf2].
Defined.

Lemma fatal_errors_witness :
  exists e,
    main PyChess.engine example_loads example_dumps good_system bad_world example_args
      = (bad_world, raise e) /\
    forall e0, example_loads "[{}]" = raise e0 -> e = e0.
Proof.
  apply (fatal_errors_write_nothing PyChess.engine example_loads example_dumps
           good_system bad_world example_args "[{}]" eq_refl).
  right. left. exists [PyDict []], []. split; [reflexivity |].
  split; [left; reflexivity | reflexivity].
Defined.

End Witnesses.

(** * Further properties of the script *)

(** ** The classifier, read backwards *)

(** X1: each name is returned under exactly one condition: a castle name
    when the castle test holds (kingside first), [EnPassant] when no castle
    test holds and the en-passant test does, and the four remaining names by
    the promotion piece and the capture test when none of the three holds. *)
Theorem get_move_type_inversion (E : RulesEngine) (board : Board E) (move : Move) :
  let ks := is_kingside_castling E board move in
  let qs := is_queenside_castling E board move in
  let ep := is_en_passant E board move in
  let cap := is_capture E board move in
  let t := get_move_type E board move in
  (t = "KingSideCastle" <-> ks = true) /\
  (t = "QueenSideCastle" <-> ks = false /\ qs = true) /\
  (t = "EnPassant" <-> ks = false /\ qs = false /\ ep = true) /\
  (t = "PromotionCapture" <->
     ks = false /\ qs = false /\ ep = false /\ promotion move <> None /\ cap = true) /\
  (t = "Promotion" <->
     ks = false /\ qs = false /\ ep = false /\ promotion move <> None /\ cap = false) /\
  (t = "Capture" <->
     ks = false /\ qs = false /\ ep = false /\ promotion move = None /\ cap = true) /\
  (t = "Basic" <->
     ks = false /\ qs = false /\ ep = false /\ promotion move = None /\ cap = false).
Proof.
  unfold get_move_type. cbv zeta.
  destruct (is_kingside_castling E board move);
    destruct (is_queenside_castling E board move);
    destruct (is_en_passant E board move);
    destruct (is_capture E board move);
    destruct (promotion move) as [pt |];
    repeat split; intros; repeat match goal with H : _ /\ _ |- _ => destruct H end;
    try reflexivity; try discriminate; try congruence.
Qed.

Section RecordFields.

Variable E : RulesEngine.

Lemma type_en_passant (board : Board E) (move : Move) :
  get_move_type E board move = "EnPassant" -> is_en_passant E board move = true.
Proof.
  unfold get_move_type.
  destruct (is_kingside_castling E board move); [discriminate |].
  destruct (is_queenside_castling E board move); [discriminate |].
  destruct (is_en_passant E board move); [reflexivity |].
  destruct (promotion move); destruct (is_capture E board move); discriminate.
Qed.

Lemma type_promotion (board : Board E) (move : Move) :
  get_move_type E board move = "Promotion" \/
  get_move_type E board move = "PromotionCapture" ->
  exists pt, promotion move = Some pt.
Proof.
  unfold get_move_type.
  destruct (is_kingside_castling E board move); [intros [H | H]; discriminate H |].
  destruct (is_queenside_castling E board move); [intros [H | H]; discriminate H |].
  destruct (is_en_passant E board move); [intros [H | H]; discriminate H |].
  destruct (promotion move) as [pt |]; [intros _; exists pt; reflexivity |].
  destruct (is_capture E board move); intros [H | H]; discriminate H.
Qed.

Lemma type_no_promotion (board : Board E) (move : Move) :
  get_move_type E board move = "Capture" \/ get_move_type E board move = "Basic" ->
  promotion move = None.
Proof.
  unfold get_move_type.
  destruct (is_kingside_castling E board move); [intros [H | H]; discriminate H |].
  destruct (is_queenside_castling E board move); [intros [H | H]; discriminate H |].
  destruct (is_en_passant E board move); [intros [H | H]; discriminate H |].
  destruct (promotion move) as [pt |]; [| reflexivity].
  destruct (is_capture E board move); intros [H | H]; discriminate H.
Qed.

(** The [type] of a record is what the classifier said of the position the
    iteration found. *)
Lemma record_type (board board2 : Board E) (move : Move) (rec : PyValue) :
  annotate_move E board move = ok (board2, rec) ->
  record_move_field rec "type" = ok (PyStr (get_move_type E board move)) /\
  record_move_field rec "capture" = ok (opt_str (capture_field E board move)) /\
  record_move_field rec "promotion" = ok (opt_str (promotion_field E board move)).
Proof.
  intros H. apply annotate_move_ok in H.
  destruct H as (from_sq & to_sq & pc0 & board1 & uci_s & san_s & lan_s &
                 _ & _ & _ & _ & _ & _ & _ & _ & ->).
  repeat split; reflexivity.
Qed.

(** X2: a record of type [EnPassant] never has a null capture: its capture
    is the pawn letter of the side that does not move. *)
Theorem en_passant_record_has_pawn (board board2 : Board E) (move : Move)
    (rec : PyValue) :
  annotate_move E board move = ok (board2, rec) ->
  record_move_field rec "type" = ok (PyStr "EnPassant") ->
  record_move_field rec "capture"
    = ok (PyStr (if Bool.eqb (turn E board) WHITE then "p" else "P")).
Proof.
  intros H Htype. apply record_type in H. destruct H as [Ht [Hc _]].
  rewrite Ht in Htype. inversion Htype as [Hname].
  apply type_en_passant in Hname.
  rewrite Hc. unfold capture_field. rewrite Hname. reflexivity.
Qed.

(** X3: the promotion field agrees with the type: a record of type
    [Promotion] or [PromotionCapture] carries a promotion letter, a record
    of type [Capture] or [Basic] carries null. *)
Theorem promotion_field_agrees_with_type (board board2 : Board E) (move : Move)
    (rec : PyValue) :
  annotate_move E board move = ok (board2, rec) ->
  (record_move_field rec "type" = ok (PyStr "Promotion") \/
   record_move_field rec "type" = ok (PyStr "PromotionCapture") ->
   exists pt, promotion move = Some pt /\
     record_move_field rec "promotion"
       = ok (PyStr (symbol (mkPiece pt (turn E board))))) /\
  (record_move_field rec "type" = ok (PyStr "Capture") \/
   record_move_field rec "type" = ok (PyStr "Basic") ->
   record_move_field rec "promotion" = ok PyNone).
Proof.
  intros H. apply record_type in H. destruct H as [Ht [_ Hp]].
  rewrite Ht, Hp. unfold promotion_field. split.
  - intros Htype.
    destruct (type_promotion board move) as [pt Hpt].
    { destruct Htype as [Hx | Hx]; inversion Hx; tauto. }
    exists pt. split; [exact Hpt |].
    rewrite Hpt, promotion_truthy_some. unfold symbol. simpl.
    destruct (turn E board); simpl; rewrite ?lower_piece_symbol; reflexivity.
  - intros Htype.
    rewrite (type_no_promotion board move); [reflexivity |].
    destruct Htype as [Hx | Hx]; inversion Hx; tauto.
Qed.

End RecordFields.

(** ** One test case *)

Lemma dict_set_twice (d : PyDictT) (k : string) (v v' : PyValue) :
  dict_set (dict_set d k v) k v' = dict_set d k v'.
Proof.
  induction d as [| [k0 v0] d IH]; simpl.
  - rewrite String.eqb_refl. reflexivity.
  - destruct (String.eqb_spec k0 k) as [-> | Hk]; simpl.
    + rewrite String.eqb_refl. reflexivity.
    + destruct (String.eqb_spec k0 k); [contradiction | rewrite IH; reflexivity].
Qed.

Lemma dict_set_keys (d : PyDictT) (k : string) (v : PyValue) :
  map fst (dict_set d k v)
    = if existsb (fun k' => String.eqb k' k) (map fst d)
      then map fst d else (map fst d ++ [k])%list.
Proof.
  induction d as [| [k0 v0] d IH]; simpl.
  - reflexivity.
  - destruct (String.eqb k0 k); simpl; [reflexivity |].
    rewrite IH. destruct (existsb _ (map fst d)); reflexivity.
Qed.

Section OneTestCase.

Variable E : RulesEngine.

Lemma add_test_data_again (test test' : PyValue) :
  add_test_data E test = ok test' -> add_test_data E test' = ok test'.
Proof.
  intros H. apply add_test_data_ok in H.
  destruct H as (d & fen_v & board & final & moves & -> & Hfen & Hboard & Hloop & ->).
  unfold add_test_data. cbn [getitem].
  rewrite dict_get_set_other by discriminate. rewrite Hfen. cbn [bind ok].
  rewrite Hboard. cbn [bind ok]. rewrite Hloop. cbn [bind ok setitem].
  rewrite dict_set_twice. reflexivity.
Qed.

(** X4: processing a test case that was already processed changes nothing:
    the returned object still has the [fen] of the test case, and the call
    on it returns it again. *)
Theorem add_test_data_idempotent (test test' : PyValue) :
  add_test_data E test = ok test' ->
  getitem test' "fen" = getitem test "fen" /\
  add_test_data E test' = ok test'.
Proof.
  intros H. split; [| exact (add_test_data_again test test' H)].
  apply add_test_data_ok in H.
  destruct H as (d & fen_v & board & final & moves & -> & _ & _ & _ & ->).
  cbn [getitem]. rewrite dict_get_set_other by discriminate. reflexivity.
Qed.

(** X5: the keys of the returned object are the keys of the test case in
    their order; [moves] keeps its place when the test case had it and goes
    last when it had not. *)
Theorem add_test_data_keys (test test' : PyValue) :
  add_test_data E test = ok test' ->
  exists d d', test = PyDict d /\ test' = PyDict d' /\
    map fst d' = if existsb (fun k => String.eqb k "moves") (map fst d)
                 then map fst d else (map fst d ++ ["moves"])%list.
Proof.
  intros H. apply add_test_data_ok in H.
  destruct H as (d & fen_v & board & final & moves & -> & _ & _ & _ & ->).
  eexists _, _. split; [reflexivity |]. split; [reflexivity |].
  apply dict_set_keys.
Qed.

(** X6: the moves of a test case depend on its [fen] field alone: a second
    object with the same [fen] gets the same [moves], whatever else the two
    objects hold. *)
Theorem moves_depend_on_fen_only (test1 test1' test2 : PyValue) :
  add_test_data E test1 = ok test1' ->
  getitem test2 "fen" = getitem test1 "fen" ->
  exists test2', add_test_data E test2 = ok test2' /\
                 getitem test2' "moves" = getitem test1' "moves".
Proof.
  intros H Hsame. apply add_test_data_ok in H.
  destruct H as (d & fen_v & board & final & moves & -> & Hfen & Hboard & Hloop & ->).
  cbn [getitem] in Hsame. rewrite Hfen in Hsame.
  destruct test2 as [| | | | | | d2]; try discriminate Hsame.
  exists (PyDict (dict_set d2 "moves" (PyList moves))). split.
  - unfold add_test_data. rewrite Hsame. cbn [bind ok].
    rewrite Hboard. cbn [bind ok]. rewrite Hloop. reflexivity.
  - cbn [getitem]. rewrite !dict_get_set_same. reflexivity.
Qed.

(** The records of the loop, whatever the board does: one for each move,
    made from that move. *)
Lemma moves_loop_each (board final : Board E) (todo : list Move)
    (moves moves' : list PyValue) :
  moves_loop E board todo moves = ok (final, moves') ->
  exists recs, moves' = (moves ++ recs)%list /\
    Forall2 (fun m rec => exists b b', annotate_move E b m = ok (b', rec)) todo recs.
Proof.
  revert board moves. induction todo as [| m todo IH]; intros board moves H.
  - simpl in H. inversion H. exists []. split; [rewrite app_nil_r; reflexivity |].
    constructor.
  - simpl in H. apply bind_ok in H. destruct H as [[b1 rec] [Hann H]].
    apply IH in H. destruct H as [recs [-> Hall]].
    exists (rec :: recs). split; [rewrite <- app_assoc; reflexivity |].
    constructor; [exists board, b1; exact Hann | exact Hall].
Qed.

(** X7: a call that returns has read a [fen] string that the board
    accepted, and its [moves] holds exactly one record for each legal move
    of that position, in the board's order, the record of a move naming the
    move's two squares. *)
Theorem add_test_data_success (test test' : PyValue) :
  add_test_data E test = ok test' ->
  exists fen_s board recs,
    getitem test "fen" = ok (PyStr fen_s) /\
    set_fen E fen_s = ok board /\
    getitem test' "moves" = ok (PyList recs) /\
    List.length recs = List.length (legal_moves E board) /\
    Forall2 (fun m rec =>
               exists f t,
                 square_name (from_square m) = ok f /\
                 square_name (to_square m) = ok t /\
                 record_move_field rec "from" = ok (PyStr f) /\
                 record_move_field rec "to" = ok (PyStr t))
            (legal_moves E board) recs.
Proof.
  intros H. apply add_test_data_ok in H.
  destruct H as (d & fen_v & board & final & moves & -> & Hfen & Hboard & Hloop & ->).
  destruct fen_v as [| | | | fen_s | |]; try discriminate Hboard.
  apply moves_loop_each in Hloop. destruct Hloop as [recs [-> Hall]].
  exists fen_s, board, recs.
  split; [cbn [getitem]; rewrite Hfen; reflexivity |].
  split; [exact Hboard |].
  split; [cbn [getitem]; rewrite dict_get_set_same; reflexivity |].
  split; [symmetry; eapply Forall2_length; exact Hall |].
  clear Hfen Hboard.
  induction Hall as [| m rec ms rs [b [b' Hm]] _ IH]; constructor; [| exact IH].
  apply annotate_move_ok in Hm.
  destruct Hm as (from_sq & to_sq & pc0 & board1 & uci_s & san_s & lan_s &
                  Hfrom & Hto & _ & _ & _ & _ & _ & _ & ->).
  exists from_sq, to_sq. repeat split; assumption || reflexivity.
Qed.

(** X8: how a call fails before any move is looked at: [TypeError] for a
    test case that is not an object, [KeyError] for an object without
    [fen], [AttributeError] for a [fen] that is not a string, and the
    board's own error for a string it rejects. *)
Theorem add_test_data_errors (test : PyValue) :
  ((forall d, test <> PyDict d) -> add_test_data E test = raise TypeError) /\
  (forall d, test = PyDict d -> dict_get d "fen" = None ->
             add_test_data E test = raise KeyError) /\
  (forall d v, test = PyDict d -> dict_get d "fen" = Some v ->
               (forall s, v <> PyStr s) ->
               add_test_data E test = raise AttributeError) /\
  (forall d s e, test = PyDict d -> dict_get d "fen" = Some (PyStr s) ->
                 set_fen E s = raise e -> add_test_data E test = raise e).
Proof.
  unfold add_test_data. repeat split.
  - intros Hnot. destruct test; try reflexivity. exfalso. eapply Hnot. reflexivity.
  - intros d -> Hfen. cbn [getitem]. rewrite Hfen. reflexivity.
  - intros d v -> Hfen Hv. cbn [getitem]. rewrite Hfen. cbn [bind ok].
    destruct v; try reflexivity. exfalso. eapply Hv. reflexivity.
  - intros d s e -> Hfen Hset. cbn [getitem]. rewrite Hfen. cbn [bind ok board_of_fen].
    rewrite Hset. reflexivity.
Qed.

End OneTestCase.

(** ** The whole run *)

Lemma mapM_first_error {A B} (f : A -> result B) (l1 l2 : list A) (a : A)
    (e : PyError) :
  (forall x, In x l1 -> exists y, f x = ok y) -> f a = raise e ->
  mapM f (l1 ++ a :: l2) = raise e.
Proof.
  induction l1 as [| x l1 IH]; intros Hok Ha; simpl.
  - rewrite Ha. reflexivity.
  - destruct (Hok x (or_introl eq_refl)) as [y Hy]. rewrite Hy. cbn [bind ok].
    rewrite IH; [reflexivity | | exact Ha].
    intros x' Hx'. apply Hok. right. exact Hx'.
Qed.

Lemma mapM_fixed {A} (f : A -> result A) (l l' : list A) :
  (forall a a', f a = ok a' -> f a' = ok a') ->
  mapM f l = ok l' -> mapM f l' = ok l'.
Proof.
  intros Hf. revert l'. induction l as [| a l IH]; intros l' H; simpl in H.
  - inversion H. reflexivity.
  - apply bind_ok in H. destruct H as [b [Hb H]].
    apply bind_ok in H. destruct H as [bs [Hbs H]]. inversion H.
    simpl. rewrite (Hf _ _ Hb). cbn [bind ok]. rewrite (IH _ Hbs). reflexivity.
Qed.

Section WholeRun.

Variable E : RulesEngine.
Variable json_loads : string -> result PyValue.
Variable json_dumps : bool -> PyValue -> string.
Variable sys : System.

Lemma process_tests_again (tests tests' : PyValue) :
  process_tests E tests = ok tests' -> process_tests E tests' = ok tests'.
Proof.
  destruct tests as [| | | | s | l | d]; simpl; intros H; try discriminate H.
  - apply bind_ok in H. destruct H as [x [Hx H]]. inversion H. subst tests'.
    simpl. rewrite Hx. reflexivity.
  - apply bind_ok in H. destruct H as [l' [Hl H]]. inversion H.
    simpl. rewrite (mapM_fixed _ _ _ (add_test_data_again E) Hl). reflexivity.
  - apply bind_ok in H. destruct H as [x [Hx H]]. inversion H. subst tests'.
    simpl. rewrite Hx. reflexivity.
Qed.

(** X10: the error a run reports is the error of the first test case that
    fails: when the test cases before it can be processed, the run ends
    with that error and writes nothing. *)
Theorem first_failing_test_is_reported (w : World) (args : Args) (text : string)
    (l1 l2 : list PyValue) (t : PyValue) (e : PyError) :
  w (input args) = Some text ->
  json_loads text = ok (PyList (l1 ++ t :: l2)) ->
  (forall x, In x l1 -> exists y, add_test_data E x = ok y) ->
  add_test_data E t = raise e ->
  main E json_loads json_dumps sys w args = (w, raise e).
Proof.
  intros Hw Hl Hok Ht. unfold main, read_tests_definitions. rewrite Hw, Hl.
  simpl. rewrite (mapM_first_error _ _ _ _ _ Hok Ht). reflexivity.
Qed.

(** X11: output errors.  For a run that gets to the writer: when the
    output file cannot be opened, the system's error is the error of the
    run and no file is changed; when the writer is stopped after the file
    was opened, its error is the error of the run and the output file is
    left with the part of the text that was written, whatever it held
    before; otherwise the run ends well and the output file holds the whole
    text. *)
Theorem output_errors_are_reported (w : World) (args : Args) (text : string)
    (tests tests' : PyValue) :
  w (input args) = Some text ->
  json_loads text = ok tests ->
  process_tests E tests = ok tests' ->
  let out := json_dumps (minify args) tests' in
  let run := main E json_loads json_dumps sys w args in
  match open_error sys w (output args), dump_error sys w (output args) out with
  | Some e, _ => run = (w, raise e)
  | None, Some (e, n) =>
      snd run = raise e /\ fst run (output args) = Some (substring 0 n out)
  | None, None => snd run = ok tt /\ fst run (output args) = Some out
  end.
Proof.
  intros Hw Ht Hp. cbv zeta. unfold main, read_tests_definitions. rewrite Hw, Ht.
  cbv beta iota delta [ok]. rewrite Hp. cbv beta iota delta [ok].
  unfold write_tests_data. cbv zeta.
  destruct (open_error sys w (output args)) as [e |]; [reflexivity |].
  destruct (dump_error sys w (output args) (json_dumps (minify args) tests'))
    as [[e n] |]; cbn [fst snd]; rewrite String.eqb_refl; split; reflexivity.
Qed.

(** X12: without an input file the run ends with [FileNotFoundError] and
    writes nothing. *)
Theorem missing_input_file (w : World) (args : Args) :
  w (input args) = None ->
  main E json_loads json_dumps sys w args = (w, raise FileNotFoundError).
Proof.
  intros Hw. unfold main, read_tests_definitions. rewrite Hw. reflexivity.
Qed.

(** X13: what the run does with JSON that is not an array: [null], a
    boolean or a number ends it with [TypeError]; so does an object with a
    key or a string with a character, because the loop then works on the
    keys or the characters; the empty object and the empty string get to
    the writer as they are, and the run ends as the write ends. *)
Theorem main_on_non_array (w : World) (args : Args) (text : string)
    (tests : PyValue) :
  w (input args) = Some text ->
  json_loads text = ok tests ->
  match tests with
  | PyList _ => True
  | PyDict [] | PyStr EmptyString =>
      main E json_loads json_dumps sys w args
        = write_tests_data json_dumps sys w (output args) (minify args) tests
  | _ => main E json_loads json_dumps sys w args = (w, raise TypeError)
  end.
Proof.
  intros Hw Ht. unfold main, read_tests_definitions. rewrite Hw, Ht.
  destruct tests as [| | | | s | l | d]; try reflexivity; try exact I.
  - destruct s; reflexivity.
  - destruct d as [| [k v] d]; reflexivity.
Qed.

(** X14: fixtures regenerate to themselves: when the reader gives back the
    value the writer wrote, and a second run reads the output of the first,
    then, if both runs end well, the second has written the text that the
    first wrote. *)
Theorem main_regenerates (sys2 : System) (w : World) (args : Args)
    (text out2 : string) (tests tests' : PyValue) :
  w (input args) = Some text ->
  json_loads text = ok tests ->
  process_tests E tests = ok tests' ->
  json_loads (json_dumps (minify args) tests') = ok tests' ->
  let run1 := main E json_loads json_dumps sys w args in
  let run2 := main E json_loads json_dumps sys2 (fst run1)
                   (mkArgs (output args) out2 (minify args)) in
  snd run1 = ok tt -> snd run2 = ok tt ->
  fst run1 (output args) = Some (json_dumps (minify args) tests') /\
  fst run2 out2 = Some (json_dumps (minify args) tests').
Proof.
  intros Hw Ht Hp Hround. cbv zeta.
  assert (H1 : main E json_loads json_dumps sys w args
               = write_tests_data json_dumps sys w (output args) (minify args) tests').
  { unfold main, read_tests_definitions. rewrite Hw, Ht.
    cbv beta iota delta [ok]. rewrite Hp. reflexivity. }
  rewrite H1. intros Hok1.
  destruct (write_tests_data_outcome json_dumps sys w (output args) (minify args) tests')
    as [[_ Hf1] | [e [He _]]]; [| rewrite Hok1 in He; discriminate He].
  set (w1 := fst (write_tests_data json_dumps sys w (output args) (minify args) tests'))
    in *.
  assert (H2 : main E json_loads json_dumps sys2 w1
                    (mkArgs (output args) out2 (minify args))
               = write_tests_data json_dumps sys2 w1 out2 (minify args) tests').
  { unfold main, read_tests_definitions. cbn [input output minify].
    rewrite Hf1, Hround. cbv beta iota delta [ok].
    rewrite (process_tests_again _ _ Hp). reflexivity. }
  rewrite H2. intros Hok2.
  destruct (write_tests_data_outcome json_dumps sys2 w1 out2 (minify args) tests')
    as [[_ Hf2] | [e [He _]]]; [| rewrite Hok2 in He; discriminate He].
  split; [exact Hf1 | exact Hf2].
Qed.

End WholeRun.

(** ** The records on the package's board: colours and targets *)

Section PyChessTargets.

Import PyChess.
Local Open Scope Z_scope.

Lemma occupied_co_other (b : Board) (c : Color) (s : Square) :
  occupied_co b (negb c) s = true -> occupied_co b c s = false.
Proof.
  unfold occupied_co. destruct (BB_ALL s); [| reflexivity]. simpl.
  destruct (piece_at b s) as [p |]; [| reflexivity].
  destruct (color p), c; simpl; congruence.
Qed.

Lemma not_occupied_co (b : Board) (c : Color) (s : Square) :
  occupied b s = false -> occupied_co b c s = false.
Proof.
  unfold occupied, occupied_co. destruct (BB_ALL s); [| reflexivity]. simpl.
  destruct (piece_at b s); [discriminate | reflexivity].
Qed.

Lemma BB_RANKS_true (r : Z) (s : Square) :
  BB_RANKS r s = true -> square_rank s = r.
Proof.
  unfold BB_RANKS. intros H. apply andb_true_iff in H. destruct H as [_ H].
  apply Z.eqb_eq, H.
Qed.

Lemma square_of_file_rank (a c : Square) :
  square_file a = square_file c -> square_rank a = square_rank c -> a = c.
Proof.
  unfold square_file, square_rank. change 7 with (Z.ones 3).
  rewrite !Z.land_ones, !Z.shiftr_div_pow2 by lia. change (2 ^ 3) with 8.
  intros Hf Hr.
  rewrite (Z.div_mod a 8), (Z.div_mod c 8) by lia. rewrite Hf, Hr. reflexivity.
Qed.

(** Castling rights of the side to move, on a board without saved states,
    sit on that side's rooks. *)
Lemma clean_rights_own_rook (b : Board) (s : Square) :
  _stack b = [] -> clean_castling_rights b s = true ->
  BB_RANKS (if b_turn b then 0 else 7) s = true ->
  bb_and (rooks b) (occupied_co b (b_turn b)) s = true.
Proof.
  intros Hstack Hclean Hrank. apply BB_RANKS_true in Hrank.
  unfold clean_castling_rights in Hclean. rewrite Hstack in Hclean. cbv zeta in Hclean.
  apply bb_value_true in Hclean. unfold bb_or in Hclean.
  apply orb_true_iff in Hclean. destruct Hclean as [H | H];
    match type of H with (if ?c then _ else _) _ = true => destruct c end;
    try discriminate H;
    apply bb_and_true in H; destruct H as [H _];
    apply bb_and_true in H; destruct H as [H Hco];
    apply bb_and_true in H; destruct H as [H Hr];
    apply bb_and_true in H; destruct H as [_ Hrook];
    apply BB_RANKS_true in Hr; rewrite Hr in Hrank;
    destruct (b_turn b); try discriminate Hrank;
    apply bb_and_true; split; assumption.
Qed.

Lemma castling_target (b : Board) (fm tm : SquareSet) (m : Move) :
  _stack b = [] ->
  In m (generate_castling_moves b fm tm) -> generated_target b m.
Proof.
  intros Hstack. unfold generate_castling_moves.
  destruct (scan_forward _) as [| king_sq rest] eqn:Hscan; [intros [] |].
  assert (Hking : In king_sq (scan_forward
            (bb_and (bb_and (bb_and (bb_and (occupied_co b (b_turn b)) (kings b))
               (bb_not (promoted (state b)))) (BB_RANKS (if b_turn b then 0 else 7))) fm)))
    by (rewrite Hscan; left; reflexivity).
  apply scan_forward_In in Hking. destruct Hking as [Hmask Hrange].
  apply bb_and_true in Hmask; destruct Hmask as [Hmask _].
  apply bb_and_true in Hmask; destruct Hmask as [Hmask Hkrank].
  apply bb_and_true in Hmask; destruct Hmask as [Hmask _].
  apply bb_and_true in Hmask. destruct Hmask as [Hown Hkings].
  intros Hin. apply in_flat_map in Hin. destruct Hin as [cand [Hcand Hin]].
  apply scan_reversed_In in Hcand. destruct Hcand as [Hclean Hcand].
  apply bb_and_true in Hclean; destruct Hclean as [Hclean _].
  apply bb_and_true in Hclean; destruct Hclean as [Hclean Hcrank].
  match type of Hin with In _ (if ?c then _ else _) => destruct c end;
    [destruct Hin |].
  destruct Hin as [<- | []].
  pose proof (from_chess960_from b king_sq cand None) as Hf.
  unfold generated_target. rewrite Hf. split; [exact Hown |]. right.
  unfold is_kingside_castling, is_queenside_castling, is_castling. rewrite Hf.
  destruct (from_chess960_cases b king_sq cand) as [Hc | [Hc | [Hc | [Hc | Hc]]]];
    rewrite Hc in Hf |- *; cbn [from_square to_square] in Hf |- *.
  - rewrite Hkings.
    pose proof (clean_rights_own_rook b cand Hstack Hclean Hcrank) as Hrook.
    rewrite Hrook, orb_true_r. simpl.
    destruct (Z.ltb_spec (square_file king_sq) (square_file cand)) as [Hlt | Hge];
      [left; reflexivity | right].
    destruct (Z.ltb_spec (square_file cand) (square_file king_sq)) as [Hlt | Hle];
      [reflexivity | exfalso].
    assert (Heq : king_sq = cand).
    { apply square_of_file_rank; [lia |].
      apply BB_RANKS_true in Hkrank, Hcrank. congruence. }
    apply bb_and_true in Hrook. destruct Hrook as [Hrook _].
    apply type_mask_true in Hkings. destruct Hkings as [_ [p1 [Hp1 Ht1]]].
    apply type_mask_true in Hrook. destruct Hrook as [_ [p2 [Hp2 Ht2]]].
    rewrite Heq, Hp2 in Hp1. inversion Hp1. subst p2. congruence.
  - subst king_sq. rewrite Hkings. left. reflexivity.
  - subst king_sq. rewrite Hkings. right. reflexivity.
  - subst king_sq. rewrite Hkings. left. reflexivity.
  - subst king_sq. rewrite Hkings. right. reflexivity.
Qed.

Lemma target_intro (b : Board) (m : Move) :
  occupied_co b (b_turn b) (from_square m) = true ->
  occupied_co b (b_turn b) (to_square m) = false ->
  generated_target b m.
Proof. intros Hf Ht. split; [exact Hf | left; exact Ht]. Qed.

Lemma ep_target (b : Board) (fm tm : SquareSet) (m : Move) :
  In m (generate_pseudo_legal_ep b fm tm) -> generated_target b m.
Proof.
  unfold generate_pseudo_legal_ep.
  destruct (ep_square (state b)) as [ep |]; [| intros []].
  destruct (negb (ep_truthy (Some ep)) || negb (tm ep)); [intros [] |].
  destruct (occupied b ep) eqn:Hocc; [intros [] |].
  intros Hin. apply in_map_iff in Hin. destruct Hin as [capturer [<- Hin]].
  apply scan_reversed_In in Hin. destruct Hin as [Hmask _].
  do 3 (apply bb_and_true in Hmask; destruct Hmask as [Hmask _]).
  apply bb_and_true in Hmask. destruct Hmask as [_ Hown].
  apply target_intro; simpl; [exact Hown | apply not_occupied_co, Hocc].
Qed.

Lemma pseudo_legal_target (b : Board) (fm tm : SquareSet) (m : Move) :
  _stack b = [] ->
  In m (generate_pseudo_legal_moves b fm tm) -> generated_target b m.
Proof.
  intros Hstack. unfold generate_pseudo_legal_moves. cbv zeta.
  assert (Hpieces : forall l,
    In m (flat_map
            (fun from => map (fun to => mkMove from to None)
               (scan_reversed
                  (bb_and (bb_and (attacks_mask b from)
                                  (bb_not (occupied_co b (b_turn b)))) tm)))
            (scan_reversed
               (bb_and (bb_and (occupied_co b (b_turn b)) (bb_not (pawns b))) fm))
          ++ (if bb_bool (bb_and fm (kings b))
              then generate_castling_moves b fm tm else []) ++ l) ->
    generated_target b m \/ In m l).
  { intros l Hin. apply in_app_or in Hin. destruct Hin as [Hin | Hin].
    - left. apply in_flat_map in Hin. destruct Hin as [from [Hfrom Hin]].
      apply in_map_iff in Hin. destruct Hin as [to [<- Hto]].
      apply scan_reversed_In in Hfrom. destruct Hfrom as [Hfrom _].
      apply scan_reversed_In in Hto. destruct Hto as [Hto _].
      do 2 (apply bb_and_true in Hfrom; destruct Hfrom as [Hfrom _]).
      apply bb_and_true in Hto; destruct Hto as [Hto _].
      apply bb_and_true in Hto; destruct Hto as [_ Hnot].
      apply target_intro; simpl; [exact Hfrom |].
      unfold bb_not in Hnot. apply negb_true_iff in Hnot. exact Hnot.
    - apply in_app_or in Hin. destruct Hin as [Hin | Hin]; [left | right; exact Hin].
      destruct (bb_bool (bb_and fm (kings b))); [| destruct Hin].
      eapply castling_target; eassumption. }
  destruct (negb (bb_bool _)).
  - intros Hin. rewrite <- (app_nil_r (_ ++ _)), <- app_assoc in Hin.
    apply Hpieces in Hin. destruct Hin as [Hin | []]. exact Hin.
  - intros Hin. apply Hpieces in Hin. destruct Hin as [Hin | Hin]; [exact Hin |].
    apply in_app_or in Hin. destruct Hin as [Hin | Hin].
    { apply in_flat_map in Hin. destruct Hin as [from [Hfrom Hin]].
      apply in_flat_map in Hin. destruct Hin as [to [Hto Hin]].
      apply pawn_moves_In in Hin. destruct Hin as [Hf Ht].
      apply scan_reversed_In in Hfrom. destruct Hfrom as [Hfrom _].
      apply scan_reversed_In in Hto. destruct Hto as [Hopp _].
      apply bb_and_true in Hfrom; destruct Hfrom as [Hfrom _].
      apply bb_and_true in Hfrom; destruct Hfrom as [_ Hown].
      apply bb_and_true in Hopp; destruct Hopp as [Hopp _].
      apply bb_and_true in Hopp; destruct Hopp as [_ Hopp].
      apply target_intro; [rewrite Hf; exact Hown |].
      rewrite Ht. apply occupied_co_other, Hopp. }
    apply in_app_or in Hin. destruct Hin as [Hin | Hin].
    { apply in_flat_map in Hin. destruct Hin as [to [Hto Hin]].
      apply pawn_moves_In in Hin. destruct Hin as [Hf Ht].
      apply scan_reversed_In in Hto. destruct Hto as [Hmask _].
      apply bb_and_true in Hmask. destruct Hmask as [Hmask _].
      apply andb_true_iff in Hmask. destruct Hmask as [Hmask Hfree].
      apply bb_and_true in Hmask; destruct Hmask as [Hmask _].
      apply bb_and_true in Hmask; destruct Hmask as [_ Hown].
      apply negb_true_iff in Hfree.
      apply target_intro; [rewrite Hf; exact Hown |].
      rewrite Ht. apply not_occupied_co, Hfree. }
    apply in_app_or in Hin. destruct Hin as [Hin | Hin].
    { apply in_map_iff in Hin. destruct Hin as [to [<- Hto]].
      apply scan_reversed_In in Hto. destruct Hto as [Hmask _].
      apply bb_and_true in Hmask. destruct Hmask as [Hmask _].
      apply andb_true_iff in Hmask. destruct Hmask as [Hmask _].
      apply andb_true_iff in Hmask. destruct Hmask as [Hmask Hfree].
      apply andb_true_iff in Hmask. destruct Hmask as [Hmask _].
      apply bb_and_true in Hmask; destruct Hmask as [Hmask _].
      apply bb_and_true in Hmask; destruct Hmask as [_ Hown].
      apply negb_true_iff in Hfree.
      apply target_intro; cbn [from_square to_square];
        [| apply not_occupied_co, Hfree].
      replace (to - 2 * (if b_turn b then 8 else -8))
        with (to - (if b_turn b then 8 else -8) - (if b_turn b then 8 else -8))
        by (destruct (b_turn b); lia).
      exact Hown. }
    destruct (ep_truthy (ep_square (state b))); [| destruct Hin].
    eapply ep_target; eassumption.
Qed.

Lemma evasions_target (b : Board) (king_sq : Square) (checkers fm tm : SquareSet)
    (m : Move) :
  _stack b = [] ->
  occupied_co b (b_turn b) king_sq = true ->
  In m (_generate_evasions b king_sq checkers fm tm) -> generated_target b m.
Proof.
  intros Hstack Hown. unfold _generate_evasions. cbv zeta.
  assert (Hking : forall tos,
    In m ((if fm king_sq then map (fun to => mkMove king_sq to None)
             (scan_reversed
                (bb_and (bb_and (bb_and (BB_KING_ATTACKS king_sq)
                                        (bb_not (occupied_co b (b_turn b)))) tos) tm))
           else [])) -> generated_target b m).
  { intros tos Hin. destruct (fm king_sq); [| destruct Hin].
    apply in_map_iff in Hin. destruct Hin as [to [<- Hto]].
    apply scan_reversed_In in Hto. destruct Hto as [Hmask _].
    do 2 (apply bb_and_true in Hmask; destruct Hmask as [Hmask _]).
    apply bb_and_true in Hmask; destruct Hmask as [_ Hnot].
    apply target_intro; simpl; [exact Hown |].
    unfold bb_not in Hnot. apply negb_true_iff in Hnot. exact Hnot. }
  destruct (scan_reversed checkers) as [| checker [| c2 rest]].
  - apply Hking.
  - intros Hin. apply in_app_or in Hin. destruct Hin as [Hin | Hin];
      [eapply Hking; exact Hin |].
    apply in_app_or in Hin. destruct Hin as [Hin | Hin].
    + eapply pseudo_legal_target; eassumption.
    + destruct (ep_square (state b)) as [ep |]; [| destruct Hin].
      destruct (ep_truthy (Some ep) && negb _); [| destruct Hin].
      destruct (_ =? checker); [| destruct Hin].
      eapply ep_target; eassumption.
  - apply Hking.
Qed.

Lemma legal_moves_target (b : Board) (m : Move) :
  _stack b = [] -> In m (legal_moves b) -> generated_target b m.
Proof.
  intros Hstack. unfold legal_moves, generate_legal_moves.
  destruct (scan_reversed (bb_and (kings b) (occupied_co b (b_turn b))))
    as [| king_sq rest] eqn:Hscan.
  - apply pseudo_legal_target, Hstack.
  - assert (Hk : In king_sq (scan_reversed (bb_and (kings b) (occupied_co b (b_turn b)))))
      by (rewrite Hscan; left; reflexivity).
    apply scan_reversed_In in Hk. destruct Hk as [Hmask _].
    apply bb_and_true in Hmask. destruct Hmask as [_ Hmask].
    cbv zeta. destruct (bb_bool _); intros Hin; apply filter_In in Hin;
      destruct Hin as [Hin _].
    + eapply evasions_target; eassumption.
    + eapply pseudo_legal_target; eassumption.
Qed.

End PyChessTargets.

Section PyChessConsistency.

Local Open Scope Z_scope.

Lemma type_castle (E : RulesEngine) (board : Board E) (move : Move) :
  (get_move_type E board move = "KingSideCastle" ->
   is_kingside_castling E board move = true) /\
  (get_move_type E board move = "QueenSideCastle" ->
   is_queenside_castling E board move = true).
Proof.
  unfold get_move_type.
  destruct (is_kingside_castling E board move); [split; [reflexivity | discriminate] |].
  destruct (is_queenside_castling E board move); [split; [discriminate | reflexivity] |].
  destruct (is_en_passant E board move); [split; discriminate |].
  destruct (promotion move); destruct (is_capture E board move); split; discriminate.
Qed.

Lemma type_not_castle (E : RulesEngine) (board : Board E) (move : Move) :
  In (get_move_type E board move) ["PromotionCapture"; "Promotion"; "Capture"; "Basic"] ->
  is_kingside_castling E board move = false /\
  is_queenside_castling E board move = false /\
  is_en_passant E board move = false /\
  (is_capture E board move = true <->
   In (get_move_type E board move) ["PromotionCapture"; "Capture"]).
Proof.
  unfold get_move_type.
  destruct (is_kingside_castling E board move);
    [simpl; intros H; exfalso; intuition discriminate |].
  destruct (is_queenside_castling E board move);
    [simpl; intros H; exfalso; intuition discriminate |].
  destruct (is_en_passant E board move);
    [simpl; intros H; exfalso; intuition discriminate |].
  intros _. repeat split; try reflexivity;
    destruct (promotion move); destruct (is_capture E board move); simpl;
    intros H; try tauto; try discriminate H; intuition discriminate.
Qed.

(** The notation of a castling move before the check suffix. *)
Lemma castle_without_suffix (b : PyChess.Board) (m : Move) (long : bool) :
  PyChess.is_castling b m = true ->
  PyChess.square_file (from_square m) <> PyChess.square_file (to_square m) ->
  PyChess._algebraic_without_suffix b m long
    = ok (if PyChess.square_file (to_square m) <? PyChess.square_file (from_square m)
          then "O-O-O" else "O-O").
Proof.
  intros Hc Hfiles. unfold PyChess._algebraic_without_suffix.
  rewrite distinct_truthy by congruence. simpl negb. cbv iota.
  rewrite Hc. destruct (_ <? _); reflexivity.
Qed.

Lemma algebraic_suffix (b : PyChess.Board) (m : Move) (long : bool) (s s0 : string) :
  PyChess._algebraic b m long = ok s ->
  PyChess._algebraic_without_suffix b m long = ok s0 ->
  exists after,
    PyChess.push b m = ok after /\
    s = (if PyChess.is_check after && PyChess.is_checkmate after
            && PyChess.move_truthy m then s0 ++ "#"
         else if PyChess.is_check after && PyChess.move_truthy m then s0 ++ "+"
         else s0).
Proof.
  unfold PyChess._algebraic. intros H Hs0. rewrite Hs0 in H. cbn [bind ok] in H.
  apply bind_ok in H. destruct H as [after [Hpush H]].
  apply bind_ok in H. destruct H as [popped [_ H]].
  exists after. split; [exact Hpush |].
  unfold ok in H. injection H as Hs. symmetry. exact Hs.
Qed.

(** X15: a record of type [KingSideCastle] has [O-O] as its [san] and its
    [lan], a record of type [QueenSideCastle] has [O-O-O], in both cases
    followed by nothing, by [+] or by [#], the same in the two
    notations. *)
Theorem castle_records_render_as_castles (b b2 : PyChess.Board) (m : Move)
    (rec : PyValue) :
  annotate_move PyChess.engine b m = ok (b2, rec) ->
  forall castle,
    (record_move_field rec "type" = ok (PyStr "KingSideCastle") /\ castle = "O-O") \/
    (record_move_field rec "type" = ok (PyStr "QueenSideCastle") /\ castle = "O-O-O") ->
    exists suffix,
      In suffix [""; "+"; "#"] /\
      getitem rec "san" = ok (PyStr (castle ++ suffix)) /\
      getitem rec "lan" = ok (PyStr (castle ++ suffix)).
Proof.
  intros H castle Hcase.
  pose proof (record_type PyChess.engine _ _ _ _ H) as [Htype _].
  apply annotate_move_ok in H.
  destruct H as (from_sq & to_sq & pc0 & board1 & uci_s & san_s & lan_s &
                 _ & _ & _ & Hpush & Hpop & _ & Hsan & Hlan & ->).
  cbn [push pop san lan PyChess.engine] in Hpush, Hpop, Hsan, Hlan.
  rewrite (pop_push b board1 m Hpush) in Hpop. unfold ok in Hpop.
  injection Hpop as Hb2. subst b2.
  rewrite Htype in Hcase.
  assert (Hc : PyChess.is_castling b m = true /\
               PyChess.square_file (from_square m) <> PyChess.square_file (to_square m) /\
               castle = if PyChess.square_file (to_square m)
                           <? PyChess.square_file (from_square m)
                        then "O-O-O" else "O-O").
  { destruct (type_castle PyChess.engine b m) as [Hks Hqs].
    cbn [is_kingside_castling is_queenside_castling PyChess.engine] in Hks, Hqs.
    destruct Hcase as [[Ht ->] | [Ht ->]]; unfold ok in Ht; injection Ht as Hname.
    - apply Hks in Hname. unfold PyChess.is_kingside_castling in Hname.
      apply andb_true_iff in Hname. destruct Hname as [Hc Hlt].
      apply Z.ltb_lt in Hlt. split; [exact Hc |]. split; [lia |].
      destruct (Z.ltb_spec (PyChess.square_file (to_square m))
                           (PyChess.square_file (from_square m))); [lia | reflexivity].
    - apply Hqs in Hname. unfold PyChess.is_queenside_castling in Hname.
      apply andb_true_iff in Hname. destruct Hname as [Hc Hlt].
      split; [exact Hc |]. apply Z.ltb_lt in Hlt. split; [lia |].
      destruct (Z.ltb_spec (PyChess.square_file (to_square m))
                           (PyChess.square_file (from_square m))); [reflexivity | lia]. }
  destruct Hc as [Hc [Hfiles Hcastle]].
  pose proof (castle_without_suffix b m false Hc Hfiles) as Hs0.
  pose proof (castle_without_suffix b m true Hc Hfiles) as Hl0.
  rewrite <- Hcastle in Hs0, Hl0.
  destruct (algebraic_suffix b m false san_s castle Hsan Hs0) as [a1 [Hp1 ->]].
  destruct (algebraic_suffix b m true lan_s castle Hlan Hl0) as [a2 [Hp2 ->]].
  rewrite Hp1 in Hp2. unfold ok in Hp2. injection Hp2 as Ha2. subst a2.
  cbn [getitem dict_get]. simpl String.eqb. cbv iota.
  destruct (PyChess.is_check a1 && PyChess.is_checkmate a1 && PyChess.move_truthy m);
    [exists "#"; simpl; tauto |].
  destruct (PyChess.is_check a1 && PyChess.move_truthy m);
    [exists "+"; simpl; tauto |].
  exists "". rewrite append_empty_r. simpl. tauto.
Qed.

(** X16: for a legal move of a position read from a FEN, the piece letter
    of the record is the letter of a piece of the side to move: upper case
    when white moves, lower case when black moves. *)
Theorem piece_letter_of_side_to_move (fen_s : string) (b : PyChess.Board) (m : Move) :
  PyChess.set_fen fen_s = ok b ->
  In m (PyChess.legal_moves b) ->
  exists rec pt,
    annotate_move PyChess.engine b m = ok (b, rec) /\
    record_move_field rec "piece"
      = ok (PyStr (symbol (mkPiece pt (PyChess.b_turn b)))).
Proof.
  intros Hset Hin. apply set_fen_stack in Hset. destruct Hset as [Hstack _].
  destruct (pychess_iteration b m Hin) as [rec Hrec].
  apply (legal_moves_target b m Hstack) in Hin. destruct Hin as [Hown _].
  apply occupied_co_true in Hown. destruct Hown as [_ [p [Hp Hcolor]]].
  pose proof Hrec as Hfields. apply annotate_move_ok in Hfields.
  destruct Hfields as (from_sq & to_sq & pc & board1 & uci_s & san_s & lan_s &
                       _ & _ & Hpc & _ & _ & _ & _ & _ & ->).
  cbn [piece_at PyChess.engine] in Hpc. rewrite Hp in Hpc.
  injection Hpc as Hpc. subst pc.
  eexists _, (piece_type p). split; [exact Hrec |].
  rewrite <- Hcolor. destruct p. reflexivity.
Qed.

(** X17: for a legal move of a position read from a FEN, the capture field
    agrees with the type: a record of type [Capture] or [PromotionCapture]
    carries the letter of a piece of the side that does not move, a record
    of type [Basic] or [Promotion] carries null. *)
Theorem capture_field_agrees_with_type (fen_s : string) (b : PyChess.Board)
    (m : Move) :
  PyChess.set_fen fen_s = ok b ->
  In m (PyChess.legal_moves b) ->
  exists rec,
    annotate_move PyChess.engine b m = ok (b, rec) /\
    (record_move_field rec "type" = ok (PyStr "Capture") \/
     record_move_field rec "type" = ok (PyStr "PromotionCapture") ->
     exists pt, record_move_field rec "capture"
                  = ok (PyStr (symbol (mkPiece pt (negb (PyChess.b_turn b)))))) /\
    (record_move_field rec "type" = ok (PyStr "Basic") \/
     record_move_field rec "type" = ok (PyStr "Promotion") ->
     record_move_field rec "capture" = ok PyNone).
Proof.
  intros Hset Hin. apply set_fen_stack in Hset. destruct Hset as [Hstack _].
  destruct (pychess_iteration b m Hin) as [rec Hrec].
  exists rec. split; [exact Hrec |].
  pose proof (legal_moves_shape b m Hin) as (_ & Hto & _).
  apply (legal_moves_target b m Hstack) in Hin. destruct Hin as [Hown Htarget].
  pose proof (record_type PyChess.engine _ _ _ _ Hrec) as [Htype [Hcap _]].
  rewrite Htype, Hcap. unfold capture_field.
  cbn [piece_at is_en_passant turn PyChess.engine].
  assert (Hquiet : In (get_move_type PyChess.engine b m)
                      ["PromotionCapture"; "Promotion"; "Capture"; "Basic"] ->
                   PyChess.is_en_passant b m = false /\
                   PyChess.occupied_co b (PyChess.b_turn b) (to_square m) = false /\
                   (PyChess.is_capture b m = true <->
                    In (get_move_type PyChess.engine b m) ["PromotionCapture"; "Capture"])).
  { intros Hname. destruct (type_not_castle PyChess.engine b m Hname)
      as (Hks & Hqs & Hep & Hcapt).
    cbn [is_kingside_castling is_queenside_castling is_en_passant is_capture
         PyChess.engine] in Hks, Hqs, Hep, Hcapt.
    split; [exact Hep |]. split; [| exact Hcapt].
    destruct Htarget as [Ht | [Ht | Ht]]; [exact Ht | congruence | congruence]. }
  assert (Hne : from_square m <> to_square m).
  { intros Heq. destruct Htarget as [Ht | [Ht | Ht]].
    - rewrite Heq in Hown. congruence.
    - unfold PyChess.is_kingside_castling in Ht. rewrite Heq in Ht.
      rewrite Z.ltb_irrefl, andb_false_r in Ht. discriminate Ht.
    - unfold PyChess.is_queenside_castling in Ht. rewrite Heq in Ht.
      rewrite Z.ltb_irrefl, andb_false_r in Ht. discriminate Ht. }
  split.
  - intros Hname.
    destruct Hquiet as (Hep & Hnotown & Hcapt).
    { simpl. destruct Hname as [Hx | Hx]; unfold ok in Hx; injection Hx as Hy;
        rewrite Hy; tauto. }
    rewrite Hep.
    assert (Hc : PyChess.is_capture b m = true).
    { apply Hcapt. simpl. destruct Hname as [Hx | Hx]; unfold ok in Hx;
        injection Hx as Hy; rewrite Hy; tauto. }
    unfold PyChess.is_capture in Hc. rewrite Hep, orb_false_r in Hc.
    unfold PyChess.bb_bool in Hc. apply existsb_exists in Hc.
    destruct Hc as [s [_ Hs]]. apply bb_and_true in Hs. destruct Hs as [Htouched Hopp].
    unfold PyChess.bb_xor, PyChess.BB_SQUARES in Htouched.
    assert (Hs : s = to_square m).
    { destruct (Z.eqb_spec s (from_square m)) as [Hsf | Hsf].
      - rewrite Hsf in Hopp. apply occupied_co_other in Hopp. congruence.
      - destruct (Z.eqb_spec s (to_square m)); [assumption | discriminate Htouched]. }
    subst s. apply occupied_co_true in Hopp. destruct Hopp as [_ [p [Hp Hcolor]]].
    rewrite Hp. exists (piece_type p). rewrite <- Hcolor. destruct p. reflexivity.
  - intros Hname.
    destruct Hquiet as (Hep & Hnotown & Hcapt).
    { simpl. destruct Hname as [Hx | Hx]; unfold ok in Hx; injection Hx as Hy;
        rewrite Hy; tauto. }
    rewrite Hep.
    assert (Hc : PyChess.is_capture b m = false).
    { destruct (PyChess.is_capture b m); [| reflexivity].
      destruct Hcapt as [Hcapt _]. specialize (Hcapt eq_refl). simpl in Hcapt.
      destruct Hname as [Hx | Hx]; unfold ok in Hx; injection Hx as Hy;
        rewrite Hy in Hcapt; intuition discriminate. }
    unfold PyChess.is_capture in Hc. apply orb_false_iff in Hc. destruct Hc as [Hc _].
    assert (Hopp : PyChess.occupied_co b (negb (PyChess.b_turn b)) (to_square m) = false).
    { destruct (PyChess.occupied_co b (negb (PyChess.b_turn b)) (to_square m)) eqn:Ho;
        [| reflexivity].
      assert (Hex : PyChess.bb_bool
                      (PyChess.bb_and
                         (PyChess.bb_xor (PyChess.BB_SQUARES (from_square m))
                                         (PyChess.BB_SQUARES (to_square m)))
                         (PyChess.occupied_co b (negb (PyChess.b_turn b)))) = true).
      { unfold PyChess.bb_bool. apply existsb_exists. exists (to_square m). split.
        - apply BB_ALL_range in Hto. unfold PyChess.SQUARES.
          assert (Hall : forall z, 0 <= z < 64 ->
                    In z (map Z.of_nat (seq 0 64))).
          { intros z Hz. apply in_map_iff. exists (Z.to_nat z).
            split; [lia | apply in_seq; lia]. }
          apply (Hall _ Hto).
        - apply bb_and_true. split; [| exact Ho].
          unfold PyChess.bb_xor, PyChess.BB_SQUARES. rewrite Z.eqb_refl.
          destruct (Z.eqb_spec (to_square m) (from_square m)); [congruence | reflexivity]. }
      congruence. }
    unfold PyChess.occupied_co in Hnotown, Hopp. rewrite Hto in Hnotown, Hopp.
    unfold PyChess.piece_at in *.
    destruct (PyChess.pieces (PyChess.state b) (to_square m)) as [p |]; [| reflexivity].
    simpl in Hnotown, Hopp. destruct (color p), (PyChess.b_turn b); discriminate.
Qed.

End PyChessConsistency.

(** ** Names of squares and letters of pieces *)

Section NamesAndLetters.

Local Open Scope Z_scope.

Lemma squares_all (z : Z) : 0 <= z < 64 -> In z PyChess.SQUARES.
Proof.
  intros Hz. change PyChess.SQUARES with (map Z.of_nat (seq 0 64)).
  apply in_map_iff. exists (Z.to_nat z). split; [lia | apply in_seq; lia].
Qed.

(** X18: the name of a square of the board is its file letter followed by
    its rank digit, two squares of the board with the same name are the
    same square, and an index of 64 or more, or below -64, has no name:
    the call raises [IndexError]. *)
Theorem square_names (sq : Square) :
  (0 <= sq < 64 ->
   square_name sq
     = ok (nth (Z.to_nat (PyChess.square_file sq)) FILE_NAMES ""
           ++ nth (Z.to_nat (PyChess.square_rank sq)) RANK_NAMES "")%string /\
   forall sq', 0 <= sq' < 64 -> square_name sq' = square_name sq -> sq' = sq) /\
  (64 <= sq \/ sq < -64 -> square_name sq = raise IndexError).
Proof.
  split.
  - intros Hsq. split.
    + assert (H : forallb
                    (fun s => match square_name s with
                              | inr n =>
                                  String.eqb n
                                    (nth (Z.to_nat (PyChess.square_file s)) FILE_NAMES ""
                                     ++ nth (Z.to_nat (PyChess.square_rank s)) RANK_NAMES "")
                              | inl _ => false
                              end) PyChess.SQUARES = true) by (vm_compute; reflexivity).
      rewrite forallb_forall in H. specialize (H sq (squares_all sq Hsq)).
      destruct (square_name sq) as [e | n]; [discriminate H |].
      apply String.eqb_eq in H. rewrite H. reflexivity.
    + intros sq' Hsq' Hsame.
      assert (H : forallb
                    (fun a => forallb
                       (fun b => match square_name a, square_name b with
                                 | inr x, inr y => implb (String.eqb x y) (a =? b)
                                 | _, _ => false
                                 end) PyChess.SQUARES) PyChess.SQUARES = true)
        by (vm_compute; reflexivity).
      rewrite forallb_forall in H. specialize (H sq' (squares_all sq' Hsq')).
      rewrite forallb_forall in H. specialize (H sq (squares_all sq Hsq)).
      rewrite Hsame in H. destruct (square_name sq) as [e | n]; [discriminate H |].
      rewrite String.eqb_refl in H. apply Z.eqb_eq, H.
  - intros Hout. unfold square_name, py_index.
    change (Z.of_nat (List.length SQUARE_NAMES)) with 64.
    destruct Hout as [Hbig | Hsmall].
    + destruct (Z.ltb_spec sq 0); [lia |].
      destruct (Z.ltb_spec sq 64); [lia |]. rewrite andb_false_r. reflexivity.
    + destruct (Z.ltb_spec sq 0); [| lia].
      destruct (Z.leb_spec 0 (sq + 64)); [lia | reflexivity].
Qed.

(** X19: the letter of a piece is one character from which the FEN reader
    gets the piece back: its lower-case form names the piece type and it is
    upper case exactly for a white piece; two pieces with the same letter
    are the same piece. *)
Theorem piece_letter_round_trip (p : Piece) :
  (exists c, symbol p = String c EmptyString /\
             PyChess.piece_type_of_char c = Some (piece_type p) /\
             PyChess.is_upper c = color p) /\
  forall p', symbol p' = symbol p -> p' = p.
Proof.
  split.
  - destruct p as [[| | | | |] [|]]; eexists; repeat split.
  - intros p'. destruct p as [[| | | | |] [|]]; destruct p' as [[| | | | |] [|]];
      intros H; (reflexivity || discriminate H).
Qed.

End NamesAndLetters.

(** ** The further properties at concrete inputs *)

Section FurtherWitnesses.

Local Open Scope Z_scope.

Lemma board_of_set_fen_castle :
  PyChess.set_fen castle_fen = ok (board_of castle_fen).
Proof. vm_compute. reflexivity. Defined.

Lemma board_of_set_fen_promotion_capture :
  PyChess.set_fen promotion_capture_fen = ok (board_of promotion_capture_fen).
Proof. vm_compute. reflexivity. Defined.

Lemma promotion_capture_move_legal :
  In (mkMove 48 57 (Some QUEEN))
     (PyChess.legal_moves (board_of promotion_capture_fen)).
Proof. vm_compute. auto 20. Defined.

Lemma example_test_processed :
  exists test', add_test_data PyChess.engine example_test = ok test'.
Proof. eexists. vm_compute. reflexivity. Defined.

(** The capture e5xd6 en passant is of type [EnPassant] and takes a black
    pawn. *)
Lemma en_passant_record_witness :
  exists rec,
    annotate_move PyChess.engine (board_of en_passant_fen) (mkMove 36 43 None)
      = ok (board_of en_passant_fen, rec) /\
    record_move_field rec "type" = ok (PyStr "EnPassant") /\
    record_move_field rec "capture" = ok (PyStr "p").
Proof.
  assert (H : exists rec,
            annotate_move PyChess.engine (board_of en_passant_fen) (mkMove 36 43 None)
              = ok (board_of en_passant_fen, rec) /\
            record_move_field rec "type" = ok (PyStr "EnPassant"))
    by (eexists; split; vm_compute; reflexivity).
  destruct H as [rec [H Htype]]. exists rec. split; [exact H |]. split; [exact Htype |].
  exact (en_passant_record_has_pawn PyChess.engine _ _ _ _ H Htype).
Defined.

(** The promotion a7xb8=Q of a white pawn: the type is [PromotionCapture]
    and the promotion letter is there. *)
Lemma promotion_field_witness :
  exists rec,
    annotate_move PyChess.engine (board_of promotion_capture_fen)
                  (mkMove 48 57 (Some QUEEN))
      = ok (board_of promotion_capture_fen, rec) /\
    record_move_field rec "type" = ok (PyStr "PromotionCapture") /\
    exists pt, Some QUEEN = Some pt /\
      record_move_field rec "promotion" = ok (PyStr (symbol (mkPiece pt WHITE))).
Proof.
  assert (H : exists rec,
            annotate_move PyChess.engine (board_of promotion_capture_fen)
                          (mkMove 48 57 (Some QUEEN))
              = ok (board_of promotion_capture_fen, rec) /\
            record_move_field rec "type" = ok (PyStr "PromotionCapture"))
    by (eexists; split; vm_compute; reflexivity).
  destruct H as [rec [H Htype]]. exists rec. split; [exact H |]. split; [exact Htype |].
  destruct (promotion_field_agrees_with_type PyChess.engine _ _ _ _ H) as [Hp _].
  exact (Hp (or_intror Htype)).
Defined.

Lemma add_test_data_idempotent_witness :
  exists test',
    add_test_data PyChess.engine example_test = ok test' /\
    getitem test' "fen" = getitem example_test "fen" /\
    add_test_data PyChess.engine test' = ok test'.
Proof.
  destruct example_test_processed as [test' H]. exists test'. split; [exact H |].
  exact (add_test_data_idempotent PyChess.engine example_test test' H).
Defined.

Lemma add_test_data_keys_witness :
  exists test' d d',
    add_test_data PyChess.engine example_test = ok test' /\
    example_test = PyDict d /\ test' = PyDict d' /\
    map fst d' = if existsb (fun k => String.eqb k "moves") (map fst d)
                 then map fst d else (map fst d ++ ["moves"])%list.
Proof.
  destruct example_test_processed as [test' H].
  destruct (add_test_data_keys PyChess.engine example_test test' H)
    as [d [d' [Hd [Hd' Hkeys]]]].
  exists test', d, d'. repeat split; assumption.
Defined.

Lemma moves_depend_on_fen_only_witness :
  exists test1' test2',
    add_test_data PyChess.engine example_test = ok test1' /\
    add_test_data PyChess.engine (PyDict [("fen", PyStr kings_fen)]) = ok test2' /\
    getitem test2' "moves" = getitem test1' "moves".
Proof.
  destruct example_test_processed as [test1' H].
  destruct (moves_depend_on_fen_only PyChess.engine example_test test1'
              (PyDict [("fen", PyStr kings_fen)]) H eq_refl) as [test2' [H2 Hsame]].
  exists test1', test2'. repeat split; assumption.
Defined.

Lemma add_test_data_success_witness :
  exists test' fen_s board recs,
    add_test_data PyChess.engine example_test = ok test' /\
    getitem example_test "fen" = ok (PyStr fen_s) /\
    set_fen PyChess.engine fen_s = ok board /\
    getitem test' "moves" = ok (PyList recs) /\
    List.length recs = List.length (legal_moves PyChess.engine board).
Proof.
  destruct example_test_processed as [test' H].
  destruct (add_test_data_success PyChess.engine example_test test' H)
    as (fen_s & board & recs & Hfen & Hset & Hmoves & Hlen & _).
  exists test', fen_s, board, recs. repeat split; assumption.
Defined.

(** A test case without [fen] ends the call with [KeyError]. *)
Lemma add_test_data_errors_witness :
  add_test_data PyChess.engine no_fen_test = raise KeyError.
Proof.
  destruct (add_test_data_errors PyChess.engine no_fen_test) as [_ [H _]].
  exact (H _ eq_refl eq_refl).
Defined.

(** The second test case has no [fen]: the run ends with its [KeyError]. *)
Lemma first_failing_test_witness :
  main PyChess.engine demo_loads demo_dumps good_system (demo_world "[kings, no fen]")
       example_args
    = (demo_world "[kings, no fen]", raise KeyError).
Proof.
  apply (first_failing_test_is_reported PyChess.engine demo_loads demo_dumps
           good_system (demo_world "[kings, no fen]") example_args "[kings, no fen]"
           [example_test] [] no_fen_test KeyError eq_refl eq_refl).
  - intros x [<- | []]. exact example_test_processed.
  - reflexivity.
Defined.

(** Without the directory of the output path the run ends with the
    system's error and changes nothing; with a full disk it leaves three
    characters in the output file. *)
Lemma output_errors_witness :
  main PyChess.engine example_loads example_dumps no_directory_system
       example_world nodir_args
    = (example_world, raise FileNotFoundError) /\
  exists out,
    snd (main PyChess.engine example_loads example_dumps full_disk_system
              example_world example_args) = raise OSError /\
    fst (main PyChess.engine example_loads example_dumps full_disk_system
              example_world example_args) "out.json" = Some (substring 0 3 out).
Proof.
  assert (Hp : process_tests PyChess.engine (PyList [example_test])
               = ok processed_example) by (vm_compute; reflexivity).
  split.
  - exact (output_errors_are_reported PyChess.engine example_loads example_dumps
             no_directory_system example_world nodir_args "[kings]"
             (PyList [example_test]) processed_example eq_refl eq_refl Hp).
  - exists (example_dumps false processed_example).
    exact (output_errors_are_reported PyChess.engine example_loads example_dumps
             full_disk_system example_world example_args "[kings]"
             (PyList [example_test]) processed_example eq_refl eq_refl Hp).
Defined.

Lemma missing_input_file_witness :
  main PyChess.engine demo_loads demo_dumps good_system empty_world example_args
    = (empty_world, raise FileNotFoundError).
Proof.
  exact (missing_input_file PyChess.engine demo_loads demo_dumps good_system
           empty_world example_args eq_refl).
Defined.

(** The text [null] is JSON, and the loop over it is a [TypeError]; the
    empty object gets to the writer, which cannot open a file in a
    directory that is not there. *)
Lemma main_on_non_array_witness :
  main PyChess.engine demo_loads demo_dumps good_system (demo_world "null")
       example_args
    = (demo_world "null", raise TypeError) /\
  main PyChess.engine demo_loads demo_dumps no_directory_system (demo_world "{}")
       nodir_args
    = (demo_world "{}", raise FileNotFoundError).
Proof.
  split.
  - exact (main_on_non_array PyChess.engine demo_loads demo_dumps good_system
             (demo_world "null") example_args "null" PyNone eq_refl eq_refl).
  - exact (main_on_non_array PyChess.engine demo_loads demo_dumps no_directory_system
             (demo_world "{}") nodir_args "{}" (PyDict []) eq_refl eq_refl).
Defined.

Lemma main_regenerates_witness :
  let run1 := main PyChess.engine demo_loads demo_dumps good_system
                   (demo_world "[kings]") example_args in
  let run2 := main PyChess.engine demo_loads demo_dumps good_system (fst run1)
                   (mkArgs "out.json" "again.json" false) in
  snd run1 = ok tt /\ snd run2 = ok tt /\
  fst run1 "out.json" = Some (demo_dumps false processed_example) /\
  fst run2 "again.json" = Some (demo_dumps false processed_example).
Proof.
  cbv zeta.
  assert (Hok1 : snd (main PyChess.engine demo_loads demo_dumps good_system
                           (demo_world "[kings]") example_args) = ok tt)
    by (vm_compute; reflexivity).
  assert (Hok2 : snd (main PyChess.engine demo_loads demo_dumps good_system
                           (fst (main PyChess.engine demo_loads demo_dumps good_system
                                      (demo_world "[kings]") example_args))
                           (mkArgs "out.json" "again.json" false)) = ok tt)
    by (vm_compute; reflexivity).
  split; [exact Hok1 |]. split; [exact Hok2 |].
  assert (Hp : process_tests PyChess.engine (PyList [example_test])
               = ok processed_example) by (vm_compute; reflexivity).
  assert (Hround : demo_loads (demo_dumps false processed_example)
                   = ok processed_example) by (vm_compute; reflexivity).
  exact (main_regenerates PyChess.engine demo_loads demo_dumps good_system good_system
           (demo_world "[kings]") example_args "[kings]" "again.json"
           (PyList [example_test]) processed_example eq_refl eq_refl Hp Hround
           Hok1 Hok2).
Defined.

(** White castles short: the record says [KingSideCastle] and [O-O]. *)
Lemma castle_record_witness :
  exists rec suffix,
    annotate_move PyChess.engine (board_of castle_fen) (mkMove 4 6 None)
      = ok (board_of castle_fen, rec) /\
    record_move_field rec "type" = ok (PyStr "KingSideCastle") /\
    In suffix [""; "+"; "#"]%string /\
    getitem rec "san" = ok (PyStr ("O-O" ++ suffix)) /\
    getitem rec "lan" = ok (PyStr ("O-O" ++ suffix)).
Proof.
  assert (H : exists rec,
            annotate_move PyChess.engine (board_of castle_fen) (mkMove 4 6 None)
              = ok (board_of castle_fen, rec) /\
            record_move_field rec "type" = ok (PyStr "KingSideCastle"))
    by (eexists; split; vm_compute; reflexivity).
  destruct H as [rec [H Htype]].
  destruct (castle_records_render_as_castles _ _ _ _ H "O-O"%string
              (or_introl (conj Htype eq_refl))) as [suffix [Hin [Hsan Hlan]]].
  exists rec, suffix. repeat split; assumption.
Defined.

Lemma piece_letter_witness :
  exists rec pt,
    annotate_move PyChess.engine (board_of promotion_fen) (mkMove 48 56 (Some QUEEN))
      = ok (board_of promotion_fen, rec) /\
    record_move_field rec "piece"
      = ok (PyStr (symbol (mkPiece pt (PyChess.b_turn (board_of promotion_fen))))).
Proof.
  exact (piece_letter_of_side_to_move promotion_fen (board_of promotion_fen)
           (mkMove 48 56 (Some QUEEN))
           board_of_set_fen_promotion promotion_move_legal).
Defined.

Lemma capture_field_witness :
  exists rec pt,
    annotate_move PyChess.engine (board_of promotion_capture_fen)
                  (mkMove 48 57 (Some QUEEN))
      = ok (board_of promotion_capture_fen, rec) /\
    record_move_field rec "type" = ok (PyStr "PromotionCapture") /\
    record_move_field rec "capture"
      = ok (PyStr (symbol (mkPiece pt
                             (negb (PyChess.b_turn (board_of promotion_capture_fen)))))).
Proof.
  destruct (capture_field_agrees_with_type promotion_capture_fen
              (board_of promotion_capture_fen) (mkMove 48 57 (Some QUEEN))
              board_of_set_fen_promotion_capture promotion_capture_move_legal)
    as [rec [H [Hcap _]]].
  assert (Htype : record_move_field rec "type" = ok (PyStr "PromotionCapture")).
  { destruct (record_type PyChess.engine _ _ _ _ H) as [Ht _]. rewrite Ht.
    vm_compute. reflexivity. }
  destruct (Hcap (or_intror Htype)) as [pt Hpt].
  exists rec, pt. repeat split; assumption.
Defined.

(** The square 28 is e4, and 64 is no square. *)
Lemma square_names_witness :
  square_name 28 = ok "e4"%string /\ square_name 64 = raise IndexError.
Proof.
  split.
  - destruct (square_names 28) as [H _]. destruct H as [H _]; [lia | exact H].
  - destruct (square_names 64) as [_ H]. apply H. left. lia.
Defined.

End FurtherWitnesses.
